(** * Mess portal: vote ledger, identity deriver and admin token authority

    A shallow embedding of the Flask back end
    ([src/models/mess_models.py], [src/routes/mess_routes.py],
    [src/routes/admin_routes.py]) and the properties of its
    vote-deduplication and session-authentication core.

    Conventions of the model.
    - A Python [str] is represented by the bytes of its UTF-8 encoding, as a
      Rocq [string]; [s.encode()] is therefore the identity, and [len]
      counts the bytes that start a code point.
    - Times are integers (seconds since the epoch); one request reads one
      clock value.
    - The relational store is a record of tables; a table is a finite map
      from primary key to row.
    - Exceptions are values: a computation that can raise returns
      [result A]. *)

From Stdlib Require Import ZArith List String Ascii Bool Lia.
From stdpp Require Import base option list fin_maps gmap strings.

Local Open Scope Z_scope.

(* ================================================================== *)
(** ** [hashlib.sha256] *)

(** The digest the models call through [hashlib.sha256(...).hexdigest()],
    written out after FIPS 180-4 on 32-bit words carried by [Z]. *)
Module SHA256.

Definition mask32 : Z := 2 ^ 32 - 1.
Definition w32 (x : Z) : Z := Z.land x mask32.
Definition add32 (x y : Z) : Z := w32 (x + y).

Definition rotr (n x : Z) : Z :=
  Z.lor (Z.shiftr x n) (w32 (Z.shiftl x (32 - n))).
Definition shr (n x : Z) : Z := Z.shiftr x n.

Definition Ch (x y z : Z) : Z :=
  Z.lxor (Z.land x y) (Z.land (Z.lxor x mask32) z).
Definition Maj (x y z : Z) : Z :=
  Z.lxor (Z.lxor (Z.land x y) (Z.land x z)) (Z.land y z).
Definition Sigma0 (x : Z) : Z :=
  Z.lxor (Z.lxor (rotr 2 x) (rotr 13 x)) (rotr 22 x).
Definition Sigma1 (x : Z) : Z :=
  Z.lxor (Z.lxor (rotr 6 x) (rotr 11 x)) (rotr 25 x).
Definition sigma0 (x : Z) : Z :=
  Z.lxor (Z.lxor (rotr 7 x) (rotr 18 x)) (shr 3 x).
Definition sigma1 (x : Z) : Z :=
  Z.lxor (Z.lxor (rotr 17 x) (rotr 19 x)) (shr 10 x).

(** The round constants are the fractional parts of the cube roots of the
    first 64 primes; the initial state, of the square roots of the first
    8.  Both tables are computed here rather than typed in. *)
Definition is_prime (n : Z) : bool :=
  (1 <? n) &&
  forallb (fun d => negb (n mod d =? 0))
          (map (fun i => Z.of_nat i + 2) (seq 0 (Z.to_nat (n - 2)))).

Fixpoint primes_from (fuel : nat) (n : Z) (count : nat) : list Z :=
  match fuel, count with
  | O, _ | _, O => []
  | S fuel', S count' =>
      if is_prime n then n :: primes_from fuel' (n + 1) count'
      else primes_from fuel' (n + 1) count
  end.

Definition first_primes (count : nat) : list Z := primes_from 400 2 count.

(** Integer cube root, one result bit per step from bit [bits - 1] down. *)
Fixpoint icbrt_bits (bits : nat) (n r : Z) : Z :=
  match bits with
  | O => r
  | S b =>
      let r' := r + 2 ^ Z.of_nat b in
      icbrt_bits b n (if r' * r' * r' <=? n then r' else r)
  end.
Definition icbrt (n : Z) : Z := icbrt_bits 40 n 0.

Definition K : list Z :=
  Eval vm_compute in
    map (fun p => w32 (icbrt (p * 2 ^ 96))) (first_primes 64).

Record regs : Type := Regs {
  ra : Z; rb : Z; rc : Z; rd : Z; re : Z; rf : Z; rg : Z; rh : Z
}.

Definition H0 : regs :=
  Eval vm_compute in
    match map (fun p => w32 (Z.sqrt (p * 2 ^ 64))) (first_primes 8) with
    | [a; b; c; d; e; f; g; h] => Regs a b c d e f g h
    | _ => Regs 0 0 0 0 0 0 0 0
    end.

(** One round.  The message schedule is kept as a sliding window of 16
    words [W_t .. W_(t+15)]; the round consumes [W_t] and appends
    [W_(t+16)]. *)
Definition round (st : regs * list Z) (k : Z) : regs * list Z :=
  let '(r, win) := st in
  let W i := nth i win 0 in
  let T1 := add32 (add32 (add32 (add32 (rh r) (Sigma1 (re r)))
                                (Ch (re r) (rf r) (rg r))) k) (W 0%nat) in
  let T2 := add32 (Sigma0 (ra r)) (Maj (ra r) (rb r) (rc r)) in
  let wnew := add32 (add32 (add32 (sigma1 (W 14%nat)) (W 9%nat))
                           (sigma0 (W 1%nat))) (W 0%nat) in
  (Regs (add32 T1 T2) (ra r) (rb r) (rc r) (add32 (rd r) T1)
        (re r) (rf r) (rg r),
   (tl win ++ [wnew])%list).

Definition compress (h : regs) (block : list Z) : regs :=
  let r := fst (fold_left round K (h, block)) in
  Regs (add32 (ra h) (ra r)) (add32 (rb h) (rb r))
       (add32 (rc h) (rc r)) (add32 (rd h) (rd r))
       (add32 (re h) (re r)) (add32 (rf h) (rf r))
       (add32 (rg h) (rg r)) (add32 (rh h) (rh r)).

(** Big-endian encoding of [x] on [n] bytes. *)
Fixpoint be_bytes (n : nat) (x : Z) : list Z :=
  match n with
  | O => []
  | S m => Z.land (Z.shiftr x (8 * Z.of_nat m)) 255 :: be_bytes m x
  end.

Definition pad (msg : list Z) : list Z :=
  let L := Z.of_nat (List.length msg) in
  (msg ++ [128] ++ repeat 0 (Z.to_nat ((55 - L) mod 64))
       ++ be_bytes 8 (8 * L))%list.

Fixpoint chunks {A} (count size : nat) (l : list A) : list (list A) :=
  match count with
  | O => []
  | S c => firstn size l :: chunks c size (skipn size l)
  end.

Definition be_word (bs : list Z) : Z :=
  fold_left (fun acc b => acc * 256 + b) bs 0.

Definition blocks (msg : list Z) : list (list Z) :=
  let p := pad msg in
  let words := map be_word (chunks (List.length p / 4) 4 p) in
  chunks (List.length words / 16) 16 words.

Definition digest (msg : list Z) : regs :=
  fold_left compress (blocks msg) H0.

Definition hex_chars : list ascii :=
  list_ascii_of_string "0123456789abcdef"%string.
Definition hex_digit (x : Z) : ascii :=
  nth (Z.to_nat (Z.land x 15)) hex_chars "0"%char.

Fixpoint hex_nibbles (n : nat) (x : Z) : list ascii :=
  match n with
  | O => []
  | S m => hex_digit (Z.shiftr x (4 * Z.of_nat m)) :: hex_nibbles m x
  end.

Definition regs_words (r : regs) : list Z :=
  [ra r; rb r; rc r; rd r; re r; rf r; rg r; rh r].

Definition bytes_of_string (s : string) : list Z :=
  map (fun c => Z.of_N (N_of_ascii c)) (list_ascii_of_string s).

(** [hashlib.sha256(s.encode()).hexdigest()] *)
Definition hexdigest (s : string) : string :=
  string_of_list_ascii
    (flat_map (hex_nibbles 8) (regs_words (digest (bytes_of_string s)))).

End SHA256.

Arguments SHA256.hexdigest : simpl never.

Local Open Scope string_scope.
Local Open Scope Z_scope.

(* ================================================================== *)
(** ** The Python values and exceptions the handlers meet *)

Inductive PyExc : Type :=
| ValueError | TypeError | IntegrityError | OperationalError
| OverflowError.

(** A computation that returns or raises. *)
Inductive result (A : Type) : Type :=
| Return (a : A)
| Raise (e : PyExc).
Arguments Return {A} a.
Arguments Raise {A} e.

#[global] Instance result_ret : MRet result := fun A a => Return a.
#[global] Instance result_bind : MBind result := fun A B k m =>
  match m with
  | Return a => k a
  | Raise e => Raise e
  end.

Module Py.

(** Truth value of a string: [''] is falsy. *)
Definition truthy (s : string) : bool := negb (String.eqb s "").

(** [s.split(sep)] for a one-character separator: one more field than
    there are separators, empty fields kept. *)
Fixpoint split (sep : ascii) (s : string) : list string :=
  match s with
  | EmptyString => [""]
  | String c rest =>
      if Ascii.eqb c sep then "" :: split sep rest
      else match split sep rest with
           | field :: fields => String c field :: fields
           | [] => [String c ""]
           end
  end.

(** [a, b = fields]: unpacking into two names raises [ValueError] unless
    there are exactly two fields. *)
Definition unpack2 (fields : list string) : result (string * string) :=
  match fields with
  | [a; b] => Return (a, b)
  | _ => Raise ValueError
  end.

(** [len(s)]: the number of code points, that is of bytes that are not
    UTF-8 continuation bytes [10xxxxxx]. *)
Fixpoint len (s : string) : Z :=
  match s with
  | EmptyString => 0
  | String c rest =>
      (if Z.land (Z.of_N (N_of_ascii c)) 192 =? 128 then 0 else 1) + len rest
  end.

(** [str.lower] on ASCII text: [A-Z] move to [a-z], every other byte is
    kept. *)
Definition ascii_lower_char (c : ascii) : ascii :=
  let n := N_of_ascii c in
  if ((65 <=? n) && (n <=? 90))%N then ascii_of_N (n + 32) else c.

Fixpoint ascii_lower (s : string) : string :=
  match s with
  | EmptyString => EmptyString
  | String c rest => String (ascii_lower_char c) (ascii_lower rest)
  end.

End Py.

(* ================================================================== *)
(** ** The PyJWT calls of the token authority *)

(** [jwt.encode] and [jwt.decode] with HS256, symbolically: a token is the
    payload together with the key that signed it, or a string that is no
    token at all.  The signature verifies exactly when the keys agree. *)
Module jwt.

Record payload : Type := Payload { admin_id : Z; exp : Z; iat : Z }.

Inductive token : Type :=
| Signed (p : payload) (key : string)
| Junk (s : string).

#[global] Instance payload_eq_dec : EqDecision payload.
Proof. solve_decision. Defined.
#[global] Instance token_eq_dec : EqDecision token.
Proof. solve_decision. Defined.

Inductive InvalidTokenError : Type :=
| DecodeError | InvalidSignatureError
| ExpiredSignatureError | ImmatureSignatureError.

Definition encode (p : payload) (key : string) : token := Signed p key.

(** [jwt.decode(token, key, algorithms=['HS256'])] at clock [now]: the
    signature first, then [exp] (expired once [exp <= now]) and [iat]. *)
Definition decode (t : token) (key : string) (now : Z)
  : InvalidTokenError + payload :=
  match t with
  | Junk _ => inl DecodeError
  | Signed p k =>
      if negb (String.eqb k key) then inl InvalidSignatureError
      else if exp p <=? now then inl ExpiredSignatureError
      else if now <? iat p then inl ImmatureSignatureError
      else inr p
  end.

End jwt.

(* ================================================================== *)
(** ** [src/models/mess_models.py] *)

(** A row is a record of the columns other than the primary key [id]; the
    key is the row's index in its table. *)
Module Vote.
Record t : Type := mk {
  day : string;
  meal : string;
  dish : string;
  user_identifier : string;
  ip_address : string;
  timestamp : Z;
  session_id : string
}.

(** The columns of [UniqueConstraint('day', 'meal', 'user_identifier')]. *)
Definition unique_vote (v : t) : string * string * string :=
  (day v, meal v, user_identifier v).
End Vote.

Module Feedback.
Record t : Type := mk {
  feedback_type : string;
  message : string;
  rating : option Z;
  ip_address : string;
  timestamp : Z;
  session_id : string
}.
End Feedback.

Module Complaint.
Record t : Type := mk {
  category : string;
  message : string;
  urgency : string;
  ip_address : string;
  timestamp : Z;
  session_id : string;
  status : string;
  photos : option string
}.
End Complaint.

Module MenuSuggestion.
Record t : Type := mk {
  dish_name : string;
  meal_type : string;
  ingredients : string;
  description : string;
  ip_address : string;
  timestamp : Z;
  session_id : string
}.
End MenuSuggestion.

Module MenuPDF.
Record t : Type := mk {
  filename : string;
  original_filename : string;
  file_size : option Z;
  upload_date : Z;
  uploaded_by : option Z
}.
End MenuPDF.

Module AdminUser.
Record t : Type := mk {
  username : string;
  password_hash : string;
  email : option string;
  created_at : Z;
  last_login : option Z;
  is_active : bool
}.

(** [hash_password(password)]; [salt] is the draw of
    [secrets.token_hex(16)]. *)
Definition hash_password (salt password : string) : string :=
  salt +:+ ":" +:+ SHA256.hexdigest (password +:+ salt).

(** The [try] block of [verify_password]. *)
Definition verify_password_try (self : t) (password : string)
  : result bool :=
  '(salt, stored_hash) ← Py.unpack2 (Py.split ":" (password_hash self));
  let password_hash := SHA256.hexdigest (password +:+ salt) in
  mret (String.eqb password_hash stored_hash).

(** [verify_password]: [except ValueError: return False]; any other
    exception propagates to the caller. *)
Definition verify_password (self : t) (password : string) : result bool :=
  match verify_password_try self password with
  | Raise ValueError => Return false
  | r => r
  end.
End AdminUser.

Module AdminSession.
Record t : Type := mk {
  admin_id : Z;
  token : jwt.token;
  created_at : Z;
  expires_at : Z;
  ip_address : string
}.

(** [is_expired] at clock [utcnow]. *)
Definition is_expired (self : t) (utcnow : Z) : bool :=
  expires_at self <? utcnow.

(** [create_session(admin_id, ip_address, expires_in_hours)];
    [generated] is the draw of [generate_token()], that is of
    [secrets.token_urlsafe(32)]. *)
Definition create_session (utcnow : Z) (generated : string)
    (admin_id : Z) (ip_address : string) (expires_in_hours : Z) : t :=
  let token := jwt.Junk generated in
  let expires_at := utcnow + expires_in_hours * 3600 in
  mk admin_id token utcnow expires_at ip_address.

Definition set_token (self : t) (token : jwt.token) : t :=
  mk (admin_id self) token (created_at self) (expires_at self)
     (ip_address self).
End AdminSession.

(** The database: one finite map per table. *)
Record Store : Type := mkStore {
  votes : gmap Z Vote.t;
  feedback : gmap Z Feedback.t;
  complaints : gmap Z Complaint.t;
  menu_suggestions : gmap Z MenuSuggestion.t;
  admin_users : gmap Z AdminUser.t;
  menu_pdfs : gmap Z MenuPDF.t;
  admin_sessions : gmap Z AdminSession.t
}.

Definition set_votes (st : Store) (t : gmap Z Vote.t) : Store :=
  mkStore t (feedback st) (complaints st) (menu_suggestions st)
          (admin_users st) (menu_pdfs st) (admin_sessions st).
Definition set_admin_users (st : Store) (t : gmap Z AdminUser.t) : Store :=
  mkStore (votes st) (feedback st) (complaints st) (menu_suggestions st)
          t (menu_pdfs st) (admin_sessions st).
Definition set_admin_sessions (st : Store) (t : gmap Z AdminSession.t)
  : Store :=
  mkStore (votes st) (feedback st) (complaints st) (menu_suggestions st)
          (admin_users st) (menu_pdfs st) t.

(** What the queries and the unit of work do to a table. *)
Module db.

(** The key an autoincrement column gives the next row. *)
Definition next_id {A} (table : gmap Z A) : Z :=
  1 + foldr Z.max 0 (map_to_list table).*1.

(** [query.first()]: the matching row of least primary key. *)
Definition first {A} (rows : gmap Z A) : option (Z * A) :=
  foldr (λ kv best,
           match best with
           | Some kv' => if decide (kv.1 < kv'.1) then Some kv else best
           | None => Some kv
           end) None (map_to_list rows).

(** [add(vote); commit()] on the votes table: the [unique_vote]
    constraint raises [IntegrityError], an unreachable database
    [OperationalError]. *)
Definition add_vote (down : bool) (table : gmap Z Vote.t) (vote : Vote.t)
  : result (Z * gmap Z Vote.t) :=
  if down then Raise OperationalError
  else if decide (filter (λ kv : Z * Vote.t,
                            Vote.unique_vote kv.2 = Vote.unique_vote vote)
                         table = ∅)
  then let id := next_id table in Return (id, <[id := vote]> table)
  else Raise IntegrityError.

(** The integers SQLite's [INTEGER] holds and its driver binds: signed,
    64 bits. *)
Definition INTEGER (n : Z) : bool := (- 2 ^ 63 <=? n) && (n <? 2 ^ 63).

(** [Model.query.get(id)] on the default database of [main.py], SQLite.
    A row the table holds is found (its key is an [INTEGER]); for an id
    that is not there, the answer is [None] when the driver can bind the
    id, and binding an id outside 64 bits raises [OverflowError]. *)
Definition get {A} (table : gmap Z A) (id : Z) : result (option A) :=
  match table !! id with
  | Some row => Return (Some row)
  | None => if INTEGER id then Return None else Raise OverflowError
  end.

End db.

(** [create_user_identifier(ip_address, user_agent, additional_data=None)] *)
Definition create_user_identifier (ip_address user_agent : string)
    (additional_data : option string) : string :=
  let identifier_data := ip_address +:+ ":" +:+ user_agent in
  let identifier_data :=
    match additional_data with
    | Some extra =>
        if Py.truthy extra then identifier_data +:+ ":" +:+ extra
        else identifier_data
    | None => identifier_data
    end in
  String.substring 0 32 (SHA256.hexdigest identifier_data).

(** [cleanup_expired_sessions()] at clock [utcnow]: the expired rows are
    queried, deleted one by one, and counted. *)
Definition cleanup_expired_sessions (st : Store) (utcnow : Z) : Store * nat :=
  let expired_sessions :=
    map_to_list
      (filter (λ kv : Z * AdminSession.t,
                 AdminSession.expires_at kv.2 < utcnow) (admin_sessions st)) in
  let table :=
    foldl (λ table (session : Z * AdminSession.t), delete session.1 table)
          (admin_sessions st) expired_sessions in
  (set_admin_sessions st table, length expired_sessions).

(* ================================================================== *)
(** ** Requests, responses and what surrounds a request *)

(** The library and process facts the handlers read but the repository
    does not define. *)
Class Runtime : Type := {
  (** [str.lower] *)
  str_lower : string → string;
  (** [hashlib.md5(s.encode()).hexdigest()] *)
  md5_hexdigest : string → string;
  (** [str(t.timestamp())] *)
  timestamp_str : Z → string;
  (** [os.environ.get('JWT_SECRET_KEY')] *)
  environ_JWT_SECRET_KEY : option string
}.

(** What one request draws from the clock and from [secrets]. *)
Record Env : Type := mkEnv {
  utcnow : Z;
  token_hex : string;
  token_urlsafe : string
}.

(** What happens around a vote submission, between its query and its
    insert: the votes other requests commit meanwhile, and whether the
    database can be reached. *)
Record Conditions : Type := mkConditions {
  concurrent_votes : list Vote.t;
  storage_down : bool
}.

Definition calm : Conditions := mkConditions [] false.

(** The [Authorization] header, read: [Bearer t] stands for the line
    ['Bearer ' + t]; anything else does not start with ['Bearer ']. *)
Inductive Authorization : Type :=
| Bearer (token : jwt.token)
| Unrecognised (raw : string).

(** The parts of a Flask request the handlers read.  [json] is the parsed
    body: an object with string fields, or [None]. *)
Record Request : Type := mkRequest {
  remote_addr : string;
  http_x_forwarded_for : option string;
  user_agent : option string;
  authorization : option Authorization;
  json : option (gmap string string)
}.

Inductive Body : Type :=
| Error (code message : string) (details : option (string * string))
| VoteSubmitted (message : string) (vote_id : Z)
| VoteStatus (has_voted : bool) (vote_details : option (Z * Vote.t))
| LoggedIn (token : jwt.token) (expires_in : Z)
           (admin : Z * string * option string)
| Success (message : string)
| Profile (admin : Z * AdminUser.t)
| InternalServerError.

(** [jsonify(body), status]; [InternalServerError] is the page Flask
    answers, with status 500, when a view raises: the admin blueprint
    registers no handler for it. *)
Definition Response : Type := Body * Z.

(** [data[field]]; the handlers index only fields they have checked. *)
Definition item (data : gmap string string) (field : string) : string :=
  default "" (data !! field).

(** The loop over [required_fields]: the first field that is absent or
    falsy. *)
Fixpoint missing_field (data : gmap string string)
    (required_fields : list string) : option string :=
  match required_fields with
  | [] => None
  | field :: rest =>
      match data !! field with
      | Some v => if Py.truthy v then missing_field data rest else Some field
      | None => Some field
      end
  end.

Definition MISSING_FIELD (field : string) : Response :=
  (Error "MISSING_FIELD" ("Missing required field: " +:+ field) None, 400).

Definition get_client_ip (req : Request) : string :=
  match http_x_forwarded_for req with
  | None => remote_addr req
  | Some forwarded => forwarded
  end.

Definition get_user_agent (req : Request) : string :=
  default "" (user_agent req).

(* ================================================================== *)
(** ** [src/routes/mess_routes.py] *)

Section MessRoutes.
Context `{Runtime}.

Definition create_session_id (req : Request) (env : Env) : string :=
  let timestamp := timestamp_str (utcnow env) in
  let ip := get_client_ip req in
  let user_agent := get_user_agent req in
  md5_hexdigest (timestamp +:+ ":" +:+ ip +:+ ":" +:+ user_agent).

(** [Vote.query.filter_by(day=, meal=, user_identifier=).first()] *)
Definition query_vote (table : gmap Z Vote.t)
    (day meal user_identifier : string) : option (Z * Vote.t) :=
  db.first (filter (λ kv : Z * Vote.t,
                      Vote.unique_vote kv.2 = (day, meal, user_identifier))
                   table).

(** The votes table once the concurrent requests have committed; each of
    them is held to the [unique_vote] constraint too. *)
Definition commit_concurrent (c : Conditions) (table : gmap Z Vote.t)
  : gmap Z Vote.t :=
  foldl (λ table vote,
           match db.add_vote false table vote with
           | Return (_, table') => table'
           | Raise _ => table
           end) table (concurrent_votes c).

Definition vote_INTERNAL_ERROR : Response :=
  (Error "INTERNAL_ERROR" "An error occurred while submitting your vote"
         None, 500).

(** [submit_vote()] under conditions [c]. *)
Definition submit_vote_under (c : Conditions) (st : Store) (req : Request)
    (env : Env) : Store * Response :=
  match json req with
  | None =>
      (* ['day' not in None] raises; [except Exception] *)
      (st, vote_INTERNAL_ERROR)
  | Some data =>
      match missing_field data ["day"; "meal"; "dish"] with
      | Some field => (st, MISSING_FIELD field)
      | None =>
          let ip_address := get_client_ip req in
          let user_agent := get_user_agent req in
          let user_identifier :=
            create_user_identifier ip_address user_agent None in
          let session_id := create_session_id req env in
          let existing_vote :=
            query_vote (votes st) (str_lower (item data "day"))
                       (str_lower (item data "meal")) user_identifier in
          match existing_vote with
          | Some _ =>
              (st, (Error "DUPLICATE_VOTE"
                          "You have already voted for this meal"
                          (Some (item data "day", item data "meal")), 400))
          | None =>
              let vote :=
                Vote.mk (str_lower (item data "day"))
                        (str_lower (item data "meal"))
                        (item data "dish") user_identifier ip_address
                        (utcnow env) session_id in
              let st := set_votes st (commit_concurrent c (votes st)) in
              match db.add_vote (storage_down c) (votes st) vote with
              | Return (vote_id, table) =>
                  (set_votes st table,
                   (VoteSubmitted "Vote submitted successfully" vote_id,
                    201))
              | Raise _ =>
                  (* [except Exception: db.session.rollback()] *)
                  (st, vote_INTERNAL_ERROR)
              end
          end
      end
  end.

(** [submit_vote()] when nothing interferes. *)
Definition submit_vote : Store → Request → Env → Store * Response :=
  submit_vote_under calm.

(** [check_vote_status()] *)
Definition check_vote_status (st : Store) (req : Request)
  : Store * Response :=
  match json req with
  | None =>
      (st, (Error "INTERNAL_ERROR"
                  "An error occurred while checking vote status" None, 500))
  | Some data =>
      match missing_field data ["day"; "meal"] with
      | Some field => (st, MISSING_FIELD field)
      | None =>
          let ip_address := get_client_ip req in
          let user_agent := get_user_agent req in
          let user_identifier :=
            create_user_identifier ip_address user_agent None in
          let existing_vote :=
            query_vote (votes st) (str_lower (item data "day"))
                       (str_lower (item data "meal")) user_identifier in
          (st, (VoteStatus (bool_decide (is_Some existing_vote))
                           existing_vote, 200))
      end
  end.

End MessRoutes.

(* ================================================================== *)
(** ** [src/routes/admin_routes.py] *)

Section AdminRoutes.
Context `{Runtime}.

Definition JWT_SECRET_KEY : string :=
  default "mess_portal_jwt_secret_2024" environ_JWT_SECRET_KEY.
Definition JWT_EXPIRATION_HOURS : Z := 1.

Definition generate_jwt_token (env : Env) (admin_id expires_in_hours : Z)
  : jwt.token :=
  let payload :=
    jwt.Payload admin_id (utcnow env + expires_in_hours * 3600)
                (utcnow env) in
  jwt.encode payload JWT_SECRET_KEY.

(** Both [except] clauses return [None]. *)
Definition verify_jwt_token (env : Env) (token : jwt.token) : option Z :=
  match jwt.decode token JWT_SECRET_KEY (utcnow env) with
  | inr payload => Some (jwt.admin_id payload)
  | inl _ => None
  end.

Definition unauthorized (code message : string) : Response :=
  (Error code message None, 401).

(** A view that [require_admin_auth] protects: it finds the admin the
    decorator put in [request.current_admin]. *)
Definition View : Type :=
  Store → Request → Env → Z * AdminUser.t → Store * Response.

(** [require_admin_auth(f)], the decorated function.  Nothing in it is
    inside a [try]: when [AdminUser.query.get] raises, after the sweep
    has been committed, the request ends in Flask's 500. *)
Definition require_admin_auth (f : View) (st : Store) (req : Request)
    (env : Env) : Store * Response :=
  let st := (cleanup_expired_sessions st (utcnow env)).1 in
  match authorization req with
  | Some (Bearer token) =>
      match verify_jwt_token env token with
      | Some admin_id =>
          if admin_id =? 0 then
            (st, unauthorized "INVALID_TOKEN" "Invalid or expired token")
          else
            match db.get (admin_users st) admin_id with
            | Return (Some admin) =>
                if AdminUser.is_active admin then
                  f st req env (admin_id, admin)
                else
                  (st, unauthorized "ADMIN_NOT_FOUND"
                                    "Admin user not found or inactive")
            | Return None =>
                (st, unauthorized "ADMIN_NOT_FOUND"
                                  "Admin user not found or inactive")
            | Raise _ => (st, (InternalServerError, 500))
            end
      | None =>
          (st, unauthorized "INVALID_TOKEN" "Invalid or expired token")
      end
  | _ =>
      (st, unauthorized "UNAUTHORIZED"
                        "Missing or invalid authorization header")
  end.

(** [add(session); commit()] on the sessions table, whose [token] column
    is [unique]. *)
Definition add_session (table : gmap Z AdminSession.t)
    (session : AdminSession.t) : result (gmap Z AdminSession.t) :=
  if decide (filter (λ kv : Z * AdminSession.t,
                       AdminSession.token kv.2 = AdminSession.token session)
                    table = ∅)
  then Return (<[db.next_id table := session]> table)
  else Raise IntegrityError.

Definition set_last_login (admin : AdminUser.t) (t : Z) : AdminUser.t :=
  AdminUser.mk (AdminUser.username admin) (AdminUser.password_hash admin)
               (AdminUser.email admin) (AdminUser.created_at admin)
               (Some t) (AdminUser.is_active admin).

Definition set_password_hash (admin : AdminUser.t) (h : string)
  : AdminUser.t :=
  AdminUser.mk (AdminUser.username admin) h
               (AdminUser.email admin) (AdminUser.created_at admin)
               (AdminUser.last_login admin) (AdminUser.is_active admin).

Definition login_INTERNAL_ERROR : Response :=
  (Error "INTERNAL_ERROR" "An error occurred during login" None, 500).

(** [admin_login()] *)
Definition admin_login (st : Store) (req : Request) (env : Env)
  : Store * Response :=
  match json req with
  | Some data =>
      match data !! "username", data !! "password" with
      | Some username, Some password =>
          let admin :=
            db.first (filter (λ kv : Z * AdminUser.t,
                                AdminUser.username kv.2 = username)
                             (admin_users st)) in
          match admin with
          | None =>
              (st, unauthorized "INVALID_CREDENTIALS"
                                "Invalid username or password")
          | Some (id, admin) =>
              match AdminUser.verify_password admin password with
              | Raise _ => (st, login_INTERNAL_ERROR)
              | Return false =>
                  (st, unauthorized "INVALID_CREDENTIALS"
                                    "Invalid username or password")
              | Return true =>
                  if negb (AdminUser.is_active admin) then
                    (st, unauthorized "ACCOUNT_DISABLED"
                                      "Admin account is disabled")
                  else
                    let token :=
                      generate_jwt_token env id JWT_EXPIRATION_HOURS in
                    let admin := set_last_login admin (utcnow env) in
                    let ip_address := get_client_ip req in
                    let session :=
                      AdminSession.create_session
                        (utcnow env) (token_urlsafe env) id ip_address 1 in
                    let session := AdminSession.set_token session token in
                    match add_session (admin_sessions st) session with
                    | Return table =>
                        (set_admin_sessions
                           (set_admin_users st
                              (<[id := admin]> (admin_users st))) table,
                         (LoggedIn token (JWT_EXPIRATION_HOURS * 3600)
                                   (id, AdminUser.username admin,
                                    AdminUser.email admin), 200))
                    | Raise _ => (st, login_INTERNAL_ERROR)
                    end
              end
          end
      | _, _ =>
          (st, (Error "MISSING_CREDENTIALS"
                      "Username and password are required" None, 400))
      end
  | None =>
      (st, (Error "MISSING_CREDENTIALS"
                  "Username and password are required" None, 400))
  end.

(** The body of [admin_logout()]. *)
Definition admin_logout_view : View := fun st req env _ =>
  match authorization req with
  | Some (Bearer token) =>
      let session :=
        db.first (filter (λ kv : Z * AdminSession.t,
                            AdminSession.token kv.2 = token)
                         (admin_sessions st)) in
      let st :=
        match session with
        | Some (id, _) =>
            set_admin_sessions st (delete id (admin_sessions st))
        | None => st
        end in
      (st, (Success "Logged out successfully", 200))
  | _ =>
      (st, (Error "INTERNAL_ERROR" "An error occurred during logout" None,
            500))
  end.

Definition admin_logout : Store → Request → Env → Store * Response :=
  require_admin_auth admin_logout_view.

(** The body of [get_admin_profile()]. *)
Definition get_admin_profile_view : View := fun st req env admin =>
  (st, (Profile admin, 200)).

Definition get_admin_profile : Store → Request → Env → Store * Response :=
  require_admin_auth get_admin_profile_view.

(** The body of [change_password()]. *)
Definition change_password_view : View := fun st req env current_admin =>
  let '(id, admin) := current_admin in
  match json req with
  | None =>
      (st, (Error "INTERNAL_ERROR"
                  "An error occurred while changing password" None, 500))
  | Some data =>
      match missing_field data ["current_password"; "new_password"] with
      | Some field => (st, MISSING_FIELD field)
      | None =>
          match AdminUser.verify_password
                  admin (item data "current_password") with
          | Raise _ =>
              (st, (Error "INTERNAL_ERROR"
                          "An error occurred while changing password" None,
                    500))
          | Return false =>
              (st, (Error "INVALID_PASSWORD"
                          "Current password is incorrect" None, 400))
          | Return true =>
              if Py.len (item data "new_password") <? 6 then
                (st, (Error "WEAK_PASSWORD"
                        "New password must be at least 6 characters long"
                        None, 400))
              else
                let admin :=
                  set_password_hash admin
                    (AdminUser.hash_password (token_hex env)
                                             (item data "new_password")) in
                let st :=
                  set_admin_users st (<[id := admin]> (admin_users st)) in
                (* Invalidate all existing sessions for this admin *)
                let st :=
                  set_admin_sessions st
                    (filter (λ kv : Z * AdminSession.t,
                               AdminSession.admin_id kv.2 ≠ id)
                            (admin_sessions st)) in
                (st, (Success
                        "Password changed successfully. Please login again.",
                      200))
          end
      end
  end.

Definition change_password : Store → Request → Env → Store * Response :=
  require_admin_auth change_password_view.

End AdminRoutes.

(* ================================================================== *)
(** ** [main.py]: the store the application starts from *)

Definition empty_store : Store := mkStore ∅ ∅ ∅ ∅ ∅ ∅ ∅.

(** [db.create_all()] and the default admin; [salt] and [now] are the draws
    of [secrets.token_hex(16)] and of the clock. *)
Definition bootstrap (salt : string) (now : Z) : Store :=
  set_admin_users empty_store
    {[ 1 := AdminUser.mk "admin" (AdminUser.hash_password salt "admin123")
                         (Some "admin@mess.portal") now None true ]}.

(** One request served.  [step_elsewhere] stands for the handlers not
    written out here (feedback, complaints, menu suggestions, menu PDFs):
    they add and update rows of their own tables only. *)
Inductive step `{Runtime} : Store → Store → Prop :=
| step_submit_vote c st req env :
    step st (submit_vote_under c st req env).1
| step_check_vote_status st req :
    step st (check_vote_status st req).1
| step_admin_login st req env :
    step st (admin_login st req env).1
| step_admin_logout st req env :
    step st (admin_logout st req env).1
| step_get_admin_profile st req env :
    step st (get_admin_profile st req env).1
| step_change_password st req env :
    step st (change_password st req env).1
| step_elsewhere st st' :
    votes st' = votes st →
    admin_users st' = admin_users st →
    admin_sessions st' = admin_sessions st →
    step st st'.

Inductive reachable `{Runtime} : Store → Prop :=
| reachable_bootstrap salt now : reachable (bootstrap salt now)
| reachable_step st st' : reachable st → step st st' → reachable st'.

(** No two votes share [(day, meal, user_identifier)]. *)
Definition votes_unique (table : gmap Z Vote.t) : Prop :=
  ∀ i j v w, table !! i = Some v → table !! j = Some w →
             Vote.unique_vote v = Vote.unique_vote w → i = j.

(** A runtime to run the handlers on ASCII input: [str.lower] on ASCII,
    no [JWT_SECRET_KEY] in the environment.  The two functions behind
    [create_session_id] are stand-ins: the tag they build is stored with a
    vote and never read. *)
Definition example_runtime : Runtime :=
  {| str_lower := Py.ascii_lower;
     md5_hexdigest := fun s => s;
     timestamp_str := fun _ => "";
     environ_JWT_SECRET_KEY := None |}.

(** The number of occurrences of [sep] in [s]. *)
Fixpoint count_char (sep : ascii) (s : string) : nat :=
  match s with
  | EmptyString => 0
  | String c rest => (if Ascii.eqb c sep then 1 else 0) + count_char sep rest
  end.

(** The identity as the specification words it: the suffix is appended
    whenever the extra datum is present. *)
Definition identity_as_specified (ip_address user_agent : string)
    (extra : option string) : string :=
  String.substring 0 32
    (SHA256.hexdigest
       (ip_address +:+ ":" +:+ user_agent +:+
        match extra with Some e => ":" +:+ e | None => "" end)).

(** ** The vocabulary of the statements *)

(** The body of [req] carries [day], [meal] and [dish], none of them
    empty. *)
Definition vote_fields (req : Request) (day meal dish : string) : Prop :=
  ∃ data, json req = Some data
          ∧ data !! "day" = Some day ∧ data !! "meal" = Some meal
          ∧ data !! "dish" = Some dish
          ∧ day ≠ "" ∧ meal ≠ "" ∧ dish ≠ "".

(** The body of [req] carries [day] and [meal], neither empty. *)
Definition slot_fields (req : Request) (day meal : string) : Prop :=
  ∃ data, json req = Some data
          ∧ data !! "day" = Some day ∧ data !! "meal" = Some meal
          ∧ day ≠ "" ∧ meal ≠ "".

(** The identity the handlers derive for the sender of [req]. *)
Definition identity_of (req : Request) : string :=
  create_user_identifier (get_client_ip req) (get_user_agent req) None.

Definition no_vote_for (table : gmap Z Vote.t)
    (key : string * string * string) : Prop :=
  ∀ i v, table !! i = Some v → Vote.unique_vote v ≠ key.

Definition DUPLICATE_VOTE (day meal : string) : Response :=
  (Error "DUPLICATE_VOTE" "You have already voted for this meal"
         (Some (day, meal)), 400).

(** Every session row carries a token that expires no later than the row
    does. *)
Definition sessions_issued (table : gmap Z AdminSession.t) : Prop :=
  ∀ i s p key, table !! i = Some s →
               AdminSession.token s = jwt.Signed p key →
               jwt.exp p ≤ AdminSession.expires_at s.

(** [username] is a [unique] column. *)
Definition usernames_unique (table : gmap Z AdminUser.t) : Prop :=
  ∀ i j a b, table !! i = Some a → table !! j = Some b →
             AdminUser.username a = AdminUser.username b → i = j.

Definition INVALID_CREDENTIALS : Response :=
  (Error "INVALID_CREDENTIALS" "Invalid username or password" None, 401).
Definition ACCOUNT_DISABLED : Response :=
  (Error "ACCOUNT_DISABLED" "Admin account is disabled" None, 401).
Definition INVALID_TOKEN : Response :=
  (Error "INVALID_TOKEN" "Invalid or expired token" None, 401).
Definition password_changed : Response :=
  (Success "Password changed successfully. Please login again.", 200).

(** ** A session of the running system, to evaluate the handlers on *)

Module Scenario.

Definition secret : string := "mess_portal_jwt_secret_2024".

(** The store at start-up, at time 1000. *)
Definition st0 : Store := bootstrap "00112233445566778899aabbccddeeff" 1000.

Definition from_curl (auth : option Authorization)
    (body : option (gmap string string)) : Request :=
  mkRequest "10.0.0.1" None (Some "curl") auth body.

(** The default admin logs in at time 2000. *)
Definition login_request : Request :=
  from_curl None
    (Some {[ "username" := "admin"; "password" := "admin123" ]}).
Definition login_env : Env := mkEnv 2000 "" "dGhpcyBpcyBvdmVyd3JpdHRlbg".

(** The token that login issues: it expires at 2000 + 3600. *)
Definition token : jwt.token :=
  jwt.Signed (jwt.Payload 1 5600 2000) secret.

(** With it, the admin changes the password at time 2100. *)
Definition change_request : Request :=
  from_curl (Some (Bearer token))
    (Some {[ "current_password" := "admin123";
             "new_password" := "n3w-secret" ]}).
Definition change_env : Env :=
  mkEnv 2100 "ffeeddccbbaa99887766554433221100" "".

(** The same token is presented again at time 2200. *)
Definition profile_request : Request := from_curl (Some (Bearer token)) None.
Definition profile_env : Env := mkEnv 2200 "" "".

(** And once more after it has expired, at time 5601. *)
Definition late_env : Env := mkEnv 5601 "" "".

(** A store whose only admin has been disabled. *)
Definition disabled_admin : AdminUser.t :=
  AdminUser.mk "admin"
    (AdminUser.hash_password "00112233445566778899aabbccddeeff" "admin123")
    (Some "admin@mess.portal") 1000 None false.
Definition st_disabled : Store :=
  set_admin_users empty_store {[ 1 := disabled_admin ]}.
Definition wrong_password_request : Request :=
  from_curl None (Some {[ "username" := "admin"; "password" := "guess" ]}).

(** A vote for Monday lunch, and the same slot spelled differently. *)
Definition vote_request (day meal dish : string) : Request :=
  from_curl None
    (Some {[ "day" := day; "meal" := meal; "dish" := dish ]}).
Definition vote_env : Env := mkEnv 3000 "" "".

(** The vote another request from the same client commits meanwhile. *)
Definition racing_vote : Vote.t :=
  Vote.mk "monday" "lunch" "Idli"
          (create_user_identifier "10.0.0.1" "curl" None)
          "10.0.0.1" 3000 "".
Definition race : Conditions := mkConditions [racing_vote] false.

End Scenario.


(* ================================================================== *)
(** ** More of the handlers *)

(** *** [admin_routes.py]: [verify_token] *)

(** What [verify_token()] puts in its body: [success], [valid] and a
    message, or the admin the token stands for, or the error of its
    [except] branch. *)
Inductive TokenReport : Type :=
| NotValid (success : bool) (message : string)
| IsValid (admin : Z * string * option string)
| Failed (code message : string).

Section VerifyToken.
Context `{Runtime}.

(** [verify_token()] *)
Definition verify_token (st : Store) (req : Request) (env : Env)
  : Store * (TokenReport * Z) :=
  match authorization req with
  | Some (Bearer token) =>
      match verify_jwt_token env token with
      | Some admin_id =>
          if admin_id =? 0 then
            (st, (NotValid true "Invalid or expired token", 200))
          else
            match db.get (admin_users st) admin_id with
            | Return (Some admin) =>
                if AdminUser.is_active admin then
                  (st, (IsValid (admin_id, AdminUser.username admin,
                                 AdminUser.email admin), 200))
                else
                  (st, (NotValid true "Admin user not found or inactive",
                        200))
            | Return None =>
                (st, (NotValid true "Admin user not found or inactive", 200))
            | Raise _ =>
                (st, (Failed "INTERNAL_ERROR"
                             "An error occurred while verifying token", 500))
            end
      | None => (st, (NotValid true "Invalid or expired token", 200))
      end
  | _ =>
      (st, (NotValid false "Missing or invalid authorization header", 200))
  end.

End VerifyToken.

(** *** [pdf_routes.py]: the decorator of the PDF views *)

Module pdf_routes.

(** [require_admin_auth(f)] of [pdf_routes.py]: the decorated function
    calls [f] and nothing else; it reads no header and does not sweep. *)
Definition require_admin_auth {R : Type}
    (f : Store → Request → Env → Store * R)
  : Store → Request → Env → Store * R :=
  fun st req env => f st req env.

End pdf_routes.

(** *** [mess_routes.py]: feedback, complaints, menu suggestions *)

(** The three submissions with the storage at work: [add] and [commit]
    raise only for a constraint of the table, and a body that is no JSON
    object takes the [except] branch at the first [in data]. *)

Definition set_feedback (st : Store) (t : gmap Z Feedback.t) : Store :=
  mkStore (votes st) t (complaints st) (menu_suggestions st)
          (admin_users st) (menu_pdfs st) (admin_sessions st).
Definition set_complaints (st : Store) (t : gmap Z Complaint.t) : Store :=
  mkStore (votes st) (feedback st) t (menu_suggestions st)
          (admin_users st) (menu_pdfs st) (admin_sessions st).
Definition set_menu_suggestions (st : Store)
    (t : gmap Z MenuSuggestion.t) : Store :=
  mkStore (votes st) (feedback st) (complaints st) t
          (admin_users st) (menu_pdfs st) (admin_sessions st).

(** The body of a submission's answer: an error, or the new row's id
    under the name the view gives it. *)
Inductive Reply : Type :=
| Refused (code message : string)
| Created (message id_field : string) (id : Z).

(** [", ".join(words)] *)
Fixpoint join_comma (words : list string) : string :=
  match words with
  | [] => ""
  | [w] => w
  | w :: rest => w +:+ ", " +:+ join_comma rest
  end.

Definition valid_urgency_levels : list string :=
  ["low"; "medium"; "high"; "urgent"].
Definition valid_meal_types : list string :=
  ["breakfast"; "lunch"; "snacks"; "dinner"].

Section Submissions.
Context `{Runtime}.

Definition missing (field : string) : Reply * Z :=
  (Refused "MISSING_FIELD" ("Missing required field: " +:+ field), 400).

(** [submit_complaint()] *)
Definition submit_complaint (st : Store) (req : Request) (env : Env)
  : Store * (Reply * Z) :=
  match json req with
  | None =>
      (st, (Refused "INTERNAL_ERROR"
                    "An error occurred while submitting your complaint", 500))
  | Some data =>
      match missing_field data ["category"; "message"; "urgency"] with
      | Some field => (st, missing field)
      | None =>
          if bool_decide (str_lower (item data "urgency")
                          ∈ valid_urgency_levels) then
            let ip_address := get_client_ip req in
            let session_id := create_session_id req env in
            let complaint :=
              Complaint.mk (item data "category") (item data "message")
                           (str_lower (item data "urgency")) ip_address
                           (utcnow env) session_id "pending" None in
            let id := db.next_id (complaints st) in
            (set_complaints st (<[id := complaint]> (complaints st)),
             (Created "Complaint submitted successfully" "complaint_id" id,
              201))
          else
            (st, (Refused "INVALID_URGENCY"
                          ("Urgency must be one of: "
                           +:+ join_comma valid_urgency_levels), 400))
      end
  end.

(** [submit_menu_suggestion()] *)
Definition submit_menu_suggestion (st : Store) (req : Request) (env : Env)
  : Store * (Reply * Z) :=
  match json req with
  | None =>
      (st, (Refused "INTERNAL_ERROR"
                    "An error occurred while submitting your suggestion",
            500))
  | Some data =>
      match missing_field data ["dish_name"; "meal_type"] with
      | Some field => (st, missing field)
      | None =>
          if bool_decide (str_lower (item data "meal_type")
                          ∈ valid_meal_types) then
            let ip_address := get_client_ip req in
            let session_id := create_session_id req env in
            let suggestion :=
              MenuSuggestion.mk (item data "dish_name")
                                (str_lower (item data "meal_type"))
                                (default "" (data !! "ingredients"))
                                (default "" (data !! "description"))
                                ip_address (utcnow env) session_id in
            let id := db.next_id (menu_suggestions st) in
            (set_menu_suggestions st
               (<[id := suggestion]> (menu_suggestions st)),
             (Created "Menu suggestion submitted successfully"
                      "suggestion_id" id, 201))
          else
            (st, (Refused "INVALID_MEAL_TYPE"
                          ("Meal type must be one of: "
                           +:+ join_comma valid_meal_types), 400))
      end
  end.

(** [add(feedback); commit()]: the table's
    [CheckConstraint('rating >= 1 AND rating <= 5')] passes a null
    rating. *)
Definition add_feedback (table : gmap Z Feedback.t) (row : Feedback.t)
  : result (Z * gmap Z Feedback.t) :=
  match Feedback.rating row with
  | Some r =>
      if (1 <=? r) && (r <=? 5)
      then Return (db.next_id table, <[db.next_id table := row]> table)
      else Raise IntegrityError
  | None => Return (db.next_id table, <[db.next_id table := row]> table)
  end.

(** [submit_feedback()], for a body whose ['rating'] is absent, null
    ([rating = None]) or a JSON integer ([int(rating)] is then the integer
    itself).  The other fields come from [req]. *)
Definition submit_feedback (rating : option Z) (st : Store) (req : Request)
    (env : Env) : Store * (Reply * Z) :=
  let internal_error :=
    (Refused "INTERNAL_ERROR"
             "An error occurred while submitting your feedback", 500) in
  match json req with
  | None => (st, internal_error)
  | Some data =>
      match missing_field data ["feedback_type"; "message"] with
      | Some field => (st, missing field)
      | None =>
          if match rating with
             | Some r => (r <? 1) || (5 <? r)
             | None => false
             end
          then (st, (Refused "INVALID_RATING"
                             "Rating must be between 1 and 5", 400))
          else
            let ip_address := get_client_ip req in
            let session_id := create_session_id req env in
            let feedback_row :=
              Feedback.mk (item data "feedback_type") (item data "message")
                          rating ip_address (utcnow env) session_id in
            match add_feedback (feedback st) feedback_row with
            | Return (id, table) =>
                (set_feedback st table,
                 (Created "Feedback submitted successfully" "feedback_id" id,
                  201))
            | Raise _ => (st, internal_error)
            end
      end
  end.

End Submissions.

(** *** [main.py]: the default admin *)

(** The start-up block after [db.create_all()]: the default admin is
    added unless a row with username ['admin'] exists. *)
Definition create_default_admin (st : Store) (salt : string) (now : Z)
  : Store :=
  match db.first (filter (λ kv : Z * AdminUser.t,
                            AdminUser.username kv.2 = "admin")
                         (admin_users st)) with
  | Some _ => st
  | None =>
      let admin_user :=
        AdminUser.mk "admin" (AdminUser.hash_password salt "admin123")
                     (Some "admin@mess.portal") now None true in
      set_admin_users st
        (<[db.next_id (admin_users st) := admin_user]> (admin_users st))
  end.

(** *** More vocabulary *)

(** [token] is a [unique] column. *)
Definition tokens_unique (table : gmap Z AdminSession.t) : Prop :=
  ∀ i j s t, table !! i = Some s → table !! j = Some t →
             AdminSession.token s = AdminSession.token t → i = j.

(** The body of [req] carries [username] and [password]. *)
Definition credentials (req : Request) (username password : string) : Prop :=
  ∃ data, json req = Some data
          ∧ data !! "username" = Some username
          ∧ data !! "password" = Some password.

(** The guard lets [token] through at clock [now] for admin [id]: signed
    with the server's key, issued and not yet expired, for a non-zero id
    of an active admin of [st]. *)
Definition passes `{Runtime} (st : Store) (now : Z) (token : jwt.token)
    (id : Z) (admin : AdminUser.t) : Prop :=
  ∃ p, token = jwt.Signed p JWT_SECRET_KEY
       ∧ jwt.iat p ≤ now < jwt.exp p
       ∧ jwt.admin_id p = id ∧ id ≠ 0
       ∧ admin_users st !! id = Some admin
       ∧ AdminUser.is_active admin = true.

(** The admins of [t'] are those of [t], each with the username, email,
    creation time and active flag it had: only the password hash and
    [last_login] may differ. *)
Definition same_admins (t t' : gmap Z AdminUser.t) : Prop :=
  ∀ i, match t !! i, t' !! i with
       | Some a, Some b =>
           AdminUser.username a = AdminUser.username b
           ∧ AdminUser.email a = AdminUser.email b
           ∧ AdminUser.created_at a = AdminUser.created_at b
           ∧ AdminUser.is_active a = AdminUser.is_active b
       | None, None => True
       | _, _ => False
       end.

(** Every session row belongs to an admin of the store. *)
Definition sessions_owned (st : Store) : Prop :=
  ∀ i s, admin_sessions st !! i = Some s →
         is_Some (admin_users st !! AdminSession.admin_id s).

(** One request served by one of the handlers written out above. *)
Inductive serve `{Runtime} : Store → Store → Prop :=
| serve_submit_vote c st req env :
    serve st (submit_vote_under c st req env).1
| serve_check_vote_status st req :
    serve st (check_vote_status st req).1
| serve_submit_feedback rating st req env :
    serve st (submit_feedback rating st req env).1
| serve_submit_complaint st req env :
    serve st (submit_complaint st req env).1
| serve_submit_menu_suggestion st req env :
    serve st (submit_menu_suggestion st req env).1
| serve_admin_login st req env :
    serve st (admin_login st req env).1
| serve_admin_logout st req env :
    serve st (admin_logout st req env).1
| serve_get_admin_profile st req env :
    serve st (get_admin_profile st req env).1
| serve_change_password st req env :
    serve st (change_password st req env).1
| serve_verify_token st req env :
    serve st (verify_token st req env).1.

(** *** The session of the system, continued *)

Module Tour.

(** The store after the login of [Scenario], its admin and session row. *)
Definition st1 : Store :=
  (@admin_login example_runtime Scenario.st0 Scenario.login_request
                Scenario.login_env).1.
Definition admin0 : AdminUser.t :=
  AdminUser.mk "admin"
    (AdminUser.hash_password "00112233445566778899aabbccddeeff" "admin123")
    (Some "admin@mess.portal") 1000 None true.
Definition admin1 : AdminUser.t :=
  AdminUser.mk "admin"
    (AdminUser.hash_password "00112233445566778899aabbccddeeff" "admin123")
    (Some "admin@mess.portal") 1000 (Some 2000) true.
Definition session1 : AdminSession.t :=
  AdminSession.mk 1 Scenario.token 2000 5600 "10.0.0.1".
Definition payload1 : jwt.payload := jwt.Payload 1 5600 2000.

(** Requests carrying the token, at time 2100. *)
Definition env2100 : Env := mkEnv 2100 "ffeeddccbbaa99887766554433221100" "".
Definition logout_request : Request :=
  Scenario.from_curl (Some (Bearer Scenario.token)) None.

Definition wrong_current : gmap string string :=
  {[ "current_password" := "guess"; "new_password" := "n3w-secret" ]}.
Definition short_new : gmap string string :=
  {[ "current_password" := "admin123"; "new_password" := "abc" ]}.
Definition good_change : gmap string string :=
  {[ "current_password" := "admin123"; "new_password" := "n3w-secret" ]}.
Definition change_with (body : gmap string string) : Request :=
  Scenario.from_curl (Some (Bearer Scenario.token)) (Some body).

(** Submissions. *)
Definition no_meal : gmap string string :=
  {[ "day" := "monday"; "meal" := ""; "dish" := "Dosa" ]}.
Definition complaint_body (urgency : string) : gmap string string :=
  {[ "category" := "hygiene"; "message" := "dirty plates";
     "urgency" := urgency ]}.
Definition suggestion_body (meal_type : string) : gmap string string :=
  {[ "dish_name" := "Upma"; "meal_type" := meal_type ]}.
Definition feedback_body : gmap string string :=
  {[ "feedback_type" := "food"; "message" := "good" ]}.
Definition post (body : gmap string string) : Request :=
  Scenario.from_curl None (Some body).

End Tour.

(* ================================================================== *)
(** * Properties *)

(** ** Test vectors of the digest *)
Example sha_abc : SHA256.hexdigest "abc" = "ba7816bf8f01cfea414140de5dae2223b00361a396177a9cb410ff61f20015ad".
Proof. vm_compute. reflexivity. Qed.
Example sha_a55 : SHA256.hexdigest "aaaaaaaaaaaaaaaaaaaaaaaaaaaaaaaaaaaaaaaaaaaaaaaaaaaaaaa" = "9f4390f8d30c2dd92ec9f095b65e2b9ae9b0a925a5258e241c9f1e910f734318".
Proof. vm_compute. reflexivity. Qed.
Example sha_a56 : SHA256.hexdigest "aaaaaaaaaaaaaaaaaaaaaaaaaaaaaaaaaaaaaaaaaaaaaaaaaaaaaaaa" = "b35439a4ac6f0948b6d6f9e3c6af0f5f590ce20f1bde7090ef7970686ec6738a".
Proof. vm_compute. reflexivity. Qed.
Example sha_a64 : SHA256.hexdigest "aaaaaaaaaaaaaaaaaaaaaaaaaaaaaaaaaaaaaaaaaaaaaaaaaaaaaaaaaaaaaaaa" = "ffe054fe7ae0cb6dc65c3af9b61d5209f439851db43d0ba5997337df154668eb".
Proof. vm_compute. reflexivity. Qed.
Example sha_empty : SHA256.hexdigest "" = "e3b0c44298fc1c149afbf4c8996fb92427ae41e4649b934ca495991b7852b855".
Proof. vm_compute. reflexivity. Qed.


(** ** The digest is 64 lower-case hexadecimal characters *)

Lemma hex_digit_in (x : Z) : In (SHA256.hex_digit x) SHA256.hex_chars.
Proof.
  unfold SHA256.hex_digit.
  apply nth_In.
  assert (0 <= Z.land x 15 < 16) as Hb.
  { change 15 with (Z.ones 4). rewrite Z.land_ones by lia.
    apply Z.mod_pos_bound. lia. }
  change (List.length SHA256.hex_chars) with 16%nat. lia.
Qed.

Lemma hex_digit_not_colon (x : Z) : SHA256.hex_digit x ≠ ":"%char.
Proof.
  intros E. pose proof (hex_digit_in x) as Hin. rewrite E in Hin.
  cbv in Hin. intuition discriminate.
Qed.

Lemma hexdigest_unfold (s : string) :
  ∃ r, SHA256.hexdigest s =
       string_of_list_ascii
         (flat_map (SHA256.hex_nibbles 8) (SHA256.regs_words r)).
Proof. eexists. reflexivity. Qed.

Lemma hexdigest_length (s : string) :
  String.length (SHA256.hexdigest s) = 64%nat.
Proof.
  destruct (hexdigest_unfold s) as [r ->]. reflexivity.
Qed.

Lemma count_char_of_list (sep : ascii) (l : list ascii) :
  count_char sep (string_of_list_ascii l) =
  List.length (List.filter (Ascii.eqb sep) l).
Proof.
  induction l as [|c l IH]; [reflexivity|]. simpl.
  rewrite IH, (Ascii.eqb_sym c sep). destruct (Ascii.eqb sep c); reflexivity.
Qed.

Lemma hex_nibbles_no_colon (n : nat) (x : Z) :
  List.filter (Ascii.eqb ":") (SHA256.hex_nibbles n x) = [].
Proof.
  induction n as [|n IH]; [reflexivity|].
  cbn [SHA256.hex_nibbles List.filter].
  destruct (Ascii.eqb_spec ":" (SHA256.hex_digit (Z.shiftr x (4 * Z.of_nat n))))
    as [E|_]; [|exact IH].
  symmetry in E. destruct (hex_digit_not_colon _ E).
Qed.

Lemma hexdigest_no_colon (s : string) :
  count_char ":" (SHA256.hexdigest s) = 0%nat.
Proof.
  destruct (hexdigest_unfold s) as [r ->].
  rewrite count_char_of_list.
  induction (SHA256.regs_words r) as [|w ws IH]; [reflexivity|].
  cbn [flat_map]. rewrite List.filter_app, hex_nibbles_no_colon. exact IH.
Qed.

(** ** Strings *)

Lemma append_cons (c : ascii) (s t : string) :
  String c s +:+ t = String c (s +:+ t).
Proof. reflexivity. Qed.

Lemma append_empty_r (s : string) : s +:+ "" = s.
Proof.
  induction s as [|c s IH]; [reflexivity|]. rewrite append_cons, IH. reflexivity.
Qed.

Lemma append_assoc (s t u : string) : (s +:+ t) +:+ u = s +:+ t +:+ u.
Proof.
  induction s as [|c s IH]; [reflexivity|].
  rewrite !append_cons, IH. reflexivity.
Qed.

Lemma truthy_spec (s : string) : Py.truthy s = bool_decide (s ≠ "").
Proof.
  unfold Py.truthy. destruct (String.eqb_spec s "") as [->|Hne].
  - reflexivity.
  - symmetry. apply bool_decide_eq_true. exact Hne.
Qed.

Lemma split_length (sep : ascii) (s : string) :
  List.length (Py.split sep s) = S (count_char sep s).
Proof.
  induction s as [|c s IH]; [reflexivity|].
  cbn [Py.split count_char]. destruct (Ascii.eqb c sep).
  - cbn [List.length]. rewrite IH. reflexivity.
  - destruct (Py.split sep s) as [|f fs]; [discriminate IH|].
    cbn [List.length] in *. exact IH.
Qed.

Lemma split_no_sep (sep : ascii) (s : string) :
  count_char sep s = 0%nat → Py.split sep s = [s].
Proof.
  induction s as [|c s IH]; [reflexivity|].
  cbn [Py.split count_char]. destruct (Ascii.eqb c sep); [discriminate|].
  intros Hs. rewrite (IH Hs). reflexivity.
Qed.

Lemma split_app (sep : ascii) (a b : string) :
  count_char sep a = 0%nat →
  Py.split sep (a +:+ String sep b) = a :: Py.split sep b.
Proof.
  induction a as [|c a IH].
  - intros _. change ("" +:+ String sep b) with (String sep b).
    cbn [Py.split]. rewrite Ascii.eqb_refl. reflexivity.
  - rewrite append_cons. cbn [Py.split count_char].
    destruct (Ascii.eqb c sep); [discriminate|].
    intros Ha. rewrite (IH Ha). reflexivity.
Qed.

Lemma split_salt_hash (salt h : string) :
  count_char ":" salt = 0%nat → count_char ":" h = 0%nat →
  Py.split ":" (salt +:+ ":" +:+ h) = [salt; h].
Proof.
  intros Hs Hh. change (":" +:+ h) with (String ":" h).
  rewrite (split_app _ _ _ Hs), (split_no_sep _ _ Hh). reflexivity.
Qed.

(** ** The identity deriver *)

(** C7, as amended.  [create_user_identifier] is the first 32 characters
    of the SHA-256 hex digest of ["{ip}:{user_agent}"], with [":{extra}"]
    appended when the extra datum is present and not the empty string; an
    absent or empty extra datum appends nothing.  The result always has
    length 32.  (Being a function, it returns equal outputs on equal
    arguments.) *)
Theorem create_user_identifier_digest
    (ip_address user_agent : string) (extra : option string) :
  create_user_identifier ip_address user_agent extra =
    String.substring 0 32
      (SHA256.hexdigest
         (ip_address +:+ ":" +:+ user_agent +:+
          match extra with
          | Some e => if decide (e = "") then "" else ":" +:+ e
          | None => ""
          end))
  ∧ String.length (create_user_identifier ip_address user_agent extra)
    = 32%nat.
Proof.
  split.
  - unfold create_user_identifier. destruct extra as [e|].
    + rewrite truthy_spec. destruct (decide (e = "")) as [->|Hne].
      * rewrite bool_decide_eq_false_2 by (intros Hn; apply Hn; reflexivity).
        rewrite append_empty_r. reflexivity.
      * rewrite bool_decide_eq_true_2 by exact Hne.
        rewrite !append_assoc. reflexivity.
    + rewrite append_empty_r. reflexivity.
  - unfold create_user_identifier.
    match goal with
    | |- context [SHA256.hexdigest ?s] =>
        destruct (hexdigest_unfold s) as [r ->]
    end.
    reflexivity.
Qed.

(** C7 as stated fails when the extra datum is present but empty: the
    code appends nothing, the statement appends [":"]. *)
Lemma create_user_identifier_empty_extra :
  create_user_identifier "10.0.0.1" "curl" (Some "")
  = "2185f1814fe271478e9e6bbc43a6b42f"
  ∧ identity_as_specified "10.0.0.1" "curl" (Some "")
    = "aa22f074ab2d3c7d1b1b759ecfac9c9f"
  ∧ create_user_identifier "10.0.0.1" "curl" (Some "")
    ≠ identity_as_specified "10.0.0.1" "curl" (Some "").
Proof.
  assert (create_user_identifier "10.0.0.1" "curl" (Some "")
          = "2185f1814fe271478e9e6bbc43a6b42f") as E1
    by (vm_compute; reflexivity).
  assert (identity_as_specified "10.0.0.1" "curl" (Some "")
          = "aa22f074ab2d3c7d1b1b759ecfac9c9f") as E2
    by (vm_compute; reflexivity).
  split; [exact E1|]. split; [exact E2|].
  rewrite E1, E2. discriminate.
Qed.

(** ** Password verification *)

(** C8.  For every candidate password and stored hash, [verify_password]
    returns a boolean and raises nothing.  A stored hash whose number of
    [":"] separators is not one gives [False].  On a stored ["salt:hash"]
    it gives [True] exactly when the SHA-256 hex digest of
    [password + salt] is the stored hash; so a password verifies against
    what [hash_password] made of it. *)
Theorem verify_password_fails_closed
    (self : AdminUser.t) (password : string) :
  (∃ b, AdminUser.verify_password self password = Return b)
  ∧ (count_char ":" (AdminUser.password_hash self) ≠ 1%nat →
     AdminUser.verify_password self password = Return false)
  ∧ (∀ salt stored_hash,
       AdminUser.password_hash self = salt +:+ ":" +:+ stored_hash →
       count_char ":" salt = 0%nat → count_char ":" stored_hash = 0%nat →
       AdminUser.verify_password self password
       = Return (bool_decide
                   (SHA256.hexdigest (password +:+ salt) = stored_hash)))
  ∧ (∀ salt,
       count_char ":" salt = 0%nat →
       AdminUser.password_hash self = AdminUser.hash_password salt password →
       AdminUser.verify_password self password = Return true).
Proof.
  assert (∀ salt stored_hash,
       AdminUser.password_hash self = salt +:+ ":" +:+ stored_hash →
       count_char ":" salt = 0%nat → count_char ":" stored_hash = 0%nat →
       AdminUser.verify_password self password
       = Return (bool_decide
                   (SHA256.hexdigest (password +:+ salt) = stored_hash)))
    as Hwf.
  { intros salt stored_hash E Hs Hh.
    unfold AdminUser.verify_password, AdminUser.verify_password_try.
    rewrite E, (split_salt_hash _ _ Hs Hh). cbn.
    f_equal. destruct (String.eqb_spec (SHA256.hexdigest (password +:+ salt))
                                       stored_hash) as [Heq|Hne].
    - symmetry. apply bool_decide_eq_true_2. exact Heq.
    - symmetry. apply bool_decide_eq_false_2. exact Hne. }
  split; [|split; [|split]].
  - unfold AdminUser.verify_password, AdminUser.verify_password_try.
    destruct (Py.split ":" (AdminUser.password_hash self))
      as [|a [|b [|c fields]]]; cbn; eauto.
  - intros Hn.
    unfold AdminUser.verify_password, AdminUser.verify_password_try.
    pose proof (split_length ":" (AdminUser.password_hash self)) as Hl.
    destruct (Py.split ":" (AdminUser.password_hash self))
      as [|a [|b [|c fields]]]; cbn in *; try reflexivity.
    exfalso. apply Hn. lia.
  - exact Hwf.
  - intros salt Hs E.
    rewrite (Hwf salt (SHA256.hexdigest (password +:+ salt)) E Hs
                 (hexdigest_no_colon _)).
    f_equal. apply bool_decide_eq_true_2. reflexivity.
Qed.

(** ** Tables *)

Lemma foldl_delete_lookup {A} (l : list (Z * A)) (m : gmap Z A) (k : Z) :
  foldl (λ table (row : Z * A), delete row.1 table) m l !! k
  = if decide (k ∈ l.*1) then None else m !! k.
Proof.
  revert m. induction l as [|[i x] l IH]; intros m.
  - cbn. destruct (decide (k ∈ [])) as [Hin|_]; [|reflexivity].
    apply elem_of_nil in Hin. destruct Hin.
  - cbn [foldl fmap list_fmap]. rewrite IH. cbn [fst].
    destruct (decide (k ∈ l.*1)) as [Hin|Hnin].
    + rewrite decide_True by (apply elem_of_cons; right; exact Hin).
      reflexivity.
    + destruct (decide (k = i)) as [->|Hne].
      * rewrite lookup_delete_eq, decide_True
          by (apply elem_of_cons; left; reflexivity).
        reflexivity.
      * rewrite lookup_delete_ne by congruence.
        rewrite decide_False; [reflexivity|].
        intros [?|?]%elem_of_cons; [congruence|contradiction].
Qed.

Lemma elem_of_keys {A} (m : gmap Z A) (k : Z) :
  k ∈ (map_to_list m).*1 ↔ is_Some (m !! k).
Proof.
  rewrite list_elem_of_fmap. split.
  - intros [[i x] [-> Hin]]. apply elem_of_map_to_list in Hin. eauto.
  - intros [x Hx]. exists (k, x). split; [reflexivity|].
    apply elem_of_map_to_list. exact Hx.
Qed.

(** Deleting, one by one, the rows a filter selects leaves the rows it
    rejects. *)
Lemma delete_selected {A} (P : Z * A → Prop) `{!∀ kv, Decision (P kv)}
    (m : gmap Z A) :
  foldl (λ table (row : Z * A), delete row.1 table) m
        (map_to_list (filter P m))
  = filter (λ kv, ¬ P kv) m.
Proof.
  apply map_eq; intros k. rewrite foldl_delete_lookup.
  destruct (decide (k ∈ (map_to_list (filter P m)).*1)) as [Hin|Hnin].
  - apply elem_of_keys in Hin as [x Hx].
    apply map_lookup_filter_Some in Hx as [Hx HP].
    symmetry. apply map_lookup_filter_None. right.
    intros y Hy. rewrite Hx in Hy. injection Hy as <-. tauto.
  - apply option_eq; intros x. rewrite map_lookup_filter_Some.
    split; [|tauto]. intros Hx. split; [exact Hx|].
    intros HP. apply Hnin, elem_of_keys. exists x.
    apply map_lookup_filter_Some. tauto.
Qed.

Lemma size_filter_split {A} (P : Z * A → Prop) `{!∀ kv, Decision (P kv)}
    (m : gmap Z A) :
  (size (filter (λ kv, ¬ P kv) m) + size (filter P m) = size m)%nat.
Proof.
  rewrite <- (map_filter_union_complement P m) at 3.
  rewrite map_size_disj_union by apply map_disjoint_filter_complement.
  lia.
Qed.

(** ** The session sweep *)

(** C10.  For every store and clock value, [cleanup_expired_sessions]
    leaves in [admin_sessions] exactly the rows whose [expires_at] is not
    strictly before [now] (each with its key and contents), leaves every
    other table as it was, and returns the number of rows it deleted. *)
Theorem cleanup_expired_sessions_exact (st : Store) (now : Z) :
  let st' := (cleanup_expired_sessions st now).1 in
  let deleted := (cleanup_expired_sessions st now).2 in
  admin_sessions st'
  = filter (λ kv : Z * AdminSession.t, now ≤ AdminSession.expires_at kv.2)
           (admin_sessions st)
  ∧ votes st' = votes st
  ∧ feedback st' = feedback st
  ∧ complaints st' = complaints st
  ∧ menu_suggestions st' = menu_suggestions st
  ∧ admin_users st' = admin_users st
  ∧ menu_pdfs st' = menu_pdfs st
  ∧ deleted
    = size (filter (λ kv : Z * AdminSession.t,
                      AdminSession.expires_at kv.2 < now) (admin_sessions st))
  ∧ (size (admin_sessions st') + deleted = size (admin_sessions st))%nat.
Proof.
  cbn zeta. unfold cleanup_expired_sessions. cbn [fst snd].
  cbn [admin_sessions set_admin_sessions votes feedback complaints
       menu_suggestions admin_users menu_pdfs].
  rewrite delete_selected, length_map_to_list.
  repeat split.
  - apply map_filter_ext. intros i x _. cbn. lia.
  - apply size_filter_split.
Qed.

(** ** Queries *)

Lemma first_fold_None {A} (l : list (Z * A)) :
  foldr (λ kv best,
           match best with
           | Some kv' => if decide (kv.1 < kv'.1) then Some kv else best
           | None => Some kv
           end) None l = None → l = [].
Proof.
  destruct l as [|kv l]; [reflexivity|]. cbn [foldr].
  destruct (foldr _ None l) as [kv'|]; [|discriminate].
  destruct (decide (kv.1 < kv'.1)); discriminate.
Qed.

Lemma first_fold_Some {A} (l : list (Z * A)) (kv : Z * A) :
  foldr (λ kv best,
           match best with
           | Some kv' => if decide (kv.1 < kv'.1) then Some kv else best
           | None => Some kv
           end) None l = Some kv → kv ∈ l.
Proof.
  induction l as [|a l IH]; [discriminate|]. cbn [foldr].
  destruct (foldr _ None l) as [kv'|].
  - destruct (decide (a.1 < kv'.1)); intros E.
    + injection E as <-. apply elem_of_cons. left. reflexivity.
    + apply elem_of_cons. right. apply IH. exact E.
  - intros E. injection E as <-. apply elem_of_cons. left. reflexivity.
Qed.

Lemma first_None {A} (m : gmap Z A) : db.first m = None ↔ m = ∅.
Proof.
  unfold db.first. split.
  - intros E. apply first_fold_None in E.
    apply map_to_list_empty_iff. exact E.
  - intros ->. rewrite map_to_list_empty. reflexivity.
Qed.

Lemma first_Some {A} (m : gmap Z A) (k : Z) (x : A) :
  db.first m = Some (k, x) → m !! k = Some x.
Proof.
  unfold db.first. intros E. apply first_fold_Some in E.
  apply elem_of_map_to_list. exact E.
Qed.

(** A query that at most one row can match returns that row. *)
Lemma first_filter_unique {A} (P : Z * A → Prop) `{!∀ kv, Decision (P kv)}
    (m : gmap Z A) (i : Z) (x : A) :
  m !! i = Some x → P (i, x) →
  (∀ j y, m !! j = Some y → P (j, y) → j = i) →
  db.first (filter P m) = Some (i, x).
Proof.
  intros Hi HP Huniq.
  destruct (db.first (filter P m)) as [[k y]|] eqn:E.
  - apply first_Some, map_lookup_filter_Some in E as [Hk HPk].
    pose proof (Huniq k y Hk HPk) as ->.
    rewrite Hi in Hk. injection Hk as ->. reflexivity.
  - apply first_None in E.
    assert (filter P m !! i = Some x) as Hf
      by (apply map_lookup_filter_Some; tauto).
    rewrite E, lookup_empty in Hf. discriminate.
Qed.

Lemma first_filter_none {A} (P : Z * A → Prop) `{!∀ kv, Decision (P kv)}
    (m : gmap Z A) :
  (∀ j y, m !! j = Some y → ¬ P (j, y)) ↔ db.first (filter P m) = None.
Proof.
  rewrite first_None, map_empty. split.
  - intros Hno i. apply map_lookup_filter_None.
    destruct (m !! i) as [y|] eqn:E; [right|left; reflexivity].
    intros z Hz. injection Hz as <-. apply Hno. exact E.
  - intros Hall j y Hj HP.
    assert (filter P m !! j = Some y) as Hf
      by (apply map_lookup_filter_Some; tauto).
    rewrite Hall in Hf. discriminate.
Qed.

Lemma filter_empty_iff {A} (P : Z * A → Prop) `{!∀ kv, Decision (P kv)}
    (m : gmap Z A) :
  filter P m = ∅ ↔ ∀ j y, m !! j = Some y → ¬ P (j, y).
Proof. rewrite first_filter_none, first_None. reflexivity. Qed.

Lemma max_key_bound (l : list Z) (k : Z) : k ∈ l → k ≤ foldr Z.max 0 l.
Proof.
  induction l as [|a l IH]; [intros []%elem_of_nil|].
  intros [->|Hin]%elem_of_cons; cbn [foldr]; [lia|].
  specialize (IH Hin). lia.
Qed.

(** The key of the next row is not in use. *)
Lemma next_id_fresh {A} (m : gmap Z A) : m !! db.next_id m = None.
Proof.
  destruct (m !! db.next_id m) as [x|] eqn:E; [|reflexivity].
  assert (db.next_id m ∈ (map_to_list m).*1) as Hin
    by (apply elem_of_keys; eauto).
  apply max_key_bound in Hin. unfold db.next_id in Hin. lia.
Qed.


(** ** The vote ledger *)

Section VoteLedger.
Context `{Runtime}.

Lemma truthy_nonempty (s : string) : s ≠ "" → Py.truthy s = true.
Proof.
  intros Hne. rewrite truthy_spec. apply bool_decide_eq_true_2. exact Hne.
Qed.

(** [submit_vote_under] once the required fields have passed. *)
Lemma submit_vote_under_validated (c : Conditions) (st : Store)
    (req : Request) (env : Env) (day meal dish : string) :
  vote_fields req day meal dish →
  submit_vote_under c st req env =
    match query_vote (votes st) (str_lower day) (str_lower meal)
                     (identity_of req) with
    | Some _ => (st, DUPLICATE_VOTE day meal)
    | None =>
        let vote :=
          Vote.mk (str_lower day) (str_lower meal) dish (identity_of req)
                  (get_client_ip req) (utcnow env)
                  (create_session_id req env) in
        let st := set_votes st (commit_concurrent c (votes st)) in
        match db.add_vote (storage_down c) (votes st) vote with
        | Return (vote_id, table) =>
            (set_votes st table,
             (VoteSubmitted "Vote submitted successfully" vote_id, 201))
        | Raise _ => (st, vote_INTERNAL_ERROR)
        end
    end.
Proof.
  intros (data & Hjson & Hday & Hmeal & Hdish & Hd & Hm & Hs).
  unfold submit_vote_under. rewrite Hjson.
  cbn [missing_field]. rewrite Hday, Hmeal, Hdish.
  rewrite !truthy_nonempty by assumption.
  unfold item. rewrite Hday, Hmeal, Hdish. reflexivity.
Qed.

Lemma query_vote_None (table : gmap Z Vote.t) (d m u : string) :
  no_vote_for table (d, m, u) ↔ query_vote table d m u = None.
Proof.
  unfold query_vote, no_vote_for.
  rewrite <- (first_filter_none
                (λ kv : Z * Vote.t, Vote.unique_vote kv.2 = (d, m, u))).
  reflexivity.
Qed.

Lemma query_vote_found (table : gmap Z Vote.t) (d m u : string) i v :
  table !! i = Some v → Vote.unique_vote v = (d, m, u) →
  is_Some (query_vote table d m u).
Proof.
  intros Hi Hk. destruct (query_vote table d m u) eqn:E; [eauto|].
  apply query_vote_None in E. destruct (E i v Hi Hk).
Qed.

Lemma query_vote_unique (table : gmap Z Vote.t) (d m u : string) i v :
  votes_unique table →
  table !! i = Some v → Vote.unique_vote v = (d, m, u) →
  query_vote table d m u = Some (i, v).
Proof.
  intros Hu Hi Hk. unfold query_vote.
  apply (first_filter_unique
           (λ kv : Z * Vote.t, Vote.unique_vote kv.2 = (d, m, u)));
    [exact Hi|exact Hk|].
  intros j y Hj Hy. cbn in Hy. apply (Hu j i y v Hj Hi). congruence.
Qed.

(** What [db.add_vote] does, by cases. *)
Lemma add_vote_fresh (table : gmap Z Vote.t) (vote : Vote.t) :
  no_vote_for table (Vote.unique_vote vote) →
  db.add_vote false table vote
  = Return (db.next_id table, <[db.next_id table := vote]> table).
Proof.
  intros Hno. unfold db.add_vote. rewrite decide_True; [reflexivity|].
  apply filter_empty_iff. intros j y Hj. cbn. apply (Hno j y Hj).
Qed.

Lemma add_vote_taken (table : gmap Z Vote.t) (vote : Vote.t) i v :
  table !! i = Some v → Vote.unique_vote v = Vote.unique_vote vote →
  db.add_vote false table vote = Raise IntegrityError.
Proof.
  intros Hi Hk. unfold db.add_vote. rewrite decide_False; [reflexivity|].
  intros E. rewrite filter_empty_iff in E. exact (E i v Hi Hk).
Qed.

Lemma add_vote_down (table : gmap Z Vote.t) (vote : Vote.t) :
  db.add_vote true table vote = Raise OperationalError.
Proof. reflexivity. Qed.

Lemma insert_keeps_unique (table : gmap Z Vote.t) (vote : Vote.t) :
  votes_unique table →
  no_vote_for table (Vote.unique_vote vote) →
  votes_unique (<[db.next_id table := vote]> table).
Proof.
  intros Hu Hno i j v w Hi Hj Hk.
  destruct (decide (i = db.next_id table)) as [->|Hni];
    destruct (decide (j = db.next_id table)) as [->|Hnj];
    try reflexivity.
  - rewrite lookup_insert_eq in Hi. injection Hi as <-.
    rewrite lookup_insert_ne in Hj by congruence.
    destruct (Hno j w Hj). congruence.
  - rewrite lookup_insert_eq in Hj. injection Hj as <-.
    rewrite lookup_insert_ne in Hi by congruence.
    destruct (Hno i v Hi). congruence.
  - rewrite lookup_insert_ne in Hi by congruence.
    rewrite lookup_insert_ne in Hj by congruence.
    exact (Hu i j v w Hi Hj Hk).
Qed.

Lemma add_vote_cases (down : bool) (table : gmap Z Vote.t) (vote : Vote.t) :
  (∃ e, db.add_vote down table vote = Raise e)
  ∨ (db.add_vote down table vote
     = Return (db.next_id table, <[db.next_id table := vote]> table)
     ∧ no_vote_for table (Vote.unique_vote vote)).
Proof.
  unfold db.add_vote. destruct down; [left; eauto|].
  destruct (decide _) as [E|_]; [right|left; eauto].
  split; [reflexivity|]. rewrite filter_empty_iff in E.
  intros j y Hj. exact (E j y Hj).
Qed.

(** The commits of concurrent requests keep the rows there are and the
    constraint. *)
Lemma commit_concurrent_keeps (c : Conditions) (table : gmap Z Vote.t) i v :
  table !! i = Some v → commit_concurrent c table !! i = Some v.
Proof.
  unfold commit_concurrent. generalize (concurrent_votes c) as l.
  intros l. revert table. induction l as [|w l IH]; intros table Hi.
  - exact Hi.
  - cbn [foldl]. apply IH.
    destruct (add_vote_cases false table w) as [[e ->]|[-> _]];
      [exact Hi|].
    rewrite lookup_insert_ne; [exact Hi|].
    intros <-. rewrite next_id_fresh in Hi. discriminate.
Qed.

Lemma commit_concurrent_unique (c : Conditions) (table : gmap Z Vote.t) :
  votes_unique table → votes_unique (commit_concurrent c table).
Proof.
  unfold commit_concurrent. generalize (concurrent_votes c) as l.
  intros l. revert table. induction l as [|w l IH]; intros table Hu.
  - exact Hu.
  - cbn [foldl]. apply IH.
    destruct (add_vote_cases false table w) as [[e ->]|[-> Hno]];
      [exact Hu|].
    apply insert_keeps_unique; assumption.
Qed.

(** Once a concurrent request has committed a vote, its key is taken. *)
Lemma commit_concurrent_takes (c : Conditions) (table : gmap Z Vote.t) w :
  w ∈ concurrent_votes c →
  ∃ i v, commit_concurrent c table !! i = Some v
         ∧ Vote.unique_vote v = Vote.unique_vote w.
Proof.
  unfold commit_concurrent.
  pose proof (commit_concurrent_keeps) as Hkeep.
  generalize (concurrent_votes c) as l.
  intros l. revert table. induction l as [|a l IH]; intros table Hin.
  - apply elem_of_nil in Hin. destruct Hin.
  - apply elem_of_cons in Hin as [->|Hin]; [|apply IH; exact Hin].
    cbn [foldl].
    assert (∃ i v, match db.add_vote false table a with
                   | Return (_, table') => table'
                   | Raise _ => table
                   end !! i = Some v
                   ∧ Vote.unique_vote v = Vote.unique_vote a)
      as (i & v & Hi & Hk).
    { unfold db.add_vote.
      destruct (decide _) as [E|Hne].
      - exists (db.next_id table), a. rewrite lookup_insert_eq. tauto.
      - assert (¬ no_vote_for table (Vote.unique_vote a)) as Hsome.
        { intros Hno. apply Hne, filter_empty_iff.
          intros j y Hj. exact (Hno j y Hj). }
        destruct (query_vote table (Vote.day a) (Vote.meal a)
                             (Vote.user_identifier a))
          as [[j y]|] eqn:Eq.
        + apply first_Some, map_lookup_filter_Some in Eq as [Hj Hy].
          exists j, y. tauto.
        + apply query_vote_None in Eq. destruct (Hsome Eq). }
    exists i, v. split; [|exact Hk].
    apply (Hkeep (mkConditions l false)). exact Hi.
Qed.

End VoteLedger.

(** ** What each handler leaves alone *)

Section Frames.
Context `{Runtime}.

Lemma submit_vote_under_votes (c : Conditions) (st : Store) (req : Request)
    (env : Env) :
  (∀ i v, votes st !! i = Some v →
          votes (submit_vote_under c st req env).1 !! i = Some v)
  ∧ (votes_unique (votes st) →
     votes_unique (votes (submit_vote_under c st req env).1)).
Proof.
  unfold submit_vote_under.
  destruct (json req) as [data|]; [|split; auto].
  destruct (missing_field _ _); [split; auto|].
  destruct (query_vote _ _ _ _); [split; auto|].
  cbn [votes set_votes].
  match goal with
  | |- context [db.add_vote ?d ?t ?v] =>
      destruct (add_vote_cases d t v) as [[e ->]|[-> Hno]]
  end; cbn [fst votes set_votes]; split.
  - intros i v. apply commit_concurrent_keeps.
  - apply commit_concurrent_unique.
  - intros i v Hi. apply (commit_concurrent_keeps c) in Hi.
    rewrite lookup_insert_ne; [exact Hi|].
    intros <-. rewrite next_id_fresh in Hi. discriminate.
  - intros Hu. apply insert_keeps_unique; [|exact Hno].
    apply commit_concurrent_unique. exact Hu.
Qed.

Lemma check_vote_status_store (st : Store) (req : Request) :
  (check_vote_status st req).1 = st.
Proof. unfold check_vote_status. repeat case_match; reflexivity. Qed.

Lemma admin_login_votes (st : Store) (req : Request) (env : Env) :
  votes (admin_login st req env).1 = votes st.
Proof. unfold admin_login. repeat case_match; reflexivity. Qed.

Lemma require_admin_auth_votes (f : View) :
  (∀ st req env a, votes (f st req env a).1 = votes st) →
  ∀ st req env, votes (require_admin_auth f st req env).1 = votes st.
Proof.
  intros Hf st req env. unfold require_admin_auth.
  repeat case_match; try reflexivity. rewrite Hf. reflexivity.
Qed.

Lemma admin_logout_view_votes st req env a :
  votes (admin_logout_view st req env a).1 = votes st.
Proof. unfold admin_logout_view. repeat case_match; reflexivity. Qed.

Lemma change_password_view_votes st req env a :
  votes (change_password_view st req env a).1 = votes st.
Proof. unfold change_password_view. repeat case_match; reflexivity. Qed.

Lemma step_votes (st st' : Store) :
  step st st' →
  (∀ i v, votes st !! i = Some v → votes st' !! i = Some v)
  ∧ (votes_unique (votes st) → votes_unique (votes st')).
Proof.
  assert (∀ a b : Store, votes b = votes a →
            (∀ i v, votes a !! i = Some v → votes b !! i = Some v)
            ∧ (votes_unique (votes a) → votes_unique (votes b))) as Hsame.
  { intros a b ->. split; auto. }
  destruct 1.
  - apply submit_vote_under_votes.
  - rewrite check_vote_status_store. split; auto.
  - apply Hsame, admin_login_votes.
  - apply Hsame, require_admin_auth_votes, admin_logout_view_votes.
  - apply Hsame, require_admin_auth_votes. reflexivity.
  - apply Hsame, require_admin_auth_votes, change_password_view_votes.
  - apply Hsame. assumption.
Qed.

Lemma steps_votes (st st' : Store) :
  rtc step st st' →
  (∀ i v, votes st !! i = Some v → votes st' !! i = Some v)
  ∧ (votes_unique (votes st) → votes_unique (votes st')).
Proof.
  induction 1 as [|a b c Hab _ [IH1 IH2]]; [split; auto|].
  destruct (step_votes _ _ Hab) as [H1 H2]. split; auto.
Qed.

Lemma reachable_votes_unique (st : Store) :
  reachable st → votes_unique (votes st).
Proof.
  induction 1 as [salt now|st st' _ IH Hstep].
  - intros i j v w Hi. cbn in Hi. rewrite lookup_empty in Hi. discriminate.
  - apply (step_votes _ _ Hstep). exact IH.
Qed.

End Frames.

(** ** One vote per meal-slot and identity *)

Section OneVote.
Context `{Runtime}.

(** A first submission for a free key is stored under a fresh id. *)
Lemma submit_vote_first (st : Store) (req : Request) (env : Env)
    (day meal dish : string) :
  vote_fields req day meal dish →
  no_vote_for (votes st)
              (str_lower day, str_lower meal, identity_of req) →
  let vote :=
    Vote.mk (str_lower day) (str_lower meal) dish (identity_of req)
            (get_client_ip req) (utcnow env) (create_session_id req env) in
  let vote_id := db.next_id (votes st) in
  submit_vote st req env
  = (set_votes st (<[vote_id := vote]> (votes st)),
     (VoteSubmitted "Vote submitted successfully" vote_id, 201))
  ∧ votes st !! vote_id = None.
Proof.
  intros Hf Hno. cbn zeta. split; [|apply next_id_fresh].
  unfold submit_vote.
  rewrite (submit_vote_under_validated _ _ _ _ _ _ _ Hf).
  apply query_vote_None in Hno. rewrite Hno.
  cbn [calm storage_down votes set_votes commit_concurrent
       concurrent_votes foldl].
  rewrite add_vote_fresh; [destruct st; reflexivity|].
  apply query_vote_None. exact Hno.
Qed.

(** A submission whose key is taken is refused and stores nothing,
    whatever surrounds it. *)
Lemma submit_vote_duplicate (c : Conditions) (st : Store) (req : Request)
    (env : Env) (day meal dish : string) i v :
  vote_fields req day meal dish →
  votes st !! i = Some v →
  Vote.unique_vote v = (str_lower day, str_lower meal, identity_of req) →
  submit_vote_under c st req env = (st, DUPLICATE_VOTE day meal).
Proof.
  intros Hf Hi Hk.
  rewrite (submit_vote_under_validated _ _ _ _ _ _ _ Hf).
  destruct (query_vote_found _ _ _ _ _ _ Hi Hk) as [kv ->]. reflexivity.
Qed.

(** C1.  No reachable store holds two votes with the same [(day, meal,
    identity)].  A first submission of a valid [(day, meal, dish)] from
    [(ip, user_agent)] succeeds with status 201 and adds exactly one vote,
    under a fresh id.  From then on, in every store the system can move
    to, a submission with the same day and meal from the same
    [(ip, user_agent)] answers [DUPLICATE_VOTE] with status 400 and
    leaves the store as it was, whatever its dish. *)
Theorem submit_vote_at_most_once :
  (∀ st, reachable st → votes_unique (votes st))
  ∧ (∀ st req env day meal dish,
       vote_fields req day meal dish →
       no_vote_for (votes st)
                   (str_lower day, str_lower meal, identity_of req) →
       ∃ vote_id vote,
         submit_vote st req env
         = (set_votes st (<[vote_id := vote]> (votes st)),
            (VoteSubmitted "Vote submitted successfully" vote_id, 201))
         ∧ votes st !! vote_id = None
         ∧ Vote.unique_vote vote
           = (str_lower day, str_lower meal, identity_of req)
         ∧ Vote.dish vote = dish
         ∧ ∀ c st2 req2 env2 dish2,
             rtc step (submit_vote st req env).1 st2 →
             vote_fields req2 day meal dish2 →
             get_client_ip req2 = get_client_ip req →
             get_user_agent req2 = get_user_agent req →
             submit_vote_under c st2 req2 env2
             = (st2, DUPLICATE_VOTE day meal)).
Proof.
  split; [exact reachable_votes_unique|].
  intros st req env day meal dish Hf Hno.
  destruct (submit_vote_first st req env day meal dish Hf Hno) as [E Hfresh].
  eexists _, _. split; [exact E|]. split; [exact Hfresh|].
  split; [reflexivity|]. split; [reflexivity|].
  intros c st2 req2 env2 dish2 Hsteps Hf2 Hip Hua.
  rewrite E in Hsteps. cbn [fst] in Hsteps.
  apply steps_votes in Hsteps as [Hkeep _].
  eapply submit_vote_duplicate; [exact Hf2| |].
  - apply Hkeep. cbn [votes set_votes]. apply lookup_insert_eq.
  - unfold identity_of. rewrite Hip, Hua. reflexivity.
Qed.

(** C4.  The day and the meal are lower-cased before the lookup and
    before the insert: the vote a first submission stores carries
    [day.lower()] and [meal.lower()], and from then on every submission
    from the same identity whose day and meal lower-case to the same
    strings (["Monday"] after ["monday"], say) answers [DUPLICATE_VOTE]
    and stores nothing. *)
Theorem submit_vote_case_insensitive (st : Store) (req : Request)
    (env : Env) (day meal dish : string) :
  vote_fields req day meal dish →
  no_vote_for (votes st)
              (str_lower day, str_lower meal, identity_of req) →
  ∃ vote_id vote,
    submit_vote st req env
    = (set_votes st (<[vote_id := vote]> (votes st)),
       (VoteSubmitted "Vote submitted successfully" vote_id, 201))
    ∧ Vote.day vote = str_lower day
    ∧ Vote.meal vote = str_lower meal
    ∧ ∀ c st2 req2 env2 day2 meal2 dish2,
        rtc step (submit_vote st req env).1 st2 →
        vote_fields req2 day2 meal2 dish2 →
        str_lower day2 = str_lower day →
        str_lower meal2 = str_lower meal →
        identity_of req2 = identity_of req →
        submit_vote_under c st2 req2 env2
        = (st2, DUPLICATE_VOTE day2 meal2).
Proof.
  intros Hf Hno.
  destruct (submit_vote_first st req env day meal dish Hf Hno) as [E _].
  eexists _, _. split; [exact E|]. split; [reflexivity|].
  split; [reflexivity|].
  intros c st2 req2 env2 day2 meal2 dish2 Hsteps Hf2 Hd Hm Hid.
  rewrite E in Hsteps. cbn [fst] in Hsteps.
  apply steps_votes in Hsteps as [Hkeep _].
  eapply submit_vote_duplicate; [exact Hf2| |].
  - apply Hkeep. cbn [votes set_votes]. apply lookup_insert_eq.
  - rewrite Hd, Hm, Hid. reflexivity.
Qed.

(** [check_vote_status] once the required fields have passed. *)
Lemma check_vote_status_validated (st : Store) (req : Request)
    (day meal : string) :
  slot_fields req day meal →
  check_vote_status st req =
    let existing_vote :=
      query_vote (votes st) (str_lower day) (str_lower meal)
                 (identity_of req) in
    (st, (VoteStatus (bool_decide (is_Some existing_vote)) existing_vote,
          200)).
Proof.
  intros (data & Hjson & Hday & Hmeal & Hd & Hm).
  unfold check_vote_status. rewrite Hjson.
  cbn [missing_field]. rewrite Hday, Hmeal.
  rewrite !truthy_nonempty by assumption.
  unfold item. rewrite Hday, Hmeal. reflexivity.
Qed.

(** C9.  [check_vote_status] never changes the store.  With the day and
    meal lower-cased as in [submit_vote], it answers [has_voted = False]
    and no details while no vote exists for the key, and after a
    submission it answers [has_voted = True] with the stored vote, in
    every store the system moves to. *)
Theorem check_vote_status_lookup :
  (∀ st req, (check_vote_status st req).1 = st)
  ∧ (∀ st req day meal,
       slot_fields req day meal →
       no_vote_for (votes st)
                   (str_lower day, str_lower meal, identity_of req) →
       (check_vote_status st req).2 = (VoteStatus false None, 200))
  ∧ (∀ st req env day meal dish,
       vote_fields req day meal dish →
       votes_unique (votes st) →
       no_vote_for (votes st)
                   (str_lower day, str_lower meal, identity_of req) →
       ∃ vote_id vote,
         submit_vote st req env
         = (set_votes st (<[vote_id := vote]> (votes st)),
            (VoteSubmitted "Vote submitted successfully" vote_id, 201))
         ∧ ∀ st2 req2 day2 meal2,
             rtc step (submit_vote st req env).1 st2 →
             slot_fields req2 day2 meal2 →
             str_lower day2 = str_lower day →
             str_lower meal2 = str_lower meal →
             identity_of req2 = identity_of req →
             check_vote_status st2 req2
             = (st2, (VoteStatus true (Some (vote_id, vote)), 200))).
Proof.
  split; [exact check_vote_status_store|]. split.
  - intros st req day meal Hf Hno.
    rewrite (check_vote_status_validated _ _ _ _ Hf). cbn zeta.
    apply query_vote_None in Hno. rewrite Hno. reflexivity.
  - intros st req env day meal dish Hf Hu Hno.
    destruct (submit_vote_first st req env day meal dish Hf Hno)
      as [E Hfresh].
    eexists _, _. split; [exact E|].
    intros st2 req2 day2 meal2 Hsteps Hf2 Hd Hm Hid.
    rewrite E in Hsteps. cbn [fst] in Hsteps.
    apply steps_votes in Hsteps as [Hkeep Huniq].
    rewrite (check_vote_status_validated _ _ _ _ Hf2). cbn zeta.
    rewrite Hd, Hm, Hid.
    erewrite query_vote_unique; [reflexivity| | |reflexivity].
    + apply Huniq. cbn [votes set_votes].
      apply insert_keeps_unique; assumption.
    + apply Hkeep. cbn [votes set_votes]. apply lookup_insert_eq.
Qed.

(** C5, as amended.  When the insert of a vote fails, because the
    database cannot be reached or because a concurrent request has
    committed a vote with the same [(day, meal, identity)] since the
    lookup, [submit_vote] catches the failure, rolls back, and answers
    [INTERNAL_ERROR] with status 500; its vote is not stored. *)
Theorem submit_vote_storage_failure (c : Conditions) (st : Store)
    (req : Request) (env : Env) (day meal dish : string) :
  vote_fields req day meal dish →
  no_vote_for (votes st)
              (str_lower day, str_lower meal, identity_of req) →
  storage_down c = true
  ∨ (∃ w, w ∈ concurrent_votes c
          ∧ Vote.unique_vote w
            = (str_lower day, str_lower meal, identity_of req)) →
  submit_vote_under c st req env
  = (set_votes st (commit_concurrent c (votes st)), vote_INTERNAL_ERROR).
Proof.
  intros Hf Hno Hfail.
  rewrite (submit_vote_under_validated _ _ _ _ _ _ _ Hf).
  apply query_vote_None in Hno. rewrite Hno. cbn zeta.
  cbn [votes set_votes].
  destruct (storage_down c) eqn:Hdown.
  - rewrite add_vote_down. reflexivity.
  - destruct Hfail as [Hd|(w & Hin & Hk)]; [discriminate|].
    destruct (commit_concurrent_takes c (votes st) w Hin)
      as (i & v & Hi & Hv).
    erewrite add_vote_taken; [reflexivity|exact Hi|].
    rewrite Hv, Hk. reflexivity.
Qed.

End OneVote.


(** ** The token authority *)

Section TokenAuthority.
Context `{Runtime}.

Lemma sweep_sessions (st : Store) (now : Z) :
  admin_sessions (cleanup_expired_sessions st now).1
  = filter (λ kv : Z * AdminSession.t, now ≤ AdminSession.expires_at kv.2)
           (admin_sessions st).
Proof.
  unfold cleanup_expired_sessions. cbn [fst admin_sessions set_admin_sessions].
  rewrite delete_selected. apply map_filter_ext. intros i x _. cbn. lia.
Qed.

Lemma sweep_admin_users (st : Store) (now : Z) :
  admin_users (cleanup_expired_sessions st now).1 = admin_users st.
Proof. reflexivity. Qed.

Lemma sessions_issued_subset (t t' : gmap Z AdminSession.t) :
  (∀ i s, t' !! i = Some s → t !! i = Some s) →
  sessions_issued t → sessions_issued t'.
Proof. intros Hsub Ht i s p key Hi. apply (Ht i s p key), Hsub, Hi. Qed.

Lemma sweep_sessions_issued (st : Store) (now : Z) :
  sessions_issued (admin_sessions st) →
  sessions_issued (admin_sessions (cleanup_expired_sessions st now).1).
Proof.
  apply sessions_issued_subset. intros i s. rewrite sweep_sessions.
  intros [Hi _]%map_lookup_filter_Some. exact Hi.
Qed.

Lemma add_session_Return (table table' : gmap Z AdminSession.t)
    (session : AdminSession.t) :
  add_session table session = Return table' →
  table' = <[db.next_id table := session]> table.
Proof.
  unfold add_session. destruct (decide _); [|discriminate].
  intros E. injection E as <-. reflexivity.
Qed.

Lemma admin_login_sessions_issued (st : Store) (req : Request) (env : Env) :
  sessions_issued (admin_sessions st) →
  sessions_issued (admin_sessions (admin_login st req env).1).
Proof.
  intros Hst. unfold admin_login.
  repeat case_match; try exact Hst.
  match goal with E : add_session _ _ = Return _ |- _ =>
    apply add_session_Return in E; subst end.
  cbn [fst admin_sessions set_admin_sessions set_admin_users].
  intros sid row pl key Hi Htok.
  destruct (decide (sid = db.next_id (admin_sessions st))) as [->|Hne].
  - rewrite lookup_insert_eq in Hi. injection Hi as <-.
    cbn in Htok. injection Htok as <- _. cbn.
    unfold JWT_EXPIRATION_HOURS. lia.
  - rewrite lookup_insert_ne in Hi by congruence.
    exact (Hst sid row pl key Hi Htok).
Qed.

Lemma require_admin_auth_sessions_issued (f : View) :
  (∀ st req env a, sessions_issued (admin_sessions st) →
                   sessions_issued (admin_sessions (f st req env a).1)) →
  ∀ st req env, sessions_issued (admin_sessions st) →
    sessions_issued (admin_sessions (require_admin_auth f st req env).1).
Proof.
  intros Hf st req env Hst. unfold require_admin_auth.
  pose proof (sweep_sessions_issued st (utcnow env) Hst) as Hsw.
  repeat case_match; try exact Hsw. apply Hf. exact Hsw.
Qed.

Lemma admin_logout_view_sessions_issued st req env a :
  sessions_issued (admin_sessions st) →
  sessions_issued (admin_sessions (admin_logout_view st req env a).1).
Proof.
  intros Hst. unfold admin_logout_view. repeat case_match; try exact Hst.
  cbn [fst admin_sessions set_admin_sessions].
  revert Hst. apply sessions_issued_subset. intros sid row.
  intros [_ Hi]%lookup_delete_Some. exact Hi.
Qed.

Lemma change_password_view_sessions_issued st req env a :
  sessions_issued (admin_sessions st) →
  sessions_issued (admin_sessions (change_password_view st req env a).1).
Proof.
  intros Hst. unfold change_password_view. repeat case_match; try exact Hst.
  cbn [fst admin_sessions set_admin_sessions set_admin_users].
  revert Hst. apply sessions_issued_subset. intros sid row.
  intros [Hi _]%map_lookup_filter_Some. exact Hi.
Qed.

Lemma submit_vote_under_sessions c st req env :
  admin_sessions (submit_vote_under c st req env).1 = admin_sessions st.
Proof. unfold submit_vote_under. repeat case_match; reflexivity. Qed.

Lemma reachable_sessions_issued (st : Store) :
  reachable st → sessions_issued (admin_sessions st).
Proof.
  induction 1 as [salt now|st st' _ IH Hstep].
  - intros i s p key Hi. cbn in Hi. rewrite lookup_empty in Hi.
    discriminate.
  - destruct Hstep.
    + rewrite submit_vote_under_sessions. exact IH.
    + rewrite check_vote_status_store. exact IH.
    + apply admin_login_sessions_issued, IH.
    + apply require_admin_auth_sessions_issued;
        [apply admin_logout_view_sessions_issued|exact IH].
    + apply require_admin_auth_sessions_issued; [|exact IH].
      intros ? ? ? ? Hs. exact Hs.
    + apply require_admin_auth_sessions_issued;
        [apply change_password_view_sessions_issued|exact IH].
    + match goal with E : admin_sessions _ = admin_sessions _ |- _ =>
        rewrite E end. exact IH.
Qed.

(** A token that expired is refused. *)
Lemma verify_jwt_token_expired (env : Env) (token : jwt.token) :
  (∀ p key, token = jwt.Signed p key → jwt.exp p ≤ utcnow env) →
  verify_jwt_token env token = None.
Proof.
  intros Hexp. unfold verify_jwt_token, jwt.decode.
  destruct token as [p key|junk]; [|reflexivity].
  destruct (negb _); [reflexivity|].
  specialize (Hexp p key eq_refl).
  destruct (Z.leb_spec (jwt.exp p) (utcnow env)); [reflexivity|lia].
Qed.

(** Sweeping does not see whether an expired row is there. *)
Lemma sweep_without_expired (st : Store) (now : Z) i s :
  admin_sessions st !! i = Some s → AdminSession.expires_at s < now →
  (cleanup_expired_sessions
     (set_admin_sessions st (delete i (admin_sessions st))) now).1
  = (cleanup_expired_sessions st now).1.
Proof.
  intros Hi Hexp.
  assert (∀ a b : Store,
            votes a = votes b → feedback a = feedback b →
            complaints a = complaints b →
            menu_suggestions a = menu_suggestions b →
            admin_users a = admin_users b → menu_pdfs a = menu_pdfs b →
            admin_sessions a = admin_sessions b → a = b) as Hext.
  { intros [] []; cbn; intros; subst; reflexivity. }
  apply Hext; try reflexivity.
  rewrite !sweep_sessions. cbn [admin_sessions set_admin_sessions].
  rewrite map_filter_delete. apply delete_id.
  apply map_lookup_filter_None. right.
  intros x Hx. rewrite Hi in Hx. injection Hx as <-. cbn. lia.
Qed.

End TokenAuthority.


Section Validation.
Context `{Runtime}.

(** [query.get] finds the rows of the table. *)
Lemma get_Some {A} (table : gmap Z A) (id : Z) (row : A) :
  table !! id = Some row → db.get table id = Return (Some row).
Proof. intros Hid. unfold db.get. rewrite Hid. reflexivity. Qed.

Lemma get_Return {A} (table : gmap Z A) (id : Z) (found : option A) :
  db.get table id = Return found → table !! id = found.
Proof.
  unfold db.get. destruct (table !! id); [congruence|].
  destruct (db.INTEGER id); congruence.
Qed.


(** C3, as amended.  Every call of the guard of the admin views,
    [require_admin_auth], first sweeps: the store the guard answers from,
    and hands to the view, holds exactly the sessions that have not
    expired.  The guard then refuses with status 401, or ends in Flask's
    500 on an id the database cannot bind, or runs the view for an admin
    of that store.  A token whose session row has expired is never taken
    as valid: the guard refuses it with [INVALID_TOKEN], with the outcome
    the same call has when that row is absent, and [verify_token] reports
    it as not valid, as it does when the row is absent. *)
Theorem require_admin_auth_sweeps_first (f : View) (st : Store)
    (req : Request) (env : Env) :
  let swept := (cleanup_expired_sessions st (utcnow env)).1 in
  admin_sessions swept
  = filter (λ kv : Z * AdminSession.t,
              utcnow env ≤ AdminSession.expires_at kv.2)
           (admin_sessions st)
  ∧ ((∃ resp, require_admin_auth f st req env = (swept, resp)
              ∧ (resp.2 = 401 ∨ resp = (InternalServerError, 500)))
     ∨ (∃ id admin, admin_users swept !! id = Some admin
                    ∧ require_admin_auth f st req env
                      = f swept req env (id, admin)))
  ∧ (reachable st →
     ∀ i s, admin_sessions st !! i = Some s →
            AdminSession.expires_at s < utcnow env →
            authorization req = Some (Bearer (AdminSession.token s)) →
            let absent :=
              set_admin_sessions st (delete i (admin_sessions st)) in
            require_admin_auth f st req env = (swept, INVALID_TOKEN)
            ∧ require_admin_auth f absent req env
              = require_admin_auth f st req env
            ∧ (verify_token st req env).2
              = (NotValid true "Invalid or expired token", 200)
            ∧ (verify_token absent req env).2
              = (verify_token st req env).2).
Proof.
  cbn zeta. split; [apply sweep_sessions|]. split.
  - unfold require_admin_auth.
    destruct (authorization req) as [[token|raw]|];
      try (left; eexists; split; [reflexivity|left; reflexivity]).
    destruct (verify_jwt_token env token) as [id|];
      [|left; eexists; split; [reflexivity|left; reflexivity]].
    destruct (id =? 0);
      [left; eexists; split; [reflexivity|left; reflexivity]|].
    destruct (db.get _ id) as [[admin|]|e] eqn:Hget.
    + apply get_Return in Hget.
      destruct (AdminUser.is_active admin);
        [|left; eexists; split; [reflexivity|left; reflexivity]].
      right. eexists _, _. split; [exact Hget|reflexivity].
    + left. eexists. split; [reflexivity|left; reflexivity].
    + left. eexists. split; [reflexivity|right; reflexivity].
  - intros Hreach i s Hi Hexp Hauth.
    assert (verify_jwt_token env (AdminSession.token s) = None) as Hv.
    { apply verify_jwt_token_expired. intros p key Htok.
      pose proof (reachable_sessions_issued st Hreach i s p key Hi Htok).
      lia. }
    split; [|split; [|split]].
    + unfold require_admin_auth. rewrite Hauth, Hv. reflexivity.
    + unfold require_admin_auth.
      rewrite (sweep_without_expired st (utcnow env) i s Hi Hexp).
      reflexivity.
    + unfold verify_token. rewrite Hauth, Hv. reflexivity.
    + unfold verify_token. rewrite Hauth, Hv. reflexivity.
Qed.

(** [admin_login] once both credentials are there. *)
Lemma admin_login_validated (st : Store) (req : Request) (env : Env)
    (data : gmap string string) (username password : string) :
  json req = Some data →
  data !! "username" = Some username →
  data !! "password" = Some password →
  ∀ admin,
    admin = db.first (filter (λ kv : Z * AdminUser.t,
                                AdminUser.username kv.2 = username)
                             (admin_users st)) →
    (admin = None → admin_login st req env = (st, INVALID_CREDENTIALS))
    ∧ (∀ id a, admin = Some (id, a) →
         (AdminUser.verify_password a password = Return false →
          admin_login st req env = (st, INVALID_CREDENTIALS))
         ∧ (AdminUser.verify_password a password = Return true →
            AdminUser.is_active a = false →
            admin_login st req env = (st, ACCOUNT_DISABLED))).
Proof.
  intros Hjson Hu Hp admin ->. unfold admin_login.
  rewrite Hjson, Hu, Hp. split.
  - intros ->. reflexivity.
  - intros id a ->. split.
    + intros ->. reflexivity.
    + intros -> ->. reflexivity.
Qed.

(** C6, as amended.  Login answers [INVALID_CREDENTIALS] when no
    principal has the username, and when the password does not verify
    against the principal's hash, active or not; it answers
    [ACCOUNT_DISABLED] for an inactive principal whose password
    verifies.  Whenever login does not answer 200, the store is left as
    it was (no session row, [last_login] untouched) and the answer is an
    error body, which carries no token. *)
Theorem admin_login_failures (st : Store) (req : Request) (env : Env) :
  (∀ data username password,
     json req = Some data →
     data !! "username" = Some username →
     data !! "password" = Some password →
     ((∀ i a, admin_users st !! i = Some a →
              AdminUser.username a ≠ username) →
      admin_login st req env = (st, INVALID_CREDENTIALS))
     ∧ (∀ id admin,
          usernames_unique (admin_users st) →
          admin_users st !! id = Some admin →
          AdminUser.username admin = username →
          (AdminUser.verify_password admin password = Return false →
           admin_login st req env = (st, INVALID_CREDENTIALS))
          ∧ (AdminUser.verify_password admin password = Return true →
             AdminUser.is_active admin = false →
             admin_login st req env = (st, ACCOUNT_DISABLED))))
  ∧ ((admin_login st req env).2.2 ≠ 200 →
     (admin_login st req env).1 = st
     ∧ ∃ code message details,
         (admin_login st req env).2.1 = Error code message details).
Proof.
  split.
  - intros data username password Hjson Hu Hp.
    destruct (admin_login_validated st req env data username password
                Hjson Hu Hp _ eq_refl) as [Hnone Hsome].
    split.
    + intros Hunknown. apply Hnone.
      apply (first_filter_none
               (λ kv : Z * AdminUser.t, AdminUser.username kv.2 = username)).
      intros j y Hj. cbn. apply (Hunknown j y Hj).
    + intros id admin Huniq Hid Hname. apply (Hsome id admin).
      apply (first_filter_unique
               (λ kv : Z * AdminUser.t, AdminUser.username kv.2 = username));
        [exact Hid|exact Hname|].
      intros j y Hj Hy. cbn in Hy.
      apply (Huniq j id y admin Hj Hid). congruence.
  - unfold admin_login. repeat case_match; cbn [fst snd];
      intros Hstatus; try (split; [reflexivity|eauto]).
    destruct Hstatus. reflexivity.
Qed.

End Validation.

(** ** What a password change does to the tokens in circulation *)

Section PasswordChange.
Context `{Runtime}.

Lemma verify_jwt_token_id (env : Env) (token : jwt.token) (id : Z) :
  verify_jwt_token env token = Some id →
  ∃ p key, token = jwt.Signed p key ∧ id = jwt.admin_id p.
Proof.
  unfold verify_jwt_token, jwt.decode. destruct token as [p key|junk].
  - repeat case_match; try discriminate. intros E. injection E as <-.
    simplify_eq. eauto.
  - discriminate.
Qed.

(** The one path on which [change_password] succeeds. *)
Lemma change_password_success (st : Store) (req : Request) (env : Env)
    (token : jwt.token) (st' : Store) :
  authorization req = Some (Bearer token) →
  change_password st req env = (st', password_changed) →
  ∃ id admin,
    verify_jwt_token env token = Some id
    ∧ (id =? 0) = false
    ∧ AdminUser.is_active admin = true
    ∧ admin_users st' !! id = Some admin
    ∧ ∀ i s, admin_sessions st' !! i = Some s → AdminSession.admin_id s ≠ id.
Proof.
  intros Hauth. unfold change_password, require_admin_auth. rewrite Hauth.
  destruct (verify_jwt_token env token) as [id|] eqn:Hid; [|discriminate].
  destruct (id =? 0) eqn:Hz; [discriminate|].
  destruct (db.get _ id) as [[admin|]|e] eqn:Hadmin; try discriminate.
  destruct (AdminUser.is_active admin) eqn:Hactive; [|discriminate].
  unfold change_password_view.
  destruct (json req) as [data|]; [|discriminate].
  destruct (missing_field data _); [discriminate|].
  destruct (AdminUser.verify_password admin _) as [[|]|]; try discriminate.
  destruct (Py.len _ <? 6); [discriminate|].
  intros E. injection E as <-.
  exists id, (set_password_hash admin
                (AdminUser.hash_password (token_hex env)
                                         (item data "new_password"))).
  split; [reflexivity|]. split; [exact Hz|].
  cbn [admin_users admin_sessions set_admin_sessions set_admin_users].
  split; [|split].
  - exact Hactive.
  - apply lookup_insert_eq.
  - intros i s [_ Hs]%map_lookup_filter_Some. exact Hs.
Qed.

(** After a successful [change_password] no session row of the admin is
    left, and the token that authorised the change keeps opening every
    protected view for as long as its own [exp] allows. *)
Lemma old_token_outlives_password_change (st : Store) (req : Request)
    (env : Env) (token : jwt.token) (st' : Store) :
  authorization req = Some (Bearer token) →
  change_password st req env = (st', password_changed) →
  ∃ id,
    verify_jwt_token env token = Some id
    ∧ (∀ i s, admin_sessions st' !! i = Some s →
              AdminSession.admin_id s ≠ id)
    ∧ ∀ (f : View) req' env',
        authorization req' = Some (Bearer token) →
        is_Some (verify_jwt_token env' token) →
        ∃ admin,
          require_admin_auth f st' req' env'
          = f (cleanup_expired_sessions st' (utcnow env')).1
              req' env' (id, admin).
Proof.
  intros Hauth Hok.
  destruct (change_password_success _ _ _ _ _ Hauth Hok)
    as (id & admin & Hid & Hz & Hactive & Hadmin & Hrevoked).
  exists id. split; [exact Hid|]. split; [exact Hrevoked|].
  intros f req' env' Hauth' [id' Hid'].
  destruct (verify_jwt_token_id _ _ _ Hid) as (p & key & -> & ->).
  destruct (verify_jwt_token_id _ _ _ Hid') as (p' & key' & E & ->).
  injection E as <- <-.
  exists admin. unfold require_admin_auth. rewrite Hauth', Hid', Hz.
  rewrite sweep_admin_users, (get_Some _ _ _ Hadmin), Hactive. reflexivity.
Qed.

End PasswordChange.

(** ** The handlers on a session of the system *)

(** C3 as stated fails for [verify_token], which validates a token
    without sweeping: at 5601 the session row that expired at 5600 is
    still in the store it leaves, where the guard has deleted it.  The
    decorator of [pdf_routes.py] neither sweeps nor validates. *)
Lemma verify_token_keeps_expired_sessions :
  admin_sessions Tour.st1 !! 1 = Some Tour.session1
  ∧ AdminSession.expires_at Tour.session1 < utcnow Scenario.late_env
  ∧ @verify_token example_runtime Tour.st1 Scenario.profile_request
                  Scenario.late_env
    = (Tour.st1, (NotValid true "Invalid or expired token", 200))
  ∧ admin_sessions
      (@verify_token example_runtime Tour.st1 Scenario.profile_request
                     Scenario.late_env).1 !! 1 = Some Tour.session1
  ∧ admin_sessions
      (@require_admin_auth example_runtime get_admin_profile_view Tour.st1
         Scenario.profile_request Scenario.late_env).1 !! 1 = None
  ∧ ∀ (R : Type) (f : Store → Request → Env → Store * R),
      pdf_routes.require_admin_auth f Tour.st1 Scenario.profile_request
                                    Scenario.late_env
      = f Tour.st1 Scenario.profile_request Scenario.late_env.
Proof.
  split; [vm_compute; reflexivity|]. split; [vm_compute; reflexivity|].
  split; [vm_compute; reflexivity|]. split; [vm_compute; reflexivity|].
  split; [vm_compute; reflexivity|]. intros R f. reflexivity.
Qed.

(** C6 as stated fails for an inactive principal whose password is wrong:
    the password is checked first, and the answer is
    [INVALID_CREDENTIALS], not [ACCOUNT_DISABLED]. *)
Lemma admin_login_inactive_wrong_password :
  admin_users Scenario.st_disabled !! 1 = Some Scenario.disabled_admin
  ∧ AdminUser.is_active Scenario.disabled_admin = false
  ∧ @admin_login example_runtime Scenario.st_disabled
      Scenario.wrong_password_request Scenario.login_env
    = (Scenario.st_disabled, INVALID_CREDENTIALS)
  ∧ INVALID_CREDENTIALS ≠ ACCOUNT_DISABLED.
Proof.
  split; [reflexivity|]. split; [reflexivity|].
  split; [vm_compute; reflexivity|discriminate].
Qed.

(** C5 as stated fails when a concurrent request commits the same key
    between the lookup and the insert: the answer is [INTERNAL_ERROR]
    with status 500, not [DUPLICATE_VOTE]. *)
Lemma submit_vote_race_internal_error :
  (@submit_vote_under example_runtime Scenario.race Scenario.st0
     (Scenario.vote_request "Monday" "Lunch" "Dosa") Scenario.vote_env).2
  = vote_INTERNAL_ERROR
  ∧ vote_INTERNAL_ERROR ≠ DUPLICATE_VOTE "Monday" "Lunch".
Proof. split; [vm_compute; reflexivity|discriminate]. Qed.

(** C2 on the code.  The default admin logs in and is issued a token;
    with it the password is changed, which succeeds and deletes every
    session row of the admin; the same token, presented afterwards, is
    still accepted by [require_admin_auth], which serves the profile. *)
Lemma change_password_old_token_accepted :
  let login :=
    @admin_login example_runtime Scenario.st0 Scenario.login_request
                 Scenario.login_env in
  let change :=
    @change_password example_runtime login.1 Scenario.change_request
                     Scenario.change_env in
  let after :=
    @get_admin_profile example_runtime change.1 Scenario.profile_request
                       Scenario.profile_env in
  login.2 = (LoggedIn Scenario.token 3600
                      (1, "admin", Some "admin@mess.portal"), 200)
  ∧ size (admin_sessions login.1) = 1%nat
  ∧ change.2
    = (Success "Password changed successfully. Please login again.", 200)
  ∧ admin_sessions change.1 = ∅
  ∧ ∃ admin, after = (change.1, (Profile (1, admin), 200)).
Proof.
  cbn zeta. split; [vm_compute; reflexivity|].
  split; [vm_compute; reflexivity|].
  split; [vm_compute; reflexivity|].
  split; [vm_compute; reflexivity|].
  eexists. vm_compute. reflexivity.
Qed.

(** ** The theorems at work on the session *)

Ltac scenario_fields :=
  eexists; repeat split;
  first [discriminate | reflexivity | vm_compute; reflexivity].

Ltac scenario_no_vote :=
  let i := fresh "i" in let v := fresh "v" in let Hi := fresh "Hi" in
  intros i v Hi; vm_compute in Hi; discriminate.

Lemma submit_vote_at_most_once_witness :
  let req := Scenario.vote_request "monday" "lunch" "Dosa" in
  let again := Scenario.vote_request "monday" "lunch" "Idli" in
  ∃ vote_id vote,
    @submit_vote example_runtime Scenario.st0 req Scenario.vote_env
    = (set_votes Scenario.st0 (<[vote_id := vote]> (votes Scenario.st0)),
       (VoteSubmitted "Vote submitted successfully" vote_id, 201))
    ∧ @submit_vote example_runtime
        (@submit_vote example_runtime Scenario.st0 req Scenario.vote_env).1
        again Scenario.vote_env
      = ((@submit_vote example_runtime Scenario.st0 req Scenario.vote_env).1,
         DUPLICATE_VOTE "monday" "lunch").
Proof.
  cbn zeta.
  destruct (proj2 (@submit_vote_at_most_once example_runtime)
              Scenario.st0 (Scenario.vote_request "monday" "lunch" "Dosa")
              Scenario.vote_env "monday" "lunch" "Dosa")
    as (vote_id & vote & E & _ & _ & _ & Hdup).
  - scenario_fields.
  - scenario_no_vote.
  - exists vote_id, vote. split; [exact E|].
    apply (Hdup calm _ _ _ "Idli").
    + apply rtc_refl.
    + scenario_fields.
    + reflexivity.
    + reflexivity.
Defined.

Lemma submit_vote_case_insensitive_witness :
  let req := Scenario.vote_request "monday" "lunch" "Dosa" in
  let again := Scenario.vote_request "Monday" "LUNCH" "Dosa" in
  ∃ vote_id vote,
    @submit_vote example_runtime Scenario.st0 req Scenario.vote_env
    = (set_votes Scenario.st0 (<[vote_id := vote]> (votes Scenario.st0)),
       (VoteSubmitted "Vote submitted successfully" vote_id, 201))
    ∧ Vote.day vote = "monday"
    ∧ @submit_vote example_runtime
        (@submit_vote example_runtime Scenario.st0 req Scenario.vote_env).1
        again Scenario.vote_env
      = ((@submit_vote example_runtime Scenario.st0 req Scenario.vote_env).1,
         DUPLICATE_VOTE "Monday" "LUNCH").
Proof.
  cbn zeta.
  destruct (@submit_vote_case_insensitive example_runtime
              Scenario.st0 (Scenario.vote_request "monday" "lunch" "Dosa")
              Scenario.vote_env "monday" "lunch" "Dosa")
    as (vote_id & vote & E & Hday & _ & Hdup).
  - scenario_fields.
  - scenario_no_vote.
  - exists vote_id, vote. split; [exact E|]. split; [exact Hday|].
    apply (Hdup calm _ _ _ "Monday" "LUNCH" "Dosa").
    + apply rtc_refl.
    + scenario_fields.
    + reflexivity.
    + reflexivity.
    + reflexivity.
Defined.

Lemma check_vote_status_lookup_witness :
  let req := Scenario.vote_request "monday" "lunch" "Dosa" in
  let ask := Scenario.vote_request "Monday" "Lunch" "" in
  (@check_vote_status example_runtime Scenario.st0 ask).2
  = (VoteStatus false None, 200)
  ∧ ∃ vote_id vote,
      @check_vote_status example_runtime
        (@submit_vote example_runtime Scenario.st0 req Scenario.vote_env).1 ask
      = ((@submit_vote example_runtime Scenario.st0 req Scenario.vote_env).1,
         (VoteStatus true (Some (vote_id, vote)), 200)).
Proof.
  cbn zeta. split.
  - apply (proj1 (proj2 (@check_vote_status_lookup example_runtime))
             Scenario.st0 _ "Monday" "Lunch").
    + scenario_fields.
    + scenario_no_vote.
  - destruct (proj2 (proj2 (@check_vote_status_lookup example_runtime))
                Scenario.st0 (Scenario.vote_request "monday" "lunch" "Dosa")
                Scenario.vote_env "monday" "lunch" "Dosa")
      as (vote_id & vote & _ & Hseen).
    + scenario_fields.
    + intros i j v w Hi. vm_compute in Hi. discriminate.
    + scenario_no_vote.
    + exists vote_id, vote.
      apply (Hseen _ _ "Monday" "Lunch").
      * apply rtc_refl.
      * scenario_fields.
      * reflexivity.
      * reflexivity.
      * reflexivity.
Defined.

Lemma submit_vote_storage_failure_witness :
  @submit_vote_under example_runtime Scenario.race Scenario.st0
    (Scenario.vote_request "Monday" "Lunch" "Dosa") Scenario.vote_env
  = (set_votes Scenario.st0
       (@commit_concurrent Scenario.race (votes Scenario.st0)),
     vote_INTERNAL_ERROR).
Proof.
  apply (@submit_vote_storage_failure example_runtime Scenario.race
           Scenario.st0 _ Scenario.vote_env "Monday" "Lunch" "Dosa").
  - scenario_fields.
  - scenario_no_vote.
  - right. exists Scenario.racing_vote. split.
    + apply list_elem_of_singleton. reflexivity.
    + vm_compute. reflexivity.
Defined.

Lemma verify_password_fails_closed_witness :
  let stored h := AdminUser.mk "admin" h None 0 None true in
  AdminUser.verify_password (stored "not-a-salted-hash") "admin123"
  = Return false
  ∧ AdminUser.verify_password (stored "a:b:c") "admin123" = Return false
  ∧ AdminUser.verify_password
      (stored (AdminUser.hash_password "00ff" "admin123")) "admin123"
    = Return true.
Proof.
  cbn zeta. split; [|split].
  - apply (proj1 (proj2 (verify_password_fails_closed _ _))).
    vm_compute. discriminate.
  - apply (proj1 (proj2 (verify_password_fails_closed _ _))).
    vm_compute. discriminate.
  - apply (proj2 (proj2 (proj2 (verify_password_fails_closed _ _))) "00ff").
    + reflexivity.
    + reflexivity.
Defined.

Lemma require_admin_auth_sweeps_first_witness :
  let st := (@admin_login example_runtime Scenario.st0 Scenario.login_request
                          Scenario.login_env).1 in
  @require_admin_auth example_runtime get_admin_profile_view st
    Scenario.profile_request Scenario.late_env
  = ((cleanup_expired_sessions st 5601).1, INVALID_TOKEN).
Proof.
  cbn zeta.
  pose (session := AdminSession.mk 1 Scenario.token 2000 5600 "10.0.0.1").
  assert (@reachable example_runtime
            (@admin_login example_runtime Scenario.st0 Scenario.login_request
                          Scenario.login_env).1) as Hreach.
  { exact (@reachable_step example_runtime _ _
             (@reachable_bootstrap example_runtime
                "00112233445566778899aabbccddeeff" 1000)
             (@step_admin_login example_runtime Scenario.st0
                Scenario.login_request Scenario.login_env)). }
  assert (admin_sessions
            (@admin_login example_runtime Scenario.st0 Scenario.login_request
                          Scenario.login_env).1 !! 1 = Some session) as Hrow
    by (vm_compute; reflexivity).
  assert (AdminSession.expires_at session < utcnow Scenario.late_env)
    as Hlate by (vm_compute; reflexivity).
  exact (proj1 (proj2 (proj2 (@require_admin_auth_sweeps_first
                                example_runtime get_admin_profile_view
                                (@admin_login example_runtime Scenario.st0
                                   Scenario.login_request
                                   Scenario.login_env).1
                                Scenario.profile_request Scenario.late_env))
                  Hreach 1 session Hrow Hlate eq_refl)).
Defined.

Lemma admin_login_failures_witness :
  @admin_login example_runtime Scenario.st_disabled
    Scenario.wrong_password_request Scenario.login_env
  = (Scenario.st_disabled, INVALID_CREDENTIALS)
  ∧ @admin_login example_runtime Scenario.st_disabled
      Scenario.login_request Scenario.login_env
    = (Scenario.st_disabled, ACCOUNT_DISABLED)
  ∧ @admin_login example_runtime Scenario.st0
      (Scenario.from_curl None
         (Some {[ "username" := "nobody"; "password" := "admin123" ]}))
      Scenario.login_env
    = (Scenario.st0, INVALID_CREDENTIALS).
Proof.
  assert (usernames_unique (admin_users Scenario.st_disabled)) as Huniq.
  { intros i j a b Hi Hj _.
    change (({[1 := Scenario.disabled_admin]} : gmap Z AdminUser.t) !! i
            = Some a) in Hi.
    change (({[1 := Scenario.disabled_admin]} : gmap Z AdminUser.t) !! j
            = Some b) in Hj.
    apply lookup_singleton_Some in Hi as [<- _].
    apply lookup_singleton_Some in Hj as [<- _]. reflexivity. }
  pose (nobody := Scenario.from_curl None
                    (Some {[ "username" := "nobody";
                             "password" := "admin123" ]})).
  assert (∀ req u p, json req = Some {[ "username" := u; "password" := p ]} →
            ∃ data, json req = Some data ∧ data !! "username" = Some u
                    ∧ data !! "password" = Some p) as Hbody.
  { intros req u p ->. eexists. split; [reflexivity|].
    rewrite lookup_insert_eq, lookup_insert_ne, lookup_singleton_eq
      by discriminate. split; reflexivity. }
  destruct (Hbody Scenario.wrong_password_request "admin" "guess" eq_refl)
    as (d1 & J1 & U1 & P1).
  destruct (Hbody Scenario.login_request "admin" "admin123" eq_refl)
    as (d2 & J2 & U2 & P2).
  destruct (Hbody nobody "nobody" "admin123" eq_refl) as (d3 & J3 & U3 & P3).
  split; [|split].
  - apply (proj2 (proj1 (@admin_login_failures example_runtime
                           Scenario.st_disabled
                           Scenario.wrong_password_request Scenario.login_env)
                    d1 "admin" "guess" J1 U1 P1)
             1 Scenario.disabled_admin Huniq).
    + reflexivity.
    + reflexivity.
    + vm_compute. reflexivity.
  - apply (proj2 (proj1 (@admin_login_failures example_runtime
                           Scenario.st_disabled
                           Scenario.login_request Scenario.login_env)
                    d2 "admin" "admin123" J2 U2 P2)
             1 Scenario.disabled_admin Huniq).
    + reflexivity.
    + reflexivity.
    + vm_compute. reflexivity.
    + reflexivity.
  - apply (proj1 (proj1 (@admin_login_failures example_runtime
                           Scenario.st0 nobody Scenario.login_env)
                    d3 "nobody" "admin123" J3 U3 P3)).
    intros i a Hi. unfold Scenario.st0, bootstrap in Hi.
    cbn [admin_users set_admin_users] in Hi.
    apply lookup_singleton_Some in Hi as [_ <-]. discriminate.
Defined.

(* ================================================================== *)
(** * More properties of the handlers *)

(** ** Tokens and the guard *)

Section Tokens.
Context `{Runtime}.

Lemma verify_jwt_token_Some (env : Env) (token : jwt.token) (id : Z) :
  verify_jwt_token env token = Some id ↔
  ∃ p, token = jwt.Signed p JWT_SECRET_KEY
       ∧ jwt.iat p ≤ utcnow env < jwt.exp p
       ∧ jwt.admin_id p = id.
Proof.
  unfold verify_jwt_token, jwt.decode. split.
  - destruct token as [p key|junk]; [|discriminate].
    destruct (String.eqb_spec key JWT_SECRET_KEY) as [->|Hne];
      [|discriminate]. cbn [negb].
    destruct (Z.leb_spec (jwt.exp p) (utcnow env)); [discriminate|].
    destruct (Z.ltb_spec (utcnow env) (jwt.iat p)); [discriminate|].
    intros E. injection E as <-. exists p. repeat split; lia.
  - intros (p & -> & [Hiat Hexp] & <-).
    rewrite String.eqb_refl. cbn [negb].
    destruct (Z.leb_spec (jwt.exp p) (utcnow env)); [lia|].
    destruct (Z.ltb_spec (utcnow env) (jwt.iat p)); [lia|]. reflexivity.
Qed.

(** The window in which a token of [generate_jwt_token] decodes. *)
Lemma generated_token_verifies (env env' : Env) (id hours : Z) :
  verify_jwt_token env' (generate_jwt_token env id hours)
  = (if decide (utcnow env ≤ utcnow env' < utcnow env + hours * 3600)
     then Some id else None).
Proof.
  destruct (decide _) as [Hin|Hout].
  - apply verify_jwt_token_Some. eexists. split; [reflexivity|].
    cbn. split; [lia|reflexivity].
  - destruct (verify_jwt_token env' _) as [id'|] eqn:E; [|reflexivity].
    apply verify_jwt_token_Some in E as (p & Hp & Hb & _).
    unfold generate_jwt_token, jwt.encode in Hp. injection Hp as <-.
    cbn in Hb. lia.
Qed.

(** X1.  A token made by [generate_jwt_token] at one clock value is
    decoded by [verify_jwt_token] to the admin id it was made for exactly
    from that instant until [expires_in_hours * 3600] seconds later, the
    last instant excluded; a token signed with another key, or a string
    that is no token, is never decoded. *)
Theorem token_valid_for_its_lifetime (env env' : Env) (id hours : Z) :
  verify_jwt_token env' (generate_jwt_token env id hours)
  = (if decide (utcnow env ≤ utcnow env' < utcnow env + hours * 3600)
     then Some id else None)
  ∧ (∀ p key, key ≠ JWT_SECRET_KEY →
              verify_jwt_token env' (jwt.Signed p key) = None)
  ∧ (∀ junk, verify_jwt_token env' (jwt.Junk junk) = None).
Proof.
  split; [|split].
  - apply generated_token_verifies.
  - intros p key Hne.
    destruct (verify_jwt_token env' _) as [id'|] eqn:E; [|reflexivity].
    apply verify_jwt_token_Some in E as (p' & Hp & _).
    injection Hp as _ Hk. contradiction.
  - reflexivity.
Qed.

Lemma passes_verify (st : Store) (env : Env) (token : jwt.token) id admin :
  passes st (utcnow env) token id admin →
  verify_jwt_token env token = Some id ∧ (id =? 0) = false
  ∧ admin_users st !! id = Some admin ∧ AdminUser.is_active admin = true.
Proof.
  intros (p & Hp & Hb & Hid & Hnz & Hadmin & Hactive).
  split; [apply verify_jwt_token_Some; eauto|].
  split; [apply Z.eqb_neq; exact Hnz|]. split; assumption.
Qed.

(** A token that passes reaches the view, on the swept store. *)
Lemma require_admin_auth_passes (f : View) (st : Store) (req : Request)
    (env : Env) (token : jwt.token) (id : Z) (admin : AdminUser.t) :
  authorization req = Some (Bearer token) →
  passes st (utcnow env) token id admin →
  require_admin_auth f st req env
  = f (cleanup_expired_sessions st (utcnow env)).1 req env (id, admin).
Proof.
  intros Hauth Hpass.
  destruct (passes_verify _ _ _ _ _ Hpass) as (Hv & Hz & Hadmin & Hact).
  unfold require_admin_auth.
  rewrite Hauth, Hv, Hz, sweep_admin_users, (get_Some _ _ _ Hadmin), Hact.
  reflexivity.
Qed.



End Tokens.

(** ** Login and logout *)

Section LoginLogout.
Context `{Runtime}.

Lemma add_session_cases (table : gmap Z AdminSession.t)
    (session : AdminSession.t) :
  (add_session table session
   = Return (<[db.next_id table := session]> table)
   ∧ ∀ i s, table !! i = Some s →
            AdminSession.token s ≠ AdminSession.token session)
  ∨ (add_session table session = Raise IntegrityError
     ∧ ∃ i s, table !! i = Some s
              ∧ AdminSession.token s = AdminSession.token session).
Proof.
  unfold add_session. destruct (decide _) as [E|Hne].
  - left. split; [reflexivity|]. rewrite filter_empty_iff in E.
    intros i s Hi. exact (E i s Hi).
  - right. split; [reflexivity|].
    destruct (db.first (filter (λ kv : Z * AdminSession.t,
                                  AdminSession.token kv.2
                                  = AdminSession.token session) table))
      as [[i s]|] eqn:Ef.
    + apply first_Some, map_lookup_filter_Some in Ef as [Hi Hs]. eauto.
    + apply first_None in Ef. contradiction.
Qed.

Lemma find_admin (table : gmap Z AdminUser.t) (username : string) id admin :
  usernames_unique table → table !! id = Some admin →
  AdminUser.username admin = username →
  db.first (filter (λ kv : Z * AdminUser.t,
                      AdminUser.username kv.2 = username) table)
  = Some (id, admin).
Proof.
  intros Huniq Hid Hname.
  apply (first_filter_unique
           (λ kv : Z * AdminUser.t, AdminUser.username kv.2 = username));
    [exact Hid|exact Hname|].
  intros j y Hj Hy. cbn in Hy. apply (Huniq j id y admin Hj Hid). congruence.
Qed.

(** The session row [admin_login] writes for admin [id]. *)
Lemma login_session_row (req : Request) (env : Env) (id : Z) :
  AdminSession.set_token
    (AdminSession.create_session (utcnow env) (token_urlsafe env) id
                                 (get_client_ip req) 1)
    (generate_jwt_token env id JWT_EXPIRATION_HOURS)
  = AdminSession.mk id (generate_jwt_token env id 1) (utcnow env)
                    (utcnow env + 3600) (get_client_ip req).
Proof. reflexivity. Qed.

(** X4.  Login of an active admin with the right password, when no
    session row carries the token about to be issued, answers 200 with
    that token, [expires_in = 3600] and the admin's id, username and
    email.  It adds one session row under a fresh id (the admin's id, the
    token, created now, expiring 3600 seconds later, the client's
    address), sets the admin's [last_login] to now, and changes nothing
    else. *)
Theorem admin_login_issues_session (st : Store) (req : Request) (env : Env)
    (username password : string) (id : Z) (admin : AdminUser.t) :
  credentials req username password →
  usernames_unique (admin_users st) →
  admin_users st !! id = Some admin →
  AdminUser.username admin = username →
  AdminUser.verify_password admin password = Return true →
  AdminUser.is_active admin = true →
  (∀ i s, admin_sessions st !! i = Some s →
          AdminSession.token s ≠ generate_jwt_token env id 1) →
  let token := generate_jwt_token env id 1 in
  let session :=
    AdminSession.mk id token (utcnow env) (utcnow env + 3600)
                    (get_client_ip req) in
  let sid := db.next_id (admin_sessions st) in
  admin_login st req env
  = (set_admin_sessions
       (set_admin_users st
          (<[id := set_last_login admin (utcnow env)]> (admin_users st)))
       (<[sid := session]> (admin_sessions st)),
     (LoggedIn token 3600
               (id, AdminUser.username admin, AdminUser.email admin), 200))
  ∧ admin_sessions st !! sid = None.
Proof.
  intros (data & Hjson & Hu & Hp) Huniq Hid Hname Hverify Hactive Hfree.
  cbn zeta. split; [|apply next_id_fresh].
  unfold admin_login. rewrite Hjson, Hu, Hp.
  rewrite (find_admin _ _ _ _ Huniq Hid Hname), Hverify, Hactive.
  cbn [negb]. rewrite login_session_row.
  destruct (add_session_cases (admin_sessions st)
              (AdminSession.mk id (generate_jwt_token env id 1) (utcnow env)
                               (utcnow env + 3600) (get_client_ip req)))
    as [[-> _]|[_ (i & s & Hi & Hs)]].
  - reflexivity.
  - destruct (Hfree i s Hi Hs).
Qed.

(** What a successful login tells about the request and the store. *)
Lemma admin_login_success (st st1 : Store) (req : Request) (env : Env)
    (token : jwt.token) (expires_in id : Z) (username : string)
    (email : option string) :
  admin_login st req env
  = (st1, (LoggedIn token expires_in (id, username, email), 200)) →
  ∃ password admin,
    credentials req username password
    ∧ db.first (filter (λ kv : Z * AdminUser.t,
                          AdminUser.username kv.2 = username)
                       (admin_users st)) = Some (id, admin)
    ∧ AdminUser.verify_password admin password = Return true
    ∧ AdminUser.is_active admin = true
    ∧ token = generate_jwt_token env id 1
    ∧ expires_in = 3600
    ∧ st1 = set_admin_sessions
              (set_admin_users st
                 (<[id := set_last_login admin (utcnow env)]>
                    (admin_users st)))
              (<[db.next_id (admin_sessions st) :=
                   AdminSession.mk id token (utcnow env) (utcnow env + 3600)
                                   (get_client_ip req)]> (admin_sessions st)).
Proof.
  unfold admin_login.
  destruct (json req) as [data|] eqn:Hjson; [|discriminate].
  destruct (data !! "username") as [u|] eqn:Hu; [|discriminate].
  destruct (data !! "password") as [pw|] eqn:Hp; [|discriminate].
  destruct (db.first _) as [[id' admin]|] eqn:Hfind; [|discriminate].
  destruct (AdminUser.verify_password admin pw) as [[|]|] eqn:Hv;
    try discriminate.
  destruct (AdminUser.is_active admin) eqn:Hact; [|discriminate].
  cbn [negb]. rewrite login_session_row.
  destruct (add_session_cases (admin_sessions st)
              (AdminSession.mk id' (generate_jwt_token env id' 1)
                               (utcnow env) (utcnow env + 3600)
                               (get_client_ip req)))
    as [[-> _]|[-> _]]; [|discriminate].
  intros E. injection E as <- <- <- <- <- <-.
  pose proof Hfind as Hrow.
  apply first_Some, map_lookup_filter_Some in Hrow as [_ Hname].
  cbn in Hname. subst u.
  exists pw, admin. split; [exists data; tauto|].
  repeat split; try assumption; reflexivity.
Qed.

(** X5.  The token a successful login hands out opens every protected
    view, for the admin who logged in, at every instant from the login
    until 3600 seconds later (the last one excluded), and is refused with
    [INVALID_TOKEN] from then on.  The session row written at login
    survives every sweep up to and including the instant 3600 seconds
    after login and is deleted by any later one. *)
Theorem login_token_lifetime (st st1 : Store) (req : Request) (env : Env)
    (token : jwt.token) (expires_in id : Z) (username : string)
    (email : option string) :
  admin_login st req env
  = (st1, (LoggedIn token expires_in (id, username, email), 200)) →
  id ≠ 0 →
  ∃ admin sid session,
    admin_users st1 !! id = Some admin
    ∧ AdminUser.last_login admin = Some (utcnow env)
    ∧ admin_sessions st1 !! sid = Some session
    ∧ AdminSession.token session = token
    ∧ AdminSession.expires_at session = utcnow env + expires_in
    ∧ ∀ (f : View) req' env',
        authorization req' = Some (Bearer token) →
        let swept := (cleanup_expired_sessions st1 (utcnow env')).1 in
        (utcnow env ≤ utcnow env' < utcnow env + expires_in →
         require_admin_auth f st1 req' env' = f swept req' env' (id, admin))
        ∧ (utcnow env + expires_in ≤ utcnow env' →
           require_admin_auth f st1 req' env' = (swept, INVALID_TOKEN))
        ∧ (utcnow env' ≤ utcnow env + expires_in →
           admin_sessions swept !! sid = Some session)
        ∧ (utcnow env + expires_in < utcnow env' →
           admin_sessions swept !! sid = None).
Proof.
  intros Hlogin Hnz.
  destruct (admin_login_success _ _ _ _ _ _ _ _ _ Hlogin)
    as (pw & admin & _ & Hfind & _ & Hact & -> & -> & ->).
  eexists (set_last_login admin (utcnow env)), _, _.
  cbn [admin_users admin_sessions set_admin_users set_admin_sessions].
  split; [apply lookup_insert_eq|]. split; [reflexivity|].
  split; [apply lookup_insert_eq|]. split; [reflexivity|].
  split; [reflexivity|].
  intros f req' env' Hauth. cbn zeta.
  pose proof (generated_token_verifies env env' id 1) as Hv.
  split; [|split; [|split]].
  - intros Hin. rewrite decide_True in Hv by lia.
    unfold require_admin_auth.
    rewrite Hauth, Hv, (proj2 (Z.eqb_neq id 0) Hnz), sweep_admin_users.
    cbn [admin_users set_admin_users set_admin_sessions].
    rewrite (get_Some _ _ _ (lookup_insert_eq _ _ _)).
    cbn [AdminUser.is_active set_last_login].
    rewrite Hact. reflexivity.
  - intros Hlate. rewrite decide_False in Hv by lia.
    unfold require_admin_auth. rewrite Hauth, Hv. reflexivity.
  - intros Hearly. rewrite sweep_sessions.
    cbn [admin_sessions set_admin_sessions].
    apply map_lookup_filter_Some. split; [apply lookup_insert_eq|].
    cbn. lia.
  - intros Hlate. rewrite sweep_sessions.
    cbn [admin_sessions set_admin_sessions].
    apply map_lookup_filter_None. right. intros s Hs.
    rewrite lookup_insert_eq in Hs. injection Hs as <-. cbn. lia.
Qed.

(** X6.  A second login of the same admin at the same clock value (the
    token carries the time in whole seconds) would be issued the token of
    the first; the [unique] token column rejects the session row, and the
    login answers [INTERNAL_ERROR] with status 500 and changes
    nothing. *)
Theorem admin_login_twice_same_second (st st1 : Store) (req : Request)
    (env env' : Env) (token : jwt.token) (expires_in id : Z)
    (username : string) (email : option string) :
  admin_login st req env
  = (st1, (LoggedIn token expires_in (id, username, email), 200)) →
  usernames_unique (admin_users st) →
  utcnow env' = utcnow env →
  admin_login st1 req env' = (st1, login_INTERNAL_ERROR).
Proof.
  intros Hlogin Huniq Hnow.
  destruct (admin_login_success _ _ _ _ _ _ _ _ _ Hlogin)
    as (pw & admin & (data & Hjson & Hu & Hp) & Hfind & Hv & Hact
        & -> & -> & ->).
  pose proof Hfind as Hrow.
  apply first_Some, map_lookup_filter_Some in Hrow as [Hid Hname].
  cbn in Hname.
  unfold admin_login. rewrite Hjson, Hu, Hp.
  cbn [admin_users admin_sessions set_admin_users set_admin_sessions].
  rewrite (find_admin _ username id (set_last_login admin (utcnow env))).
  - change (AdminUser.verify_password (set_last_login admin (utcnow env)) pw)
      with (AdminUser.verify_password admin pw).
    rewrite Hv. cbn [AdminUser.is_active set_last_login]. rewrite Hact.
    cbn [negb]. rewrite login_session_row.
    match goal with
    | |- context [add_session ?t ?s] =>
        destruct (add_session_cases t s) as [[_ Hfree]|[-> _]]
    end; [|reflexivity].
    exfalso.
    eapply (Hfree (db.next_id (admin_sessions st)));
      [apply lookup_insert_eq|].
    cbn [AdminSession.token]. unfold generate_jwt_token.
    rewrite Hnow. reflexivity.
  - intros i j a b Hi Hj Hab.
    assert (∀ k c, <[id := set_last_login admin (utcnow env)]>
                     (admin_users st) !! k = Some c →
                   ∃ c', admin_users st !! k = Some c'
                         ∧ AdminUser.username c' = AdminUser.username c)
      as Hback.
    { intros k c Hk. destruct (decide (k = id)) as [->|Hne].
      - rewrite lookup_insert_eq in Hk. injection Hk as <-. eauto.
      - rewrite lookup_insert_ne in Hk by congruence. eauto. }
    destruct (Hback i a Hi) as (a' & Hi' & Ha).
    destruct (Hback j b Hj) as (b' & Hj' & Hb).
    apply (Huniq i j a' b' Hi' Hj'). congruence.
  - apply lookup_insert_eq.
  - exact Hname.
Qed.

End LoginLogout.

Section Logout.
Context `{Runtime}.

(** The one path on which [admin_logout] answers 200. *)
Lemma admin_logout_success (st st' : Store) (req : Request) (env : Env)
    (token : jwt.token) :
  authorization req = Some (Bearer token) →
  admin_logout st req env = (st', (Success "Logged out successfully", 200)) →
  let swept := (cleanup_expired_sessions st (utcnow env)).1 in
  (∃ id admin, passes st (utcnow env) token id admin)
  ∧ st' = match db.first (filter (λ kv : Z * AdminSession.t,
                                    AdminSession.token kv.2 = token)
                                 (admin_sessions swept)) with
          | Some (sid, _) =>
              set_admin_sessions swept (delete sid (admin_sessions swept))
          | None => swept
          end.
Proof.
  intros Hauth. cbn zeta. unfold admin_logout, require_admin_auth.
  rewrite Hauth.
  destruct (verify_jwt_token env token) as [id|] eqn:Hv; [|discriminate].
  destruct (Z.eqb_spec id 0) as [Hz|Hnz]; [discriminate|].
  rewrite sweep_admin_users.
  destruct (db.get (admin_users st) id) as [[admin|]|e] eqn:Hadmin;
    try discriminate.
  apply get_Return in Hadmin.
  destruct (AdminUser.is_active admin) eqn:Hact; [|discriminate].
  unfold admin_logout_view. rewrite Hauth.
  intros E. injection E as <-. split; [|destruct (db.first _) as [[]|];
                                          reflexivity].
  apply verify_jwt_token_Some in Hv as (p & Hp & Hb & Hid).
  exists id, admin, p. repeat split; try assumption; lia.
Qed.

(** X7.  After a logout that answered 200, no session row carries the
    presented token (the token column being unique), and every other row
    that has not expired is still there.  The token itself is not
    invalidated: the guard keeps letting it through, for the same admin,
    for as long as it decodes. *)
Theorem admin_logout_deletes_row_only (st st' : Store) (req : Request)
    (env : Env) (token : jwt.token) :
  authorization req = Some (Bearer token) →
  admin_logout st req env = (st', (Success "Logged out successfully", 200)) →
  tokens_unique (admin_sessions st) →
  (∀ i s, admin_sessions st' !! i = Some s → AdminSession.token s ≠ token)
  ∧ (∀ i s, admin_sessions st !! i = Some s →
            utcnow env ≤ AdminSession.expires_at s →
            AdminSession.token s ≠ token →
            admin_sessions st' !! i = Some s)
  ∧ admin_users st' = admin_users st
  ∧ ∀ (f : View) req' env',
      authorization req' = Some (Bearer token) →
      is_Some (verify_jwt_token env' token) →
      ∃ id admin,
        require_admin_auth f st' req' env'
        = f (cleanup_expired_sessions st' (utcnow env')).1 req' env'
            (id, admin).
Proof.
  intros Hauth Hok Huniq.
  destruct (admin_logout_success _ _ _ _ _ Hauth Hok)
    as [(id & admin & Hpass) Hst'].
  assert (∀ i s, admin_sessions (cleanup_expired_sessions st (utcnow env)).1
                   !! i = Some s ↔
                 admin_sessions st !! i = Some s
                 ∧ utcnow env ≤ AdminSession.expires_at s) as Hswept.
  { intros i s. rewrite sweep_sessions, map_lookup_filter_Some. reflexivity. }
  assert (admin_users st' = admin_users st) as Husers.
  { rewrite Hst'. destruct (db.first _) as [[]|]; reflexivity. }
  split; [|split; [|split]].
  - intros i s Hi Htok. rewrite Hst' in Hi.
    destruct (db.first _) as [[sid row]|] eqn:Hfirst.
    + cbn [admin_sessions set_admin_sessions] in Hi.
      apply lookup_delete_Some in Hi as [Hne Hi].
      apply first_Some, map_lookup_filter_Some in Hfirst as [Hsid Hrow].
      cbn in Hrow. apply Hne.
      apply Hswept in Hi as [Hi _]. apply Hswept in Hsid as [Hsid _].
      apply (Huniq sid i row s Hsid Hi). congruence.
    + apply (proj2 (first_filter_none
                      (λ kv : Z * AdminSession.t,
                         AdminSession.token kv.2 = token) _) Hfirst i s Hi).
      exact Htok.
  - intros i s Hi Hlive Hother. rewrite Hst'.
    assert (admin_sessions (cleanup_expired_sessions st (utcnow env)).1
              !! i = Some s) as Hsw by (apply Hswept; tauto).
    destruct (db.first _) as [[sid row]|] eqn:Hfirst; [|exact Hsw].
    cbn [admin_sessions set_admin_sessions].
    apply lookup_delete_Some. split; [|exact Hsw].
    intros ->.
    apply first_Some, map_lookup_filter_Some in Hfirst as [Hsid Hrow].
    cbn in Hrow. rewrite Hsw in Hsid. injection Hsid as <-. contradiction.
  - exact Husers.
  - intros f req' env' Hauth' [id' Hv'].
    destruct (passes_verify _ _ _ _ _ Hpass) as (Hv & Hz & Hadmin & Hact).
    destruct (verify_jwt_token_id _ _ _ Hv) as (p & key & -> & ->).
    destruct (verify_jwt_token_id _ _ _ Hv') as (p' & key' & E & ->).
    injection E as <- <-.
    eexists _, admin. unfold require_admin_auth.
    rewrite Hauth', Hv', Hz, sweep_admin_users, Husers,
      (get_Some _ _ _ Hadmin), Hact.
    reflexivity.
Qed.

Lemma tokens_unique_subset (t t' : gmap Z AdminSession.t) :
  (∀ i s, t' !! i = Some s → t !! i = Some s) →
  tokens_unique t → tokens_unique t'.
Proof.
  intros Hsub Ht i j a b Hi Hj. apply (Ht i j a b); apply Hsub; assumption.
Qed.

Lemma require_admin_auth_tokens_unique (f : View) :
  (∀ st req env a, tokens_unique (admin_sessions st) →
                   tokens_unique (admin_sessions (f st req env a).1)) →
  ∀ st req env, tokens_unique (admin_sessions st) →
    tokens_unique (admin_sessions (require_admin_auth f st req env).1).
Proof.
  intros Hf st req env Hst.
  assert (tokens_unique
            (admin_sessions (cleanup_expired_sessions st (utcnow env)).1))
    as Hsw.
  { revert Hst. apply tokens_unique_subset. intros i s.
    rewrite sweep_sessions.
    intros [Hi _]%map_lookup_filter_Some. exact Hi. }
  unfold require_admin_auth.
  repeat case_match; try exact Hsw. apply Hf. exact Hsw.
Qed.

Lemma admin_login_tokens_unique (st : Store) (req : Request) (env : Env) :
  tokens_unique (admin_sessions st) →
  tokens_unique (admin_sessions (admin_login st req env).1).
Proof.
  intros Hst. unfold admin_login.
  repeat case_match; try exact Hst.
  match goal with E : add_session ?t ?s = Return _ |- _ =>
    destruct (add_session_cases t s) as [[E' Hfree]|[E' _]];
    rewrite E' in E; [injection E as <-|discriminate] end.
  cbn [fst admin_sessions set_admin_sessions set_admin_users].
  intros ka kb ra rb Ha Hb Hxy.
  destruct (decide (ka = db.next_id (admin_sessions st))) as [->|Hna];
    destruct (decide (kb = db.next_id (admin_sessions st))) as [->|Hnb];
    try reflexivity.
  - rewrite lookup_insert_eq in Ha. injection Ha as <-.
    rewrite lookup_insert_ne in Hb by congruence.
    destruct (Hfree kb rb Hb). congruence.
  - rewrite lookup_insert_eq in Hb. injection Hb as <-.
    rewrite lookup_insert_ne in Ha by congruence.
    destruct (Hfree ka ra Ha). congruence.
  - rewrite lookup_insert_ne in Ha by congruence.
    rewrite lookup_insert_ne in Hb by congruence.
    exact (Hst ka kb ra rb Ha Hb Hxy).
Qed.

(** X8.  In every store the system can reach, no two session rows carry
    the same token, and every row's token expires no later than the row:
    login is the only writer of rows, and sweep, logout and password
    change only delete. *)
Theorem reachable_sessions_sound (st : Store) :
  reachable st →
  tokens_unique (admin_sessions st) ∧ sessions_issued (admin_sessions st).
Proof.
  intros Hreach. split; [|apply reachable_sessions_issued; exact Hreach].
  induction Hreach as [salt now|st st' _ IH Hstep].
  - intros i j s t Hi. cbn in Hi. rewrite lookup_empty in Hi. discriminate.
  - destruct Hstep.
    + rewrite submit_vote_under_sessions. exact IH.
    + rewrite check_vote_status_store. exact IH.
    + apply admin_login_tokens_unique, IH.
    + apply require_admin_auth_tokens_unique; [|exact IH].
      intros st0 req0 env0 a Hs. unfold admin_logout_view.
      repeat case_match; try exact Hs.
      cbn [fst admin_sessions set_admin_sessions].
      revert Hs. apply tokens_unique_subset. intros sid row.
      intros [_ Hi]%lookup_delete_Some. exact Hi.
    + apply require_admin_auth_tokens_unique; [|exact IH].
      intros ? ? ? ? Hs. exact Hs.
    + apply require_admin_auth_tokens_unique; [|exact IH].
      intros st0 req0 env0 a Hs. unfold change_password_view.
      repeat case_match; try exact Hs.
      cbn [fst admin_sessions set_admin_sessions set_admin_users].
      revert Hs. apply tokens_unique_subset. intros sid row.
      intros [Hi _]%map_lookup_filter_Some. exact Hi.
    + match goal with E : admin_sessions _ = admin_sessions _ |- _ =>
        rewrite E end. exact IH.
Qed.

End Logout.

(** ** Password change *)

Section ChangePassword.
Context `{Runtime}.

(** A password verifies against the hash [hash_password] made of it. *)
Lemma hash_password_verifies (admin : AdminUser.t) (salt password : string) :
  count_char ":" salt = 0%nat →
  AdminUser.password_hash admin = AdminUser.hash_password salt password →
  AdminUser.verify_password admin password = Return true.
Proof.
  intros Hsalt Hhash.
  unfold AdminUser.verify_password, AdminUser.verify_password_try.
  rewrite Hhash. unfold AdminUser.hash_password.
  rewrite (split_salt_hash _ _ Hsalt (hexdigest_no_colon _)). cbn.
  rewrite String.eqb_refl. reflexivity.
Qed.

(** [change_password_view] once its two fields have passed. *)
Lemma change_password_view_validated (st : Store) (req : Request) (env : Env)
    (id : Z) (admin : AdminUser.t) (data : gmap string string)
    (current new : string) :
  json req = Some data →
  data !! "current_password" = Some current →
  data !! "new_password" = Some new →
  current ≠ "" → new ≠ "" →
  change_password_view st req env (id, admin) =
    match AdminUser.verify_password admin current with
    | Raise _ =>
        (st, (Error "INTERNAL_ERROR"
                    "An error occurred while changing password" None, 500))
    | Return false =>
        (st, (Error "INVALID_PASSWORD" "Current password is incorrect" None,
              400))
    | Return true =>
        if Py.len new <? 6 then
          (st, (Error "WEAK_PASSWORD"
                      "New password must be at least 6 characters long" None,
                400))
        else
          (set_admin_sessions
             (set_admin_users st
                (<[id := set_password_hash admin
                           (AdminUser.hash_password (token_hex env) new)]>
                   (admin_users st)))
             (filter (λ kv : Z * AdminSession.t,
                        AdminSession.admin_id kv.2 ≠ id) (admin_sessions st)),
           password_changed)
    end.
Proof.
  intros Hjson Hc Hn Hce Hne. unfold change_password_view.
  rewrite Hjson. cbn [missing_field]. rewrite Hc, Hn.
  rewrite !truthy_nonempty by assumption.
  unfold item. rewrite Hc, Hn. reflexivity.
Qed.

(** X9.  For an admin the guard lets through: a current password that
    does not verify is answered [INVALID_PASSWORD], whatever the new
    password; a current password that verifies with a new password of
    fewer than 6 characters is answered [WEAK_PASSWORD].  Both answer 400
    and leave the store as the sweep left it: the password hash and the
    unexpired sessions are untouched. *)
Theorem change_password_refusals (st : Store) (req : Request) (env : Env)
    (token : jwt.token) (id : Z) (admin : AdminUser.t)
    (data : gmap string string) (current new : string) :
  authorization req = Some (Bearer token) →
  passes st (utcnow env) token id admin →
  json req = Some data →
  data !! "current_password" = Some current →
  data !! "new_password" = Some new →
  current ≠ "" → new ≠ "" →
  let swept := (cleanup_expired_sessions st (utcnow env)).1 in
  (AdminUser.verify_password admin current = Return false →
   change_password st req env
   = (swept, (Error "INVALID_PASSWORD" "Current password is incorrect" None,
              400)))
  ∧ (AdminUser.verify_password admin current = Return true →
     Py.len new < 6 →
     change_password st req env
     = (swept, (Error "WEAK_PASSWORD"
                      "New password must be at least 6 characters long" None,
                400))).
Proof.
  intros Hauth Hpass Hjson Hc Hn Hce Hne. cbn zeta.
  unfold change_password.
  rewrite (require_admin_auth_passes _ st req env token id admin Hauth Hpass).
  rewrite (change_password_view_validated _ _ _ _ _ _ _ _ Hjson Hc Hn Hce Hne).
  split.
  - intros ->. reflexivity.
  - intros -> Hshort.
    destruct (Z.ltb_spec (Py.len new) 6); [reflexivity|lia].
Qed.

(** X10.  For an admin the guard lets through, with a current password
    that verifies and a new password of at least 6 characters,
    [change_password] answers 200, stores [hash_password(new_password)]
    for that admin and touches no other admin and no other column, and
    deletes the admin's sessions and no one else's.  The new password then
    verifies against the stored hash (the salt being hexadecimal). *)
Theorem change_password_stores_new_hash (st : Store) (req : Request)
    (env : Env) (token : jwt.token) (id : Z) (admin : AdminUser.t)
    (data : gmap string string) (current new : string) :
  authorization req = Some (Bearer token) →
  passes st (utcnow env) token id admin →
  json req = Some data →
  data !! "current_password" = Some current →
  data !! "new_password" = Some new →
  current ≠ "" →
  AdminUser.verify_password admin current = Return true →
  6 ≤ Py.len new →
  count_char ":" (token_hex env) = 0%nat →
  let swept := (cleanup_expired_sessions st (utcnow env)).1 in
  let admin' :=
    set_password_hash admin (AdminUser.hash_password (token_hex env) new) in
  let st' := (change_password st req env).1 in
  (change_password st req env).2 = password_changed
  ∧ admin_users st' = <[id := admin']> (admin_users st)
  ∧ admin_sessions st'
    = filter (λ kv : Z * AdminSession.t,
                AdminSession.admin_id kv.2 ≠ id
                ∧ utcnow env ≤ AdminSession.expires_at kv.2)
             (admin_sessions st)
  ∧ votes st' = votes st
  ∧ AdminUser.verify_password admin' new = Return true
  ∧ AdminUser.username admin' = AdminUser.username admin
  ∧ AdminUser.is_active admin' = AdminUser.is_active admin
  ∧ AdminUser.last_login admin' = AdminUser.last_login admin.
Proof.
  intros Hauth Hpass Hjson Hc Hn Hce Hv Hlen Hsalt. cbn zeta.
  assert (new ≠ "") as Hne by (intros ->; cbn in Hlen; lia).
  unfold change_password.
  rewrite (require_admin_auth_passes _ st req env token id admin Hauth Hpass).
  rewrite (change_password_view_validated _ _ _ _ _ _ _ _ Hjson Hc Hn Hce Hne).
  rewrite Hv. destruct (Z.ltb_spec (Py.len new) 6); [lia|].
  cbn [fst snd admin_users admin_sessions votes set_admin_users
       set_admin_sessions].
  split; [reflexivity|]. split; [reflexivity|]. split.
  { rewrite sweep_sessions, map_filter_filter.
    apply map_filter_ext. intros i s _. cbn. tauto. }
  split; [reflexivity|]. split; [|repeat split].
  apply (hash_password_verifies _ (token_hex env)); [exact Hsalt|reflexivity].
Qed.

End ChangePassword.

(** ** More on the vote ledger *)

Section MoreVotes.
Context `{Runtime}.

(** The loop over the required fields stops at the first one that is
    absent or empty. *)
Lemma missing_field_first (data : gmap string string)
    (pre post : list string) (field : string) :
  (∀ g, g ∈ pre → ∃ v, data !! g = Some v ∧ v ≠ "") →
  data !! field = None ∨ data !! field = Some "" →
  missing_field data (pre ++ field :: post) = Some field.
Proof.
  intros Hpre Hbad. induction pre as [|g pre IH].
  - cbn [app missing_field]. destruct Hbad as [->| ->]; reflexivity.
  - cbn [app missing_field].
    destruct (Hpre g) as (v & -> & Hv); [apply elem_of_cons; tauto|].
    rewrite (truthy_nonempty v Hv). apply IH.
    intros g' Hg'. apply Hpre, elem_of_cons. tauto.
Qed.

(** X11.  A vote submission or a vote-status check in which one of the
    required fields is absent or empty is answered [MISSING_FIELD], 400,
    naming the first such field in the order day, meal, dish (day, meal
    for the check); nothing is looked up or stored. *)
Theorem missing_field_reported (c : Conditions) (st : Store) (req : Request)
    (env : Env) (data : gmap string string) (pre post : list string)
    (field : string) :
  json req = Some data →
  (∀ g, g ∈ pre → ∃ v, data !! g = Some v ∧ v ≠ "") →
  data !! field = None ∨ data !! field = Some "" →
  (["day"; "meal"; "dish"] = (pre ++ field :: post)%list →
   submit_vote_under c st req env = (st, MISSING_FIELD field))
  ∧ (["day"; "meal"] = (pre ++ field :: post)%list →
     check_vote_status st req = (st, MISSING_FIELD field)).
Proof.
  intros Hjson Hpre Hbad. split; intros Hfields.
  - unfold submit_vote_under. rewrite Hjson, Hfields.
    rewrite (missing_field_first _ _ _ _ Hpre Hbad). reflexivity.
  - unfold check_vote_status. rewrite Hjson, Hfields.
    rewrite (missing_field_first _ _ _ _ Hpre Hbad). reflexivity.
Qed.

(** X12.  The limit is per key: after a first vote, a submission whose
    [(day.lower(), meal.lower(), identity)] differs from the first one's
    and has no vote yet is accepted with 201, and the store then holds
    both votes, two more than before. *)
Theorem other_key_accepted (st : Store) (req req2 : Request)
    (env env2 : Env) (day meal dish day2 meal2 dish2 : string) :
  vote_fields req day meal dish →
  vote_fields req2 day2 meal2 dish2 →
  no_vote_for (votes st)
              (str_lower day, str_lower meal, identity_of req) →
  no_vote_for (votes st)
              (str_lower day2, str_lower meal2, identity_of req2) →
  (str_lower day2, str_lower meal2, identity_of req2)
  ≠ (str_lower day, str_lower meal, identity_of req) →
  let st1 := (submit_vote st req env).1 in
  let st2 := (submit_vote st1 req2 env2).1 in
  ∃ id1 id2 vote1 vote2,
    (submit_vote st1 req2 env2).2
    = (VoteSubmitted "Vote submitted successfully" id2, 201)
    ∧ id1 ≠ id2
    ∧ votes st2 !! id1 = Some vote1 ∧ Vote.dish vote1 = dish
    ∧ votes st2 !! id2 = Some vote2 ∧ Vote.dish vote2 = dish2
    ∧ size (votes st2) = (size (votes st) + 2)%nat.
Proof.
  intros Hf Hf2 Hno Hno2 Hkey. cbn zeta.
  destruct (submit_vote_first st req env day meal dish Hf Hno) as [E Hfresh].
  rewrite E. cbn [fst].
  set (vote1 := Vote.mk (str_lower day) (str_lower meal) dish
                        (identity_of req) (get_client_ip req) (utcnow env)
                        (create_session_id req env)) in *.
  set (st1 := set_votes st (<[db.next_id (votes st) := vote1]> (votes st))).
  assert (no_vote_for (votes st1)
            (str_lower day2, str_lower meal2, identity_of req2)) as Hno1.
  { intros i v Hi. unfold st1 in Hi. cbn [votes set_votes] in Hi.
    destruct (decide (i = db.next_id (votes st))) as [->|Hne].
    - rewrite lookup_insert_eq in Hi. injection Hi as <-.
      intros Hv. apply Hkey. symmetry. exact Hv.
    - rewrite lookup_insert_ne in Hi by congruence. exact (Hno2 i v Hi). }
  destruct (submit_vote_first st1 req2 env2 day2 meal2 dish2 Hf2 Hno1)
    as [E2 Hfresh2].
  rewrite E2. cbn [fst snd votes set_votes].
  eexists (db.next_id (votes st)), (db.next_id (votes st1)), vote1, _.
  split; [reflexivity|].
  assert (db.next_id (votes st) ≠ db.next_id (votes st1)) as Hids.
  { intros Heq. rewrite <- Heq in Hfresh2. unfold st1 in Hfresh2.
    cbn [votes set_votes] in Hfresh2.
    rewrite lookup_insert_eq in Hfresh2. discriminate. }
  split; [exact Hids|]. split.
  { rewrite lookup_insert_ne by congruence. unfold st1.
    cbn [votes set_votes]. apply lookup_insert_eq. }
  split; [reflexivity|]. split; [apply lookup_insert_eq|].
  split; [reflexivity|].
  rewrite map_size_insert_None by exact Hfresh2.
  unfold st1. cbn [votes set_votes].
  rewrite map_size_insert_None by exact Hfresh. lia.
Qed.

(** The feedback, complaint and menu-suggestion submissions and
    [verify_token] write to their own tables only, so every request served
    is a [step]. *)
Lemma serve_step (st st' : Store) : serve st st' → step st st'.
Proof.
  destruct 1.
  - apply step_submit_vote.
  - apply step_check_vote_status.
  - apply step_elsewhere; unfold submit_feedback, add_feedback;
      repeat case_match; simplify_eq; reflexivity.
  - apply step_elsewhere; unfold submit_complaint;
      repeat case_match; reflexivity.
  - apply step_elsewhere; unfold submit_menu_suggestion;
      repeat case_match; reflexivity.
  - apply step_admin_login.
  - apply step_admin_logout.
  - apply step_get_admin_profile.
  - apply step_change_password.
  - apply step_elsewhere; unfold verify_token;
      repeat case_match; reflexivity.
Qed.

(** X13.  No handler deletes or rewrites a vote: a vote the store holds
    is held, under the same id and with the same contents, after any
    sequence of requests to the vote, feedback, complaint, suggestion,
    login, logout, profile, password and token handlers. *)
Theorem votes_are_permanent (st st' : Store) (i : Z) (v : Vote.t) :
  rtc serve st st' → votes st !! i = Some v → votes st' !! i = Some v.
Proof.
  intros Hserved.
  assert (rtc step st st') as Hsteps.
  { induction Hserved as [|a b c Hab _ IH]; [apply rtc_refl|].
    exact (rtc_l _ _ _ _ (serve_step _ _ Hab) IH). }
  apply (steps_votes _ _ Hsteps).
Qed.

End MoreVotes.

(** ** More on the sweep *)

Lemma store_ext (a b : Store) :
  votes a = votes b → feedback a = feedback b →
  complaints a = complaints b →
  menu_suggestions a = menu_suggestions b →
  admin_users a = admin_users b → menu_pdfs a = menu_pdfs b →
  admin_sessions a = admin_sessions b → a = b.
Proof. destruct a, b; cbn; intros; subst; reflexivity. Qed.

Lemma sweep_sessions_at (st : Store) (now : Z) :
  admin_sessions (cleanup_expired_sessions st now).1
  = filter (λ kv : Z * AdminSession.t, now ≤ AdminSession.expires_at kv.2)
           (admin_sessions st)
  ∧ (cleanup_expired_sessions st now).2
    = size (filter (λ kv : Z * AdminSession.t,
                      AdminSession.expires_at kv.2 < now) (admin_sessions st)).
Proof.
  unfold cleanup_expired_sessions.
  cbn [fst snd admin_sessions set_admin_sessions].
  rewrite delete_selected, length_map_to_list. split; [|reflexivity].
  apply map_filter_ext. intros i x _. cbn. lia.
Qed.

(** X14.  The sweep deletes a session row exactly when the row's
    [is_expired] holds at that clock value.  Sweeping again at the same or
    an earlier instant deletes nothing; sweeping at [t] and then at a
    later [t'] leaves the store of a single sweep at [t'], and the two
    counts add up to that sweep's count. *)
Theorem cleanup_expired_sessions_composes (st : Store) (t t' : Z) :
  (∀ i s, admin_sessions st !! i = Some s →
          admin_sessions (cleanup_expired_sessions st t).1 !! i
          = if AdminSession.is_expired s t then None else Some s)
  ∧ (t' ≤ t →
     cleanup_expired_sessions (cleanup_expired_sessions st t).1 t'
     = ((cleanup_expired_sessions st t).1, 0%nat))
  ∧ (t ≤ t' →
     (cleanup_expired_sessions (cleanup_expired_sessions st t).1 t').1
     = (cleanup_expired_sessions st t').1
     ∧ ((cleanup_expired_sessions st t).2
        + (cleanup_expired_sessions (cleanup_expired_sessions st t).1 t').2
        = (cleanup_expired_sessions st t').2)%nat).
Proof.
  split; [|split].
  - intros i s Hi. rewrite (proj1 (sweep_sessions_at st t)).
    unfold AdminSession.is_expired.
    destruct (Z.ltb_spec (AdminSession.expires_at s) t).
    + apply map_lookup_filter_None. right. intros x Hx.
      rewrite Hi in Hx. injection Hx as <-. cbn. lia.
    + apply map_lookup_filter_Some. split; [exact Hi|]. cbn. lia.
  - intros Hle.
    destruct (cleanup_expired_sessions (cleanup_expired_sessions st t).1 t')
      as [st2 n] eqn:E.
    pose proof (sweep_sessions_at (cleanup_expired_sessions st t).1 t')
      as [Hs Hn].
    rewrite E in Hs, Hn. cbn [fst snd] in Hs, Hn.
    rewrite (proj1 (sweep_sessions_at st t)) in Hs, Hn.
    f_equal.
    + assert (st2 = (cleanup_expired_sessions
                       (cleanup_expired_sessions st t).1 t').1) as ->
        by (rewrite E; reflexivity).
      apply store_ext; try reflexivity.
      rewrite (proj1 (sweep_sessions_at _ t')),
        (proj1 (sweep_sessions_at st t)).
      apply map_filter_id. intros i s [_ Hi]%map_lookup_filter_Some.
      cbn in *. lia.
    + rewrite Hn. apply map_size_empty_iff, filter_empty_iff.
      intros i s [_ Hi]%map_lookup_filter_Some. cbn in *. lia.
  - intros Hle.
    pose proof (sweep_sessions_at (cleanup_expired_sessions st t).1 t')
      as [Hs Hn].
    rewrite (proj1 (sweep_sessions_at st t)) in Hs, Hn.
    split.
    + apply store_ext; try reflexivity.
      rewrite Hs, (proj1 (sweep_sessions_at st t')), map_filter_filter.
      apply map_filter_ext. intros i s _. cbn. lia.
    + rewrite Hn, (proj2 (sweep_sessions_at st t)),
        (proj2 (sweep_sessions_at st t')).
      pose proof (size_filter_split
                    (λ kv : Z * AdminSession.t,
                       AdminSession.expires_at kv.2 < t)
                    (filter (λ kv : Z * AdminSession.t,
                               AdminSession.expires_at kv.2 < t')
                            (admin_sessions st))) as Hsplit.
      assert (filter (λ kv : Z * AdminSession.t,
                        AdminSession.expires_at kv.2 < t)
                     (filter (λ kv : Z * AdminSession.t,
                                AdminSession.expires_at kv.2 < t')
                             (admin_sessions st))
              = filter (λ kv : Z * AdminSession.t,
                          AdminSession.expires_at kv.2 < t)
                       (admin_sessions st)) as E1.
      { apply map_eq; intros i. apply option_eq; intros x.
        rewrite !map_lookup_filter_Some. cbn. intuition lia. }
      assert (filter (λ kv : Z * AdminSession.t,
                        ¬ AdminSession.expires_at kv.2 < t)
                     (filter (λ kv : Z * AdminSession.t,
                                AdminSession.expires_at kv.2 < t')
                             (admin_sessions st))
              = filter (λ kv : Z * AdminSession.t,
                          AdminSession.expires_at kv.2 < t')
                       (filter (λ kv : Z * AdminSession.t,
                                  t ≤ AdminSession.expires_at kv.2)
                               (admin_sessions st))) as E2.
      { apply map_eq; intros i. apply option_eq; intros x.
        rewrite !map_lookup_filter_Some. cbn. intuition lia. }
      rewrite E1, E2 in Hsplit. lia.
Qed.

(** ** Complaints, menu suggestions, feedback *)

Section MoreSubmissions.
Context `{Runtime}.

(** X15.  [submit_complaint] either stores one complaint under a fresh id
    and answers 201, or answers an error and stores nothing; it never
    touches another table.  A stored complaint has status ['pending'], no
    photos and an urgency among low, medium, high, urgent: with the three
    fields present, the complaint is stored, urgency lower-cased, exactly
    when the lower-cased urgency is one of the four, and is answered
    [INVALID_URGENCY], 400, otherwise. *)
Theorem submit_complaint_outcomes (st : Store) (req : Request) (env : Env) :
  let st' := (submit_complaint st req env).1 in
  let answer := (submit_complaint st req env).2 in
  (votes st' = votes st ∧ feedback st' = feedback st
   ∧ menu_suggestions st' = menu_suggestions st
   ∧ admin_users st' = admin_users st ∧ menu_pdfs st' = menu_pdfs st
   ∧ admin_sessions st' = admin_sessions st)
  ∧ ((∃ id row,
        answer = (Created "Complaint submitted successfully" "complaint_id"
                          id, 201)
        ∧ complaints st !! id = None
        ∧ complaints st' = <[id := row]> (complaints st)
        ∧ Complaint.urgency row ∈ valid_urgency_levels
        ∧ Complaint.status row = "pending"
        ∧ Complaint.photos row = None)
     ∨ (∃ code message, answer.1 = Refused code message
                        ∧ answer.2 ≠ 201 ∧ st' = st))
  ∧ (∀ data category message urgency,
       json req = Some data →
       data !! "category" = Some category →
       data !! "message" = Some message →
       data !! "urgency" = Some urgency →
       category ≠ "" → message ≠ "" → urgency ≠ "" →
       (str_lower urgency ∈ valid_urgency_levels →
        answer.2 = 201
        ∧ complaints st' !! db.next_id (complaints st)
          = Some (Complaint.mk category message (str_lower urgency)
                               (get_client_ip req) (utcnow env)
                               (create_session_id req env) "pending" None))
       ∧ (str_lower urgency ∉ valid_urgency_levels →
          answer
          = (Refused "INVALID_URGENCY"
               "Urgency must be one of: low, medium, high, urgent", 400))).
Proof.
  cbn zeta. split; [|split].
  - unfold submit_complaint. repeat case_match; repeat split; reflexivity.
  - unfold submit_complaint.
    destruct (json req) as [data|];
      [|right; eexists _, _; repeat split; discriminate].
    destruct (missing_field data _);
      [right; eexists _, _; repeat split; discriminate|].
    destruct (bool_decide _) eqn:Hin;
      [|right; eexists _, _; repeat split; discriminate].
    apply bool_decide_eq_true in Hin.
    left. eexists _, _. cbn [fst snd complaints set_complaints].
    split; [reflexivity|]. split; [apply next_id_fresh|].
    split; [reflexivity|]. split; [exact Hin|]. split; reflexivity.
  - intros data category message urgency Hjson Hc Hm Hu Hce Hme Hue.
    unfold submit_complaint. rewrite Hjson.
    cbn [missing_field]. rewrite Hc, Hm, Hu.
    rewrite !truthy_nonempty by assumption.
    unfold item. rewrite Hc, Hm, Hu. cbn [default].
    split; intros Hin.
    + rewrite bool_decide_eq_true_2 by exact Hin.
      cbn [fst snd complaints set_complaints].
      split; [reflexivity|apply lookup_insert_eq].
    + rewrite bool_decide_eq_false_2 by exact Hin. reflexivity.
Qed.

(** X16.  [submit_menu_suggestion] either stores one suggestion under a
    fresh id and answers 201, or answers an error and stores nothing; it
    never touches another table.  With the dish name and the meal type
    present, the suggestion is stored, meal type lower-cased and absent
    ingredients or description as empty strings, exactly when the
    lower-cased meal type is breakfast, lunch, snacks or dinner, and is
    answered [INVALID_MEAL_TYPE], 400, otherwise. *)
Theorem submit_menu_suggestion_outcomes (st : Store) (req : Request)
    (env : Env) :
  let st' := (submit_menu_suggestion st req env).1 in
  let answer := (submit_menu_suggestion st req env).2 in
  (votes st' = votes st ∧ feedback st' = feedback st
   ∧ complaints st' = complaints st
   ∧ admin_users st' = admin_users st ∧ menu_pdfs st' = menu_pdfs st
   ∧ admin_sessions st' = admin_sessions st)
  ∧ ((∃ id row,
        answer = (Created "Menu suggestion submitted successfully"
                          "suggestion_id" id, 201)
        ∧ menu_suggestions st !! id = None
        ∧ menu_suggestions st' = <[id := row]> (menu_suggestions st)
        ∧ MenuSuggestion.meal_type row ∈ valid_meal_types)
     ∨ (∃ code message, answer.1 = Refused code message
                        ∧ answer.2 ≠ 201 ∧ st' = st))
  ∧ (∀ data dish_name meal_type,
       json req = Some data →
       data !! "dish_name" = Some dish_name →
       data !! "meal_type" = Some meal_type →
       dish_name ≠ "" → meal_type ≠ "" →
       (str_lower meal_type ∈ valid_meal_types →
        answer.2 = 201
        ∧ menu_suggestions st' !! db.next_id (menu_suggestions st)
          = Some (MenuSuggestion.mk
                    dish_name (str_lower meal_type)
                    (default "" (data !! "ingredients"))
                    (default "" (data !! "description"))
                    (get_client_ip req) (utcnow env)
                    (create_session_id req env)))
       ∧ (str_lower meal_type ∉ valid_meal_types →
          answer
          = (Refused "INVALID_MEAL_TYPE"
               "Meal type must be one of: breakfast, lunch, snacks, dinner",
             400))).
Proof.
  cbn zeta. split; [|split].
  - unfold submit_menu_suggestion.
    repeat case_match; repeat split; reflexivity.
  - unfold submit_menu_suggestion.
    destruct (json req) as [data|];
      [|right; eexists _, _; repeat split; discriminate].
    destruct (missing_field data _);
      [right; eexists _, _; repeat split; discriminate|].
    destruct (bool_decide _) eqn:Hin;
      [|right; eexists _, _; repeat split; discriminate].
    apply bool_decide_eq_true in Hin.
    left. eexists _, _. cbn [fst snd menu_suggestions set_menu_suggestions].
    split; [reflexivity|]. split; [apply next_id_fresh|].
    split; [reflexivity|exact Hin].
  - intros data dish_name meal_type Hjson Hd Hm Hde Hme.
    unfold submit_menu_suggestion. rewrite Hjson.
    cbn [missing_field]. rewrite Hd, Hm.
    rewrite !truthy_nonempty by assumption.
    unfold item. rewrite Hd, Hm. cbn [default].
    split; intros Hin.
    + rewrite bool_decide_eq_true_2 by exact Hin.
      cbn [fst snd menu_suggestions set_menu_suggestions].
      split; [reflexivity|apply lookup_insert_eq].
    + rewrite bool_decide_eq_false_2 by exact Hin. reflexivity.
Qed.

(** X17.  [submit_feedback], for a body with both required fields and a
    rating that is absent, null or an integer: a rating below 1 or above
    5 is answered [INVALID_RATING], 400, and nothing is stored; otherwise
    the feedback is stored under a fresh id with that rating and the
    answer is 201.  The table's rating check therefore never fails the
    insert. *)
Theorem submit_feedback_rating (rating : option Z) (st : Store)
    (req : Request) (env : Env) (data : gmap string string)
    (feedback_type message : string) :
  json req = Some data →
  data !! "feedback_type" = Some feedback_type →
  data !! "message" = Some message →
  feedback_type ≠ "" → message ≠ "" →
  let st' := (submit_feedback rating st req env).1 in
  let answer := (submit_feedback rating st req env).2 in
  let id := db.next_id (feedback st) in
  ((∃ r, rating = Some r ∧ (r < 1 ∨ 5 < r)) →
   answer = (Refused "INVALID_RATING" "Rating must be between 1 and 5", 400)
   ∧ st' = st)
  ∧ ((∀ r, rating = Some r → 1 ≤ r ≤ 5) →
     answer = (Created "Feedback submitted successfully" "feedback_id" id,
               201)
     ∧ feedback st !! id = None
     ∧ feedback st'
       = <[id := Feedback.mk feedback_type message rating
                             (get_client_ip req) (utcnow env)
                             (create_session_id req env)]> (feedback st)
     ∧ votes st' = votes st ∧ complaints st' = complaints st)
  ∧ answer.2 ≠ 500.
Proof.
  intros Hjson Hf Hm Hfe Hme. cbn zeta.
  unfold submit_feedback. rewrite Hjson.
  cbn [missing_field]. rewrite Hf, Hm.
  rewrite !truthy_nonempty by assumption.
  unfold item. rewrite Hf, Hm. cbn [default].
  unfold add_feedback. cbn [Feedback.rating].
  destruct rating as [r|].
  - destruct (Z.ltb_spec r 1); destruct (Z.ltb_spec 5 r); cbn [orb];
      (split; [|split]).
    all: try (intros _; split; reflexivity).
    all: try (intros Hr; specialize (Hr r eq_refl); lia).
    all: try discriminate.
    + intros (r' & E & Hr'). injection E as <-. lia.
    + intros _.
      destruct (Z.leb_spec 1 r); [|lia]. destruct (Z.leb_spec r 5); [|lia].
      cbn [andb fst snd feedback votes complaints set_feedback].
      split; [reflexivity|]. split; [apply next_id_fresh|].
      repeat split.
    + destruct (Z.leb_spec 1 r); [|lia]. destruct (Z.leb_spec r 5); [|lia].
      cbn. discriminate.
  - split; [|split].
    + intros (r & E & _). discriminate.
    + intros _. cbn [fst snd feedback votes complaints set_feedback].
      split; [reflexivity|]. split; [apply next_id_fresh|]. repeat split.
    + cbn. discriminate.
Qed.

End MoreSubmissions.

(** ** The default admin *)

Section DefaultAdmin.
Context `{Runtime}.

Lemma create_default_admin_present (st : Store) (salt : string) (now : Z)
    i a :
  admin_users st !! i = Some a → AdminUser.username a = "admin" →
  create_default_admin st salt now = st.
Proof.
  intros Hi Ha. unfold create_default_admin.
  destruct (db.first _) as [kv|] eqn:E; [reflexivity|].
  destruct (proj2 (first_filter_none
                     (λ kv : Z * AdminUser.t,
                        AdminUser.username kv.2 = "admin") _) E i a Hi Ha).
Qed.

(** X19.  The start-up block adds the default admin only when no admin is
    named ['admin']: on an empty store it gives the admin id 1, on a store
    that has such a row it changes nothing, so a restart never resets a
    changed password.  On the store of a first start, a login as
    ['admin'] with ['admin123'] succeeds. *)
Theorem default_admin_created_once (salt : string) (now : Z) :
  create_default_admin empty_store salt now = bootstrap salt now
  ∧ (∀ st i a, admin_users st !! i = Some a →
               AdminUser.username a = "admin" →
               create_default_admin st salt now = st)
  ∧ (∀ st salt' now',
       create_default_admin (create_default_admin st salt now) salt' now'
       = create_default_admin st salt now)
  ∧ (count_char ":" salt = 0%nat →
     ∀ req env, credentials req "admin" "admin123" →
       (admin_login (bootstrap salt now) req env).2
       = (LoggedIn (generate_jwt_token env 1 1) 3600
                   (1, "admin", Some "admin@mess.portal"), 200)).
Proof.
  split; [|split; [|split]].
  - unfold create_default_admin. cbn [admin_users empty_store].
    rewrite map_filter_empty.
    assert (db.first (∅ : gmap Z AdminUser.t) = None) as ->
      by (apply first_None; reflexivity).
    unfold db.next_id. rewrite map_to_list_empty. reflexivity.
  - intros st i a. apply create_default_admin_present.
  - intros st salt' now'.
    destruct (db.first (filter (λ kv : Z * AdminUser.t,
                                  AdminUser.username kv.2 = "admin")
                               (admin_users st))) as [[i a]|] eqn:E.
    + apply first_Some, map_lookup_filter_Some in E as [Hi Ha].
      rewrite (create_default_admin_present st salt now i a Hi Ha).
      apply (create_default_admin_present st salt' now' i a Hi Ha).
    + assert (create_default_admin st salt now
              = set_admin_users st
                  (<[db.next_id (admin_users st) :=
                       AdminUser.mk "admin"
                         (AdminUser.hash_password salt "admin123")
                         (Some "admin@mess.portal") now None true]>
                     (admin_users st))) as ->
        by (unfold create_default_admin; rewrite E; reflexivity).
      eapply create_default_admin_present.
      * cbn [admin_users set_admin_users]. apply lookup_insert_eq.
      * reflexivity.
  - intros Hsalt req env (data & Hjson & Hu & Hp).
    unfold admin_login. rewrite Hjson, Hu, Hp.
    unfold bootstrap.
    cbn [admin_users admin_sessions set_admin_users empty_store].
    rewrite map_filter_singleton_True by reflexivity.
    assert (∀ (k : Z) (x : AdminUser.t),
              db.first ({[k := x]} : gmap Z AdminUser.t) = Some (k, x))
      as Hone.
    { intros k x. unfold db.first. rewrite map_to_list_singleton.
      reflexivity. }
    rewrite Hone.
    rewrite (hash_password_verifies
               (AdminUser.mk "admin" (AdminUser.hash_password salt "admin123")
                             (Some "admin@mess.portal") now None true)
               salt "admin123" Hsalt eq_refl).
    cbn [AdminUser.is_active negb].
    rewrite login_session_row.
    destruct (add_session_cases (∅ : gmap Z AdminSession.t)
                (AdminSession.mk 1 (generate_jwt_token env 1 1) (utcnow env)
                                 (utcnow env + 3600) (get_client_ip req)))
      as [[-> _]|[_ (i & s & Hi & _)]].
    + reflexivity.
    + rewrite lookup_empty in Hi. discriminate.
Qed.

End DefaultAdmin.

(** ** What the check tells about the submission *)

Section CheckAndSubmit.
Context `{Runtime}.

(** X20.  For a request with day, meal and dish, [check_vote_status]
    answers [has_voted = True] (with the stored vote) exactly when
    [submit_vote] on the same store would answer [DUPLICATE_VOTE], and
    [has_voted = False] exactly when it would not, whatever happens around
    the submission. *)
Theorem check_predicts_submit (c : Conditions) (st : Store) (req : Request)
    (env : Env) (day meal dish : string) :
  vote_fields req day meal dish →
  ((∃ kv, check_vote_status st req = (st, (VoteStatus true (Some kv), 200)))
   ↔ submit_vote_under c st req env = (st, DUPLICATE_VOTE day meal))
  ∧ (check_vote_status st req = (st, (VoteStatus false None, 200))
     ↔ (submit_vote_under c st req env).2 ≠ DUPLICATE_VOTE day meal).
Proof.
  intros Hf.
  assert (slot_fields req day meal) as Hs.
  { destruct Hf as (data & ? & ? & ? & ? & ? & ? & ?).
    exists data. tauto. }
  rewrite (check_vote_status_validated _ _ _ _ Hs).
  rewrite (submit_vote_under_validated _ _ _ _ _ _ _ Hf). cbn zeta.
  destruct (query_vote _ _ _ _) as [kv|].
  - rewrite bool_decide_eq_true_2 by eauto. split; split.
    + reflexivity.
    + eauto.
    + discriminate.
    + intros Hne. destruct Hne. reflexivity.
  - rewrite bool_decide_eq_false_2 by (intros [? ?]; discriminate).
    cbn [votes set_votes]. split; split.
    + intros [kv E]. discriminate.
    + destruct (db.add_vote _ _ _) as [[]|]; intros E;
        injection E as _ E; discriminate.
    + intros _. destruct (db.add_vote _ _ _) as [[]|]; discriminate.
    + reflexivity.
Qed.

End CheckAndSubmit.

(** ** The admins never change hands *)

Section Admins.
Context `{Runtime}.

Lemma same_admins_refl (t : gmap Z AdminUser.t) : same_admins t t.
Proof. intros i. destruct (t !! i); tauto. Qed.

Lemma same_admins_trans (t1 t2 t3 : gmap Z AdminUser.t) :
  same_admins t1 t2 → same_admins t2 t3 → same_admins t1 t3.
Proof.
  intros H12 H23 i. specialize (H12 i). specialize (H23 i).
  destruct (t1 !! i), (t2 !! i), (t3 !! i); try tauto.
  intuition congruence.
Qed.

Lemma same_admins_update (t : gmap Z AdminUser.t) id a b :
  t !! id = Some a →
  AdminUser.username a = AdminUser.username b →
  AdminUser.email a = AdminUser.email b →
  AdminUser.created_at a = AdminUser.created_at b →
  AdminUser.is_active a = AdminUser.is_active b →
  same_admins t (<[id := b]> t).
Proof.
  intros Hid Hu He Hc Ha i. destruct (decide (i = id)) as [->|Hne].
  - rewrite Hid, lookup_insert_eq. tauto.
  - rewrite lookup_insert_ne by congruence. destruct (t !! i); tauto.
Qed.

Lemma owned_transfer (st st' : Store) :
  same_admins (admin_users st) (admin_users st') →
  (∀ i s, admin_sessions st' !! i = Some s → admin_sessions st !! i = Some s)
  → sessions_owned st → sessions_owned st'.
Proof.
  intros Hsame Hsub Hown i s Hi.
  destruct (Hown i s (Hsub i s Hi)) as [a Ha].
  specialize (Hsame (AdminSession.admin_id s)). rewrite Ha in Hsame.
  destruct (admin_users st' !! AdminSession.admin_id s); [eauto|].
  destruct Hsame.
Qed.

Lemma admin_login_admins (st : Store) (req : Request) (env : Env) :
  same_admins (admin_users st) (admin_users (admin_login st req env).1)
  ∧ (sessions_owned st → sessions_owned (admin_login st req env).1).
Proof.
  unfold admin_login.
  destruct (json req) as [data|]; [|split; [apply same_admins_refl|auto]].
  destruct (data !! "username") as [u|];
    [|split; [apply same_admins_refl|auto]].
  destruct (data !! "password") as [pw|];
    [|split; [apply same_admins_refl|auto]].
  destruct (db.first _) as [[id admin]|] eqn:Hfind;
    [|split; [apply same_admins_refl|auto]].
  apply first_Some, map_lookup_filter_Some in Hfind as [Hid _].
  destruct (AdminUser.verify_password admin pw) as [[|]|];
    try (split; [apply same_admins_refl|auto]).
  destruct (negb _); [split; [apply same_admins_refl|auto]|].
  destruct (add_session _ _) as [table|] eqn:Hadd;
    [|split; [apply same_admins_refl|auto]].
  apply add_session_Return in Hadd. subst table.
  cbn [fst admin_users admin_sessions set_admin_users set_admin_sessions].
  assert (same_admins (admin_users st)
            (<[id := set_last_login admin (utcnow env)]> (admin_users st)))
    as Hsame by (apply (same_admins_update _ _ admin); [exact Hid|..];
                 reflexivity).
  split; [exact Hsame|].
  intros Hown i s Hi.
  cbn [admin_users admin_sessions set_admin_users set_admin_sessions] in *.
  destruct (decide (i = db.next_id (admin_sessions st))) as [->|Hne].
  - rewrite lookup_insert_eq in Hi. injection Hi as <-.
    cbn [AdminSession.admin_id AdminSession.set_token
         AdminSession.create_session].
    rewrite lookup_insert_eq. eauto.
  - rewrite lookup_insert_ne in Hi by congruence.
    destruct (Hown i s Hi) as [a Ha].
    specialize (Hsame (AdminSession.admin_id s)). rewrite Ha in Hsame.
    destruct (_ !! AdminSession.admin_id s); [eauto|destruct Hsame].
Qed.

Lemma sweep_admins (st : Store) (now : Z) :
  same_admins (admin_users st)
              (admin_users (cleanup_expired_sessions st now).1)
  ∧ (sessions_owned st → sessions_owned (cleanup_expired_sessions st now).1).
Proof.
  split; [apply same_admins_refl|].
  apply owned_transfer; [apply same_admins_refl|].
  intros i s. rewrite sweep_sessions.
  intros [Hi _]%map_lookup_filter_Some. exact Hi.
Qed.

Lemma require_admin_auth_admins (f : View) :
  (∀ st req env id a, admin_users st !! id = Some a →
     same_admins (admin_users st) (admin_users (f st req env (id, a)).1)
     ∧ (sessions_owned st → sessions_owned (f st req env (id, a)).1)) →
  ∀ st req env,
    same_admins (admin_users st)
                (admin_users (require_admin_auth f st req env).1)
    ∧ (sessions_owned st →
       sessions_owned (require_admin_auth f st req env).1).
Proof.
  intros Hf st req env.
  destruct (sweep_admins st (utcnow env)) as [Hs Ho].
  unfold require_admin_auth.
  destruct (authorization req) as [[token|raw]|]; try (split; assumption).
  destruct (verify_jwt_token env token) as [id|]; [|split; assumption].
  destruct (id =? 0); [split; assumption|].
  destruct (db.get _ id) as [[admin|]|e] eqn:Hid; try (split; assumption).
  apply get_Return in Hid.
  destruct (AdminUser.is_active admin); [|split; assumption].
  destruct (Hf _ req env id admin Hid) as [Hfs Hfo].
  split; [exact Hfs|]. intros Hown. apply Hfo, Ho, Hown.
Qed.

Lemma step_admins (st st' : Store) :
  step st st' →
  same_admins (admin_users st) (admin_users st')
  ∧ (sessions_owned st → sessions_owned st').
Proof.
  assert (∀ a b : Store, admin_users b = admin_users a →
            admin_sessions b = admin_sessions a →
            same_admins (admin_users a) (admin_users b)
            ∧ (sessions_owned a → sessions_owned b)) as Hsame.
  { intros a b Hu Hs. split; [rewrite Hu; apply same_admins_refl|].
    intros Hown i s Hi. rewrite Hs in Hi. rewrite Hu. exact (Hown i s Hi). }
  destruct 1.
  - apply Hsame; [|apply submit_vote_under_sessions].
    unfold submit_vote_under. repeat case_match; reflexivity.
  - rewrite check_vote_status_store. apply Hsame; reflexivity.
  - apply admin_login_admins.
  - apply require_admin_auth_admins. intros st0 req0 env0 id a Hid.
    unfold admin_logout_view.
    destruct (authorization req0) as [[token|raw]|];
      try (split; [apply same_admins_refl|auto]).
    destruct (db.first _) as [[sid row]|];
      [|split; [apply same_admins_refl|auto]].
    split; [apply same_admins_refl|].
    apply owned_transfer; [apply same_admins_refl|].
    intros i s. cbn [fst admin_sessions set_admin_sessions].
    intros [_ Hi]%lookup_delete_Some. exact Hi.
  - apply require_admin_auth_admins. intros st0 req0 env0 id a Hid.
    split; [apply same_admins_refl|auto].
  - apply require_admin_auth_admins. intros st0 req0 env0 id a Hid.
    unfold change_password_view.
    destruct (json req0) as [data|];
      [|split; [apply same_admins_refl|auto]].
    destruct (missing_field data _);
      [split; [apply same_admins_refl|auto]|].
    destruct (AdminUser.verify_password a _) as [[|]|];
      try (split; [apply same_admins_refl|auto]).
    destruct (Py.len _ <? 6); [split; [apply same_admins_refl|auto]|].
    cbn [fst admin_users admin_sessions set_admin_users set_admin_sessions].
    assert (same_admins (admin_users st0)
              (<[id := set_password_hash a
                         (AdminUser.hash_password (token_hex env0)
                            (item data "new_password"))]> (admin_users st0)))
      as Hupd by (apply (same_admins_update _ _ a); [exact Hid|..];
                  reflexivity).
    split; [exact Hupd|].
    apply owned_transfer; [exact Hupd|].
    intros i s. cbn [fst admin_sessions set_admin_sessions set_admin_users].
    intros [Hi _]%map_lookup_filter_Some. exact Hi.
  - apply Hsame; assumption.
Qed.

(** X21.  No handler creates, deletes, renames, disables or re-addresses
    an admin: in every store the system can reach there is exactly the
    default admin, id 1, named ['admin'] and active, and every session row
    belongs to it.  Only the password hash and [last_login] ever
    change. *)
Theorem reachable_admins (st : Store) :
  reachable st →
  (∃ admin, admin_users st = {[ 1 := admin ]}
            ∧ AdminUser.username admin = "admin"
            ∧ AdminUser.email admin = Some "admin@mess.portal"
            ∧ AdminUser.is_active admin = true)
  ∧ (∀ i s, admin_sessions st !! i = Some s → AdminSession.admin_id s = 1).
Proof.
  intros Hreach.
  assert (∃ salt now, same_admins (admin_users (bootstrap salt now))
                                  (admin_users st)
                      ∧ sessions_owned st) as (salt & now & Hsame & Hown).
  { induction Hreach as [salt now|st st' _ (salt & now & Hs & Ho) Hstep].
    - exists salt, now. split; [apply same_admins_refl|].
      intros i s Hi. cbn in Hi. rewrite lookup_empty in Hi. discriminate.
    - destruct (step_admins _ _ Hstep) as [Hs' Ho'].
      exists salt, now. split; [|apply Ho', Ho].
      eapply same_admins_trans; eassumption. }
  assert (∃ admin, admin_users st = {[ 1 := admin ]}
                   ∧ AdminUser.username admin = "admin"
                   ∧ AdminUser.email admin = Some "admin@mess.portal"
                   ∧ AdminUser.is_active admin = true)
    as (admin & Hadmins & Hrest).
  { pose proof (Hsame 1) as H1. unfold bootstrap in H1.
    cbn [admin_users set_admin_users empty_store] in H1.
    rewrite lookup_singleton_eq in H1.
    destruct (admin_users st !! 1) as [admin|] eqn:Hone; [|destruct H1].
    exists admin. cbn in H1. split; [|intuition congruence].
    apply map_eq. intros i. destruct (decide (i = 1)) as [->|Hne].
    - rewrite lookup_singleton_eq. exact Hone.
    - rewrite lookup_singleton_ne by congruence.
      specialize (Hsame i). unfold bootstrap in Hsame.
      cbn [admin_users set_admin_users empty_store] in Hsame.
      rewrite lookup_singleton_ne in Hsame by congruence.
      destruct (admin_users st !! i); [destruct Hsame|reflexivity]. }
  split; [exists admin; tauto|].
  intros i s Hi. destruct (Hown i s Hi) as [a Ha].
  rewrite Hadmins in Ha.
  apply lookup_singleton_Some in Ha as [Hid _]. congruence.
Qed.

End Admins.

(** ** The further theorems at work on the session *)

Lemma tour_passes :
  @passes example_runtime Tour.st1 2100 Scenario.token 1 Tour.admin1.
Proof.
  exists Tour.payload1. split; [reflexivity|].
  split; [cbn; lia|]. split; [reflexivity|]. split; [lia|].
  split; [vm_compute; reflexivity|reflexivity].
Defined.

Lemma tour_login :
  @admin_login example_runtime Scenario.st0 Scenario.login_request
               Scenario.login_env
  = (Tour.st1,
     (LoggedIn Scenario.token 3600 (1, "admin", Some "admin@mess.portal"),
      200)).
Proof. vm_compute. reflexivity. Defined.

Lemma tour_usernames_unique : usernames_unique (admin_users Scenario.st0).
Proof.
  intros i j a b Hi Hj _.
  change (({[1 := Tour.admin0]} : gmap Z AdminUser.t) !! i = Some a) in Hi.
  change (({[1 := Tour.admin0]} : gmap Z AdminUser.t) !! j = Some b) in Hj.
  apply lookup_singleton_Some in Hi as [<- _].
  apply lookup_singleton_Some in Hj as [<- _]. reflexivity.
Defined.

Lemma tour_body (req : Request) (body : gmap string string) k1 v1 k2 v2 :
  json req = Some body → body = {[ k1 := v1; k2 := v2 ]} → k1 ≠ k2 →
  body !! k1 = Some v1 ∧ body !! k2 = Some v2.
Proof.
  intros _ -> Hne. split.
  - apply lookup_insert_eq.
  - rewrite lookup_insert_ne, lookup_singleton_eq by exact Hne. reflexivity.
Defined.

Lemma token_valid_for_its_lifetime_witness :
  @verify_jwt_token example_runtime Scenario.profile_env
    (jwt.Signed Tour.payload1 "guessed-key") = None.
Proof.
  apply (proj1 (proj2 (@token_valid_for_its_lifetime example_runtime
                         Scenario.login_env Scenario.profile_env 1 1))).
  discriminate.
Defined.



Lemma admin_login_issues_session_witness :
  (@admin_login example_runtime Scenario.st0 Scenario.login_request
                Scenario.login_env).2
  = (LoggedIn Scenario.token 3600 (1, "admin", Some "admin@mess.portal"),
     200).
Proof.
  assert (credentials Scenario.login_request "admin" "admin123") as Hcred.
  { exists {[ "username" := "admin"; "password" := "admin123" ]}.
    split; [reflexivity|].
    apply (tour_body Scenario.login_request _ "username" "admin"
                     "password" "admin123" eq_refl eq_refl).
    discriminate. }
  assert (AdminUser.verify_password Tour.admin0 "admin123" = Return true)
    as Hverify by (vm_compute; reflexivity).
  pose proof (@admin_login_issues_session example_runtime Scenario.st0
                Scenario.login_request Scenario.login_env "admin" "admin123"
                1 Tour.admin0 Hcred tour_usernames_unique eq_refl eq_refl
                Hverify eq_refl) as Hlogin.
  cbn zeta in Hlogin.
  rewrite (proj1 (Hlogin ltac:(intros i s Hi; vm_compute in Hi;
                               discriminate))).
  reflexivity.
Defined.

Lemma login_token_lifetime_witness :
  @require_admin_auth example_runtime get_admin_profile_view Tour.st1
    Tour.logout_request Scenario.late_env
  = ((cleanup_expired_sessions Tour.st1 5601).1, INVALID_TOKEN).
Proof.
  destruct (@login_token_lifetime example_runtime _ _ _ _ _ _ _ _ _
              tour_login ltac:(lia))
    as (admin & sid & session & _ & _ & _ & _ & _ & Hlife).
  apply (proj1 (proj2 (Hlife get_admin_profile_view Tour.logout_request
                             Scenario.late_env eq_refl))).
  cbn. lia.
Defined.

Lemma admin_login_twice_same_second_witness :
  @admin_login example_runtime Tour.st1 Scenario.login_request
               Scenario.login_env
  = (Tour.st1, login_INTERNAL_ERROR).
Proof.
  exact (@admin_login_twice_same_second example_runtime _ _ _ _ _ _ _ _ _ _
           tour_login tour_usernames_unique eq_refl).
Defined.

Lemma tour_tokens_unique : tokens_unique (admin_sessions Tour.st1).
Proof.
  apply (@admin_login_tokens_unique example_runtime).
  intros i j s t Hi. vm_compute in Hi. discriminate.
Defined.

Lemma tour_reachable : @reachable example_runtime Tour.st1.
Proof.
  exact (@reachable_step example_runtime _ _
           (@reachable_bootstrap example_runtime
              "00112233445566778899aabbccddeeff" 1000)
           (@step_admin_login example_runtime Scenario.st0
              Scenario.login_request Scenario.login_env)).
Defined.

Lemma admin_logout_deletes_row_only_witness :
  let st' := (@admin_logout example_runtime Tour.st1 Tour.logout_request
                            Tour.env2100).1 in
  admin_sessions st' = ∅
  ∧ ∃ id admin,
      @require_admin_auth example_runtime get_admin_profile_view st'
        Tour.logout_request Scenario.profile_env
      = get_admin_profile_view (cleanup_expired_sessions st' 2200).1
          Tour.logout_request Scenario.profile_env (id, admin).
Proof.
  cbn zeta.
  assert (@admin_logout example_runtime Tour.st1 Tour.logout_request
                        Tour.env2100
          = ((@admin_logout example_runtime Tour.st1 Tour.logout_request
                            Tour.env2100).1,
             (Success "Logged out successfully", 200))) as Hok
    by (vm_compute; reflexivity).
  split; [vm_compute; reflexivity|].
  apply (proj2 (proj2 (proj2 (@admin_logout_deletes_row_only example_runtime
                                Tour.st1 _ Tour.logout_request Tour.env2100
                                Scenario.token eq_refl Hok
                                tour_tokens_unique)))
           get_admin_profile_view Tour.logout_request Scenario.profile_env
           eq_refl).
  exists 1. vm_compute. reflexivity.
Defined.

Lemma reachable_sessions_sound_witness :
  tokens_unique (admin_sessions Tour.st1)
  ∧ sessions_issued (admin_sessions Tour.st1).
Proof.
  exact (@reachable_sessions_sound example_runtime Tour.st1 tour_reachable).
Defined.

Lemma change_password_refusals_witness :
  (@change_password example_runtime Tour.st1
     (Tour.change_with Tour.wrong_current) Tour.env2100).2
  = (Error "INVALID_PASSWORD" "Current password is incorrect" None, 400)
  ∧ (@change_password example_runtime Tour.st1
       (Tour.change_with Tour.short_new) Tour.env2100).2
    = (Error "WEAK_PASSWORD"
             "New password must be at least 6 characters long" None, 400).
Proof.
  split.
  - destruct (tour_body (Tour.change_with Tour.wrong_current) _
                "current_password" "guess" "new_password" "n3w-secret"
                eq_refl eq_refl ltac:(discriminate)) as [Hc Hn].
    rewrite (proj1 (@change_password_refusals example_runtime Tour.st1
                      (Tour.change_with Tour.wrong_current) Tour.env2100
                      Scenario.token 1 Tour.admin1 _ "guess" "n3w-secret"
                      eq_refl tour_passes eq_refl Hc Hn
                      ltac:(discriminate) ltac:(discriminate))
               ltac:(vm_compute; reflexivity)).
    reflexivity.
  - destruct (tour_body (Tour.change_with Tour.short_new) _
                "current_password" "admin123" "new_password" "abc"
                eq_refl eq_refl ltac:(discriminate)) as [Hc Hn].
    rewrite (proj2 (@change_password_refusals example_runtime Tour.st1
                      (Tour.change_with Tour.short_new) Tour.env2100
                      Scenario.token 1 Tour.admin1 _ "admin123" "abc"
                      eq_refl tour_passes eq_refl Hc Hn
                      ltac:(discriminate) ltac:(discriminate))
               ltac:(vm_compute; reflexivity)
               ltac:(vm_compute; reflexivity)).
    reflexivity.
Defined.

Lemma change_password_stores_new_hash_witness :
  (@change_password example_runtime Tour.st1
     (Tour.change_with Tour.good_change) Tour.env2100).2
  = password_changed
  ∧ AdminUser.verify_password
      (set_password_hash Tour.admin1
         (AdminUser.hash_password "ffeeddccbbaa99887766554433221100"
                                  "n3w-secret")) "n3w-secret"
    = Return true.
Proof.
  destruct (tour_body (Tour.change_with Tour.good_change) _
              "current_password" "admin123" "new_password" "n3w-secret"
              eq_refl eq_refl ltac:(discriminate)) as [Hc Hn].
  pose proof (@change_password_stores_new_hash example_runtime Tour.st1
                (Tour.change_with Tour.good_change) Tour.env2100
                Scenario.token 1 Tour.admin1 _ "admin123" "n3w-secret"
                eq_refl tour_passes eq_refl Hc Hn ltac:(discriminate)
                ltac:(vm_compute; reflexivity)
                ltac:(vm_compute; discriminate)
                ltac:(vm_compute; reflexivity)) as Hchange.
  cbn zeta in Hchange.
  destruct Hchange as (Hanswer & _ & _ & _ & Hverify & _).
  split; [exact Hanswer|exact Hverify].
Defined.

Lemma missing_field_reported_witness :
  @submit_vote example_runtime Scenario.st0 (Tour.post Tour.no_meal)
               Scenario.vote_env
  = (Scenario.st0, MISSING_FIELD "meal").
Proof.
  apply (proj1 (@missing_field_reported example_runtime calm Scenario.st0
                  (Tour.post Tour.no_meal) Scenario.vote_env Tour.no_meal
                  ["day"] ["dish"] "meal" eq_refl
                  ltac:(intros g Hg; apply list_elem_of_singleton in Hg;
                        subst g; exists "monday";
                        split; [vm_compute; reflexivity|discriminate])
                  ltac:(right; vm_compute; reflexivity))).
  reflexivity.
Defined.

Lemma other_key_accepted_witness :
  let st1 := (@submit_vote example_runtime Scenario.st0
                (Scenario.vote_request "monday" "lunch" "Dosa")
                Scenario.vote_env).1 in
  ∃ id2,
    (@submit_vote example_runtime st1
       (Scenario.vote_request "monday" "dinner" "Roti")
       Scenario.vote_env).2
    = (VoteSubmitted "Vote submitted successfully" id2, 201).
Proof.
  cbn zeta.
  destruct (@other_key_accepted example_runtime Scenario.st0
              (Scenario.vote_request "monday" "lunch" "Dosa")
              (Scenario.vote_request "monday" "dinner" "Roti")
              Scenario.vote_env Scenario.vote_env
              "monday" "lunch" "Dosa" "monday" "dinner" "Roti")
    as (id1 & id2 & vote1 & vote2 & Hanswer & _).
  - scenario_fields.
  - scenario_fields.
  - scenario_no_vote.
  - scenario_no_vote.
  - vm_compute. discriminate.
  - exists id2. exact Hanswer.
Defined.

Lemma votes_are_permanent_witness :
  let voted := (@submit_vote example_runtime Scenario.st0
                  (Scenario.vote_request "monday" "lunch" "Dosa")
                  Scenario.vote_env).1 in
  ∃ vote,
    votes (@admin_login example_runtime voted Scenario.login_request
                        Scenario.login_env).1 !! 1 = Some vote.
Proof.
  cbn zeta. eexists.
  apply (@votes_are_permanent example_runtime
           (@submit_vote example_runtime Scenario.st0
              (Scenario.vote_request "monday" "lunch" "Dosa")
              Scenario.vote_env).1).
  - apply rtc_once. apply (@serve_admin_login example_runtime).
  - vm_compute. reflexivity.
Defined.

Lemma cleanup_expired_sessions_composes_witness :
  cleanup_expired_sessions (cleanup_expired_sessions Tour.st1 5601).1 2100
  = ((cleanup_expired_sessions Tour.st1 5601).1, 0%nat)
  ∧ (cleanup_expired_sessions (cleanup_expired_sessions Tour.st1 2100).1
                              5601).1
    = (cleanup_expired_sessions Tour.st1 5601).1.
Proof.
  split.
  - apply (proj1 (proj2 (cleanup_expired_sessions_composes Tour.st1 5601
                                                           2100))).
    lia.
  - apply (proj2 (proj2 (cleanup_expired_sessions_composes Tour.st1 2100
                                                           5601))).
    lia.
Defined.

Ltac listed := vm_compute; repeat constructor.
Ltac not_listed :=
  let Hin := fresh "Hin" in
  vm_compute; intros Hin;
  repeat (apply elem_of_cons in Hin as [Hin|Hin]; [discriminate|]);
  apply elem_of_nil in Hin; exact Hin.

Lemma submit_complaint_outcomes_witness :
  (@submit_complaint example_runtime Scenario.st0
     (Tour.post (Tour.complaint_body "URGENT")) Scenario.vote_env).2.2 = 201
  ∧ (@submit_complaint example_runtime Scenario.st0
       (Tour.post (Tour.complaint_body "asap")) Scenario.vote_env).2
    = (Refused "INVALID_URGENCY"
               "Urgency must be one of: low, medium, high, urgent", 400).
Proof.
  assert (∀ u, Tour.complaint_body u !! "category" = Some "hygiene"
               ∧ Tour.complaint_body u !! "message" = Some "dirty plates"
               ∧ Tour.complaint_body u !! "urgency" = Some u) as Hbody.
  { intros u. unfold Tour.complaint_body.
    rewrite lookup_insert_eq.
    rewrite (lookup_insert_ne _ "category" "message") by discriminate.
    rewrite lookup_insert_eq.
    rewrite (lookup_insert_ne _ "category" "urgency") by discriminate.
    rewrite (lookup_insert_ne _ "message" "urgency") by discriminate.
    rewrite lookup_singleton_eq. repeat split. }
  split.
  - destruct (Hbody "URGENT") as (Hc & Hm & Hu).
    apply (proj1 (proj2 (proj2 (@submit_complaint_outcomes example_runtime
                                  Scenario.st0
                                  (Tour.post (Tour.complaint_body "URGENT"))
                                  Scenario.vote_env))
                    _ "hygiene" "dirty plates" "URGENT" eq_refl Hc Hm Hu
                    ltac:(discriminate) ltac:(discriminate)
                    ltac:(discriminate))).
    listed.
  - destruct (Hbody "asap") as (Hc & Hm & Hu).
    apply (proj2 (proj2 (@submit_complaint_outcomes example_runtime
                           Scenario.st0
                           (Tour.post (Tour.complaint_body "asap"))
                           Scenario.vote_env))
             _ "hygiene" "dirty plates" "asap" eq_refl Hc Hm Hu
             ltac:(discriminate) ltac:(discriminate) ltac:(discriminate)).
    not_listed.
Defined.

Lemma submit_menu_suggestion_outcomes_witness :
  (@submit_menu_suggestion example_runtime Scenario.st0
     (Tour.post (Tour.suggestion_body "Dinner")) Scenario.vote_env).2.2 = 201
  ∧ (@submit_menu_suggestion example_runtime Scenario.st0
       (Tour.post (Tour.suggestion_body "brunch")) Scenario.vote_env).2
    = (Refused "INVALID_MEAL_TYPE"
         "Meal type must be one of: breakfast, lunch, snacks, dinner", 400).
Proof.
  assert (∀ m, Tour.suggestion_body m !! "dish_name" = Some "Upma"
               ∧ Tour.suggestion_body m !! "meal_type" = Some m) as Hbody.
  { intros m. unfold Tour.suggestion_body.
    rewrite lookup_insert_eq.
    rewrite (lookup_insert_ne _ "dish_name" "meal_type") by discriminate.
    rewrite lookup_singleton_eq. split; reflexivity. }
  split.
  - destruct (Hbody "Dinner") as (Hd & Hm).
    apply (proj1 (proj2 (proj2 (@submit_menu_suggestion_outcomes
                                  example_runtime Scenario.st0
                                  (Tour.post (Tour.suggestion_body "Dinner"))
                                  Scenario.vote_env))
                    _ "Upma" "Dinner" eq_refl Hd Hm
                    ltac:(discriminate) ltac:(discriminate))).
    listed.
  - destruct (Hbody "brunch") as (Hd & Hm).
    apply (proj2 (proj2 (@submit_menu_suggestion_outcomes
                           example_runtime Scenario.st0
                           (Tour.post (Tour.suggestion_body "brunch"))
                           Scenario.vote_env))
             _ "Upma" "brunch" eq_refl Hd Hm
             ltac:(discriminate) ltac:(discriminate)).
    not_listed.
Defined.

Lemma submit_feedback_rating_witness :
  (@submit_feedback example_runtime (Some 6) Scenario.st0
     (Tour.post Tour.feedback_body) Scenario.vote_env).2
  = (Refused "INVALID_RATING" "Rating must be between 1 and 5", 400)
  ∧ (@submit_feedback example_runtime (Some 5) Scenario.st0
       (Tour.post Tour.feedback_body) Scenario.vote_env).2
    = (Created "Feedback submitted successfully" "feedback_id" 1, 201).
Proof.
  destruct (tour_body (Tour.post Tour.feedback_body) _
              "feedback_type" "food" "message" "good"
              eq_refl eq_refl ltac:(discriminate)) as [Hf Hm].
  split.
  - apply (proj1 (@submit_feedback_rating example_runtime (Some 6)
                    Scenario.st0 (Tour.post Tour.feedback_body)
                    Scenario.vote_env _ "food" "good" eq_refl Hf Hm
                    ltac:(discriminate) ltac:(discriminate))).
    exists 6. split; [reflexivity|lia].
  - apply (proj1 (proj2 (@submit_feedback_rating example_runtime (Some 5)
                           Scenario.st0 (Tour.post Tour.feedback_body)
                           Scenario.vote_env _ "food" "good" eq_refl Hf Hm
                           ltac:(discriminate) ltac:(discriminate)))).
    intros r E. injection E as <-. lia.
Defined.

Lemma default_admin_created_once_witness :
  (@admin_login example_runtime Scenario.st0 Scenario.login_request
                Scenario.login_env).2
  = (LoggedIn (@generate_jwt_token example_runtime Scenario.login_env 1 1)
              3600 (1, "admin", Some "admin@mess.portal"), 200).
Proof.
  apply (proj2 (proj2 (proj2 (@default_admin_created_once example_runtime
                                "00112233445566778899aabbccddeeff" 1000)))
           ltac:(vm_compute; reflexivity)).
  exists {[ "username" := "admin"; "password" := "admin123" ]}.
  split; [reflexivity|].
  apply (tour_body Scenario.login_request _ "username" "admin"
                   "password" "admin123" eq_refl eq_refl).
  discriminate.
Defined.


Lemma check_predicts_submit_witness :
  let voted := (@submit_vote example_runtime Scenario.st0
                  (Scenario.vote_request "monday" "lunch" "Dosa")
                  Scenario.vote_env).1 in
  @check_vote_status example_runtime Scenario.st0
    (Scenario.vote_request "monday" "lunch" "Dosa")
  = (Scenario.st0, (VoteStatus false None, 200))
  ∧ ∃ kv, @check_vote_status example_runtime voted
            (Scenario.vote_request "Monday" "Lunch" "Idli")
          = (voted, (VoteStatus true (Some kv), 200)).
Proof.
  cbn zeta. split.
  - apply (proj2 (@check_predicts_submit example_runtime calm Scenario.st0
                    (Scenario.vote_request "monday" "lunch" "Dosa")
                    Scenario.vote_env "monday" "lunch" "Dosa"
                    ltac:(scenario_fields))).
    vm_compute. discriminate.
  - apply (proj1 (@check_predicts_submit example_runtime calm _
                    (Scenario.vote_request "Monday" "Lunch" "Idli")
                    Scenario.vote_env "Monday" "Lunch" "Idli"
                    ltac:(scenario_fields))).
    vm_compute. reflexivity.
Defined.

Lemma reachable_admins_witness :
  @reachable example_runtime Tour.st1
  ∧ ∃ admin, admin_users Tour.st1 = {[ 1 := admin ]}
             ∧ AdminUser.username admin = "admin"
             ∧ AdminUser.email admin = Some "admin@mess.portal"
             ∧ AdminUser.is_active admin = true.
Proof.
  split; [exact tour_reachable|].
  exact (proj1 (@reachable_admins example_runtime Tour.st1 tour_reachable)).
Defined.
